(** * Footlocker checkout scripts: a shallow embedding and its properties

    The Python sources (footlocker_checkout.py, enhanced_checkout.py,
    order_placer.py, adyen_encryption.py, config.py) are embedded as
    functions in a state-and-exception monad.  The state carries the two
    identifiers the checkout objects keep (cart_id, guest_id) and the
    environment the scripts talk to: the HTTP transport, the log, the
    console, the random source and the clock.

    Conventions of the embedding:
    - a JSON tree / Python value is a [pyval]; a dict keeps its insertion
      order as an association list with distinct keys;
    - JSON numbers are integers ([Z]); the stock counts, status codes and
      timestamps the scripts read are integers;
    - [requests.Session.get/post] is one call of [session_request]: it asks
      the transport oracle for the outcome of the n-th exchange, records the
      request, and either returns the response or raises; the redirects the
      HTTP library may follow on the way to that response are inside the
      oracle, so a recorded request is what the code asked the session for;
    - [random.choice], [secrets.choice] read the next cell of the random
      tape, [time.time() * 1000] truncated to an integer reads the next cell
      of the clock tape;
    - an f-string passed to [logging] is kept as its list of fragments;
    - [except Exception] catches every exception of the model: those that
      are no [Exception] in Python (KeyboardInterrupt, SystemExit) are not
      modelled. *)

From Stdlib Require Import String Ascii ZArith List Bool Arith Lia DecimalString.
Import ListNotations.
Local Open Scope string_scope.
Set Warnings "-register-all".

(** ** Python values *)

Inductive pyval : Type :=
| PNone
| PBool (b : bool)
| PInt (z : Z)
| PStr (s : string)
| PList (l : list pyval)
| PDict (d : list (string * pyval)).

Definition dict : Type := list (string * pyval).

(** [bool(v)] *)
Definition truthy (v : pyval) : bool :=
  match v with
  | PNone => false
  | PBool b => b
  | PInt z => negb (Z.eqb z 0)
  | PStr s => negb (String.eqb s "")
  | PList l => match l with [] => false | _ :: _ => true end
  | PDict d => match d with [] => false | _ :: _ => true end
  end.

(** [d.get(k)] on a dict, [None] of option when the key is absent *)
Fixpoint dict_lookup (d : dict) (k : string) : option pyval :=
  match d with
  | [] => None
  | (k', v) :: rest => if String.eqb k k' then Some v else dict_lookup rest k
  end.

(** [d.get(k, default)] *)
Definition dict_get (d : dict) (k : string) (default : pyval) : pyval :=
  match dict_lookup d k with
  | Some v => v
  | None => default
  end.

(** [d[k] = v]: replaces in place, appends a new key at the end *)
Fixpoint dict_set (d : dict) (k : string) (v : pyval) : dict :=
  match d with
  | [] => [(k, v)]
  | (k', v') :: rest =>
      if String.eqb k k' then (k', v) :: rest else (k', v') :: dict_set rest k v
  end.

(** [d.update(e)] *)
Definition dict_update (d e : dict) : dict :=
  fold_left (fun acc kv => dict_set acc (fst kv) (snd kv)) e d.

(** the same two operations on a dict of header strings *)
Fixpoint headers_set (d : list (string * string)) (k v : string)
  : list (string * string) :=
  match d with
  | [] => [(k, v)]
  | (k', v') :: rest =>
      if String.eqb k k' then (k', v) :: rest else (k', v') :: headers_set rest k v
  end.

Definition headers_update (d e : list (string * string)) : list (string * string) :=
  fold_left (fun acc kv => headers_set acc (fst kv) (snd kv)) e d.

(** [v == s] for a string literal [s] *)
Definition py_eq_str (v : pyval) (s : string) : bool :=
  match v with
  | PStr s' => String.eqb s' s
  | _ => false
  end.

Definition type_name (v : pyval) : string :=
  match v with
  | PNone => "NoneType"
  | PBool _ => "bool"
  | PInt _ => "int"
  | PStr _ => "str"
  | PList _ => "list"
  | PDict _ => "dict"
  end.

(** ** Exceptions *)

Inductive exn : Type :=
| RequestException (msg : string)   (* timeout, connection reset, ... *)
| JSONDecodeError (msg : string)    (* response.json() on a malformed body *)
| AttributeError (msg : string)
| TypeError (msg : string)
| KeyError (key : string)            (* the key as repr shows it *)
| IndexError (msg : string)
| EOFError (msg : string).

(** [str(e)] *)
Definition str_exn (e : exn) : string :=
  match e with
  | RequestException m => m
  | JSONDecodeError m => m
  | AttributeError m => m
  | TypeError m => m
  | KeyError k => k
  | IndexError m => m
  | EOFError m => m
  end.

(** ** HTTP requests and responses *)

Inductive http_method : Type := GET | POST.

Definition headers : Type := list (string * string).

Record request : Type := mkRequest {
  req_method : http_method;
  req_url : string;
  req_headers : option headers;   (* the headers= argument *)
  req_json : option pyval         (* the json= argument *)
}.

Record response : Type := mkResponse {
  status_code : Z;
  text : string;
  json_body : option pyval        (* None: the body is not JSON *)
}.

Inductive outcome : Type :=
| Fault (msg : string)            (* the exchange raised *)
| Resp (r : response).

(** ** Logging *)

Inductive level : Type := INFO | WARNING | ERROR.

(** an f-string, fragment by fragment *)
Inductive frag : Type :=
| Lit (s : string)
| Val (v : pyval).                (* {v}, rendered by str *)

Definition log_entry : Type := (level * list frag)%type.

(** ** The state threaded through every call *)

Record State : Type := mkState {
  cart_id : pyval;                          (* self.cart_id *)
  guest_id : pyval;                         (* self.guest_id *)
  transport : nat -> request -> outcome;    (* outcome of the n-th exchange *)
  sent : list request;                      (* exchanges made, oldest first *)
  logs : list log_entry;                    (* oldest first *)
  stdout : list string;
  stdin : nat -> option string;             (* None: end of input *)
  ipos : nat;
  rand : nat -> nat;                        (* the random tape *)
  rpos : nat;
  clock : nat -> Z;                         (* milliseconds since the epoch *)
  cpos : nat
}.

Definition set_cart_id (v : pyval) (s : State) : State :=
  mkState v (guest_id s) (transport s) (sent s) (logs s) (stdout s)
          (stdin s) (ipos s) (rand s) (rpos s) (clock s) (cpos s).
Definition set_guest_id (v : pyval) (s : State) : State :=
  mkState (cart_id s) v (transport s) (sent s) (logs s) (stdout s)
          (stdin s) (ipos s) (rand s) (rpos s) (clock s) (cpos s).
Definition set_sent (l : list request) (s : State) : State :=
  mkState (cart_id s) (guest_id s) (transport s) l (logs s) (stdout s)
          (stdin s) (ipos s) (rand s) (rpos s) (clock s) (cpos s).
Definition set_logs (l : list log_entry) (s : State) : State :=
  mkState (cart_id s) (guest_id s) (transport s) (sent s) l (stdout s)
          (stdin s) (ipos s) (rand s) (rpos s) (clock s) (cpos s).
Definition set_stdout (l : list string) (s : State) : State :=
  mkState (cart_id s) (guest_id s) (transport s) (sent s) (logs s) l
          (stdin s) (ipos s) (rand s) (rpos s) (clock s) (cpos s).
Definition set_ipos (n : nat) (s : State) : State :=
  mkState (cart_id s) (guest_id s) (transport s) (sent s) (logs s) (stdout s)
          (stdin s) n (rand s) (rpos s) (clock s) (cpos s).
Definition set_rpos (n : nat) (s : State) : State :=
  mkState (cart_id s) (guest_id s) (transport s) (sent s) (logs s) (stdout s)
          (stdin s) (ipos s) (rand s) n (clock s) (cpos s).
Definition set_cpos (n : nat) (s : State) : State :=
  mkState (cart_id s) (guest_id s) (transport s) (sent s) (logs s) (stdout s)
          (stdin s) (ipos s) (rand s) (rpos s) (clock s) n.

(** ** The monad: state and exceptions *)

Inductive result (A : Type) : Type :=
| Ok (a : A)
| Raise (e : exn).
Arguments Ok {A} a.
Arguments Raise {A} e.

Definition M (A : Type) : Type := State -> result A * State.

Definition ret {A} (a : A) : M A := fun s => (Ok a, s).

Definition bind {A B} (c : M A) (k : A -> M B) : M B :=
  fun s =>
    match c s with
    | (Ok a, s') => k a s'
    | (Raise e, s') => (Raise e, s')
    end.

Definition raise {A} (e : exn) : M A := fun s => (Raise e, s).

(** [try: body  except Exception as e: handler e]; what the body did to the
    state before raising stays done *)
Definition try_except {A} (body : M A) (handler : exn -> M A) : M A :=
  fun s =>
    match body s with
    | (Ok a, s') => (Ok a, s')
    | (Raise e, s') => handler e s'
    end.

Declare Scope py_scope.
Delimit Scope py_scope with py.
Notation "x <- c ;; k" := (bind c (fun x => k))
  (at level 61, c at next level, right associativity) : py_scope.
Notation "c ;; k" := (bind c (fun _ => k))
  (at level 61, right associativity) : py_scope.
Local Open Scope py_scope.

(** ** Primitive effects *)

Definition logging (l : level) (msg : list frag) : M unit :=
  fun s => (Ok tt, set_logs (logs s ++ [(l, msg)]) s).

Definition print (line : string) : M unit :=
  fun s => (Ok tt, set_stdout (stdout s ++ [line]) s).

(** [input()] *)
Definition input : M string :=
  fun s =>
    match stdin s (ipos s) with
    | Some l => (Ok l, set_ipos (S (ipos s)) s)
    | None => (Raise (EOFError "EOF when reading a line"), s)
    end.

(** [self.cart_id = v], [self.guest_id = v] and their reads *)
Definition store_cart_id (v : pyval) : M unit :=
  fun s => (Ok tt, set_cart_id v s).
Definition store_guest_id (v : pyval) : M unit :=
  fun s => (Ok tt, set_guest_id v s).
Definition load_cart_id : M pyval := fun s => (Ok (cart_id s), s).
Definition load_guest_id : M pyval := fun s => (Ok (guest_id s), s).

(** [int(time.time() * 1000)] *)
Definition time_ms : M Z :=
  fun s => (Ok (clock s (cpos s)), set_cpos (S (cpos s)) s).

(** [random.choice(seq)] and [secrets.choice(seq)] on a string *)
Definition choice (seq : string) : M ascii :=
  fun s =>
    match String.get (rand s (rpos s) mod String.length seq) seq with
    | Some c => (Ok c, set_rpos (S (rpos s)) s)
    | None => (Raise (IndexError "Cannot choose from an empty sequence"), s)
    end.

(** [''.join([choice(seq) for _ in range(n)])] *)
Fixpoint join_choices (seq : string) (n : nat) : M string :=
  match n with
  | O => ret ""
  | S n' =>
      c <- choice seq ;;
      rest <- join_choices seq n' ;;
      ret (String c rest)
  end.

(** one byte of [secrets.token_bytes] *)
Definition token_byte : M nat :=
  fun s => (Ok (rand s (rpos s) mod 256), set_rpos (S (rpos s)) s).

(** the hex digit of a nibble *)
Definition hex_digit (n : nat) : ascii :=
  match String.get n "0123456789abcdef" with
  | Some c => c
  | None => "0"%char
  end.

(** [secrets.token_hex(nbytes)]: [nbytes] random bytes, two hex digits for
    each, the high nibble first *)
Fixpoint token_hex (nbytes : nat) : M string :=
  match nbytes with
  | O => ret ""
  | S n =>
      b <- token_byte ;;
      rest <- token_hex n ;;
      ret (String (hex_digit (b / 16)) (String (hex_digit (b mod 16)) rest))
  end.

(** [self.session.get(...)], [self.session.post(...)]: one exchange *)
Definition session_request (r : request) : M response :=
  fun s =>
    let s' := set_sent (sent s ++ [r]) s in
    match transport s (List.length (sent s)) r with
    | Resp resp => (Ok resp, s')
    | Fault msg => (Raise (RequestException msg), s')
    end.

Definition session_get (url : string) (h : option headers) : M response :=
  session_request (mkRequest GET url h None).

Definition session_post (url : string) (h : option headers) (payload : pyval)
  : M response :=
  session_request (mkRequest POST url h (Some payload)).

(** [response.json()] *)
Definition response_json (r : response) : M pyval :=
  match json_body r with
  | Some v => ret v
  | None => raise (JSONDecodeError "Expecting value")
  end.

(** [v.get(k, default)] on an arbitrary value *)
Definition py_get (v : pyval) (k : string) (default : pyval) : M pyval :=
  match v with
  | PDict d => ret (dict_get d k default)
  | _ => raise (AttributeError
                  ("'" ++ type_name v ++ "' object has no attribute 'get'"))
  end.

(** [v[0]] *)
Definition py_index0 (v : pyval) : M pyval :=
  match v with
  | PList (x :: _) => ret x
  | PList [] => raise (IndexError "list index out of range")
  | PStr (String c _) => ret (PStr (String c ""))
  | PStr EmptyString => raise (IndexError "string index out of range")
  | PDict _ => raise (KeyError "0")
  | _ => raise (TypeError ("'" ++ type_name v ++ "' object is not subscriptable"))
  end.

(** [v[k]] for a string key *)
Definition py_item (v : pyval) (k : string) : M pyval :=
  match v with
  | PDict d =>
      match dict_lookup d k with
      | Some x => ret x
      | None => raise (KeyError ("'" ++ k ++ "'"))
      end
  | PList _ => raise (TypeError "list indices must be integers or slices, not str")
  | PStr _ => raise (TypeError "string indices must be integers, not 'str'")
  | _ => raise (TypeError ("'" ++ type_name v ++ "' object is not subscriptable"))
  end.

(** [v[k] = x] *)
Definition py_setitem (v : pyval) (k : string) (x : pyval) : M pyval :=
  match v with
  | PDict d => ret (PDict (dict_set d k x))
  | PList _ => raise (TypeError "list indices must be integers or slices, not str")
  | _ => raise (TypeError ("'" ++ type_name v
                           ++ "' object does not support item assignment"))
  end.

(** the items a [for] loop over [v] visits: the elements of a list, the keys
    of a dict, the characters of a string *)
Definition py_iter (v : pyval) : M (list pyval) :=
  match v with
  | PList l => ret l
  | PDict d => ret (map (fun kv => PStr (fst kv)) d)
  | PStr s => ret (map (fun c => PStr (String c "")) (list_ascii_of_string s))
  | _ => raise (TypeError ("'" ++ type_name v ++ "' object is not iterable"))
  end.

(** [v > 0] *)
Definition py_gt0 (v : pyval) : M bool :=
  match v with
  | PInt z => ret (Z.ltb 0 z)
  | PBool b => ret b
  | _ => raise (TypeError
                  ("'>' not supported between instances of '" ++ type_name v
                   ++ "' and 'int'"))
  end.

(** [str(n)] for an integer *)
Definition str_of_Z (z : Z) : string := NilZero.string_of_int (Z.to_int z).

(** the double-quote character, and a quoted word *)
Definition dq : string := String (ascii_of_nat 34) "".
Definition q (s : string) : string := dq ++ s ++ dq.

Definition hexdigits : string := "0123456789abcdef".

(** the newline character, and [s * n] *)
Definition nl : string := String (ascii_of_nat 10) "".
Fixpoint repeat_str (s : string) (n : nat) : string :=
  match n with
  | O => ""
  | S n' => s ++ repeat_str s n'
  end.

(** [if response.text: logging.error(f"Response: {response.text}")] *)
Definition log_response_text (response : response) : M unit :=
  if negb (String.eqb (text response) "") then
    logging ERROR [Lit "Response: "; Lit (text response)]
  else ret tt.

(** [d[k]] on a dict *)
Definition dict_item (d : dict) (k : string) : M pyval :=
  match dict_lookup d k with
  | Some x => ret x
  | None => raise (KeyError ("'" ++ k ++ "'"))
  end.

(** [logging.info(f"<prefix>{cart_data.get('totalUnitCount', 0)}, Total:
    {cart_data.get('totalPriceWithTax', {}).get('formattedValue', 'N/A')}")] *)
Definition log_cart_line (prefix : string) (cart_data : pyval) : M unit :=
  items <- py_get cart_data "totalUnitCount" (PInt 0) ;;
  tp <- py_get cart_data "totalPriceWithTax" (PDict []) ;;
  total <- py_get tp "formattedValue" (PStr "N/A") ;;
  logging INFO [Lit prefix; Val items; Lit ", Total: "; Val total].

(** the newrelic f-string of FootlockerCheckout and FootlockerOrderPlacer *)
Definition newrelic_fstring (id tr timestamp : string) : string :=
  "{" ++ q "v" ++ ":[0,1]," ++ q "d" ++ ":{" ++ q "ty" ++ ":" ++ q "Browser"
  ++ "," ++ q "ac" ++ ":" ++ q "2684125" ++ "," ++ q "ap" ++ ":"
  ++ q "655559411" ++ "," ++ q "id" ++ ":" ++ q id ++ "," ++ q "tr"
  ++ ":" ++ q tr ++ "," ++ q "ti" ++ ":" ++ timestamp ++ ","
  ++ q "tk" ++ ":" ++ q "3671077" ++ "}}".

(** ** config.py *)

Module config.

Definition ak_bmsc_fl_com : string :=
  "0crWWT42ZZJrWrJm0d1AlHuZ9zhvanN7AHGkKcyPvWqJhKXWU8etGwodKFUmkVe2YiNp4v3BABFd2SbvJ7epV04o0WSLCMmOTOuk8tVq5sPHEVANXgBbbXHN0QvoxW2laffvh9XeFZ7clJSkirYKoBIm8r3kQbPwrAbSU4ibtrF".

Definition USER_AGENT : string :=
  "Mozilla/5.0 (Windows NT 10.0; Win64; x64) AppleWebKit/537.36 (KHTML, like Gecko) Chrome/138.0.0.0 Safari/537.36".

(** an entry of the catalogue; prices are whole dollars *)
Record product : Type := mkProduct {
  sku : string;
  name : string;
  available_sizes : list string;
  price : Z
}.

Definition PRODUCTS : list (string * product) :=
  [ ("jordan_5_retro",
     mkProduct "H7980100"
               "Jordan Air Jordan 5 Retro OG - Boys' Grade School"
               ["03.5"; "04.0"; "04.5"; "05.0"; "05.5"; "06.0"] 160);
    ("other_product",
     mkProduct "S001AS9" "Sample Product" ["08.0"; "09.0"; "10.0"] 120) ].

(** [config.PRODUCTS[key]], [None] when [key not in config.PRODUCTS] *)
Fixpoint find_product (l : list (string * product)) (key : string)
  : option product :=
  match l with
  | [] => None
  | (k, p) :: rest => if String.eqb key k then Some p else find_product rest key
  end.

Definition SHIPPING_INFO : dict :=
  [ ("firstName", PStr "John"); ("lastName", PStr "Doe");
    ("address1", PStr "123 Main Street"); ("address2", PStr "");
    ("city", PStr "New York"); ("state", PStr "NY");
    ("zipCode", PStr "10001"); ("country", PStr "US");
    ("phone", PStr "555-123-4567"); ("email", PStr "john.doe@example.com") ].

Definition PAYMENT_INFO : dict :=
  [ ("paymentType", PStr "CREDITCARD");
    ("cardNumber", PStr "4111111111111111");
    ("expiryMonth", PStr "12"); ("expiryYear", PStr "2025");
    ("cvv", PStr "123"); ("nameOnCard", PStr "John Doe");
    ("billingAddress",
     PDict [ ("firstName", PStr "John"); ("lastName", PStr "Doe");
             ("address1", PStr "123 Main Street"); ("city", PStr "New York");
             ("state", PStr "NY"); ("zipCode", PStr "10001");
             ("country", PStr "US") ]) ].

Definition get_fresh_session_info : string :=
  "
    🔄 TO GET FRESH COOKIES:
    
    1. Open Chrome and go to https://www.footlocker.com/
    2. Open Developer Tools (F12)
    3. Go to Network tab
    4. Add any product to cart
    5. Look for requests to footlocker.com
    6. Right-click on any request → Copy → Copy as cURL
    7. Extract the cookies from the cURL command
    8. Update the values in config.py
    
    ⚠️  IMPORTANT: Cookies expire! Update them regularly for best results.
    ".

Definition COOKIE_UPDATE_INSTRUCTIONS : string := get_fresh_session_info.

End config.

(** ** footlocker_checkout.py: class FootlockerCheckout *)

Module FootlockerCheckout.

Definition base_url : string := "https://www.footlocker.com".
Definition api_base : string := "https://www.footlocker.com/zgw".

Definition _get_tracking_headers : M headers :=
  ts <- time_ms ;;
  let timestamp := str_of_Z ts in
  nr_id <- join_choices hexdigits 16 ;;
  nr_tr <- join_choices hexdigits 32 ;;
  tp_trace <- join_choices hexdigits 32 ;;
  tp_span <- join_choices hexdigits 16 ;;
  r1 <- join_choices hexdigits 8 ;;
  r2 <- join_choices hexdigits 4 ;;
  r3 <- join_choices hexdigits 4 ;;
  r4 <- join_choices hexdigits 12 ;;
  ret [ ("newrelic", newrelic_fstring nr_id nr_tr timestamp);
        ("traceparent", "00-" ++ tp_trace ++ "-" ++ tp_span ++ "-01");
        ("x-fl-request-id",
         r1 ++ "-" ++ r2 ++ "-11f0-" ++ r3 ++ "-" ++ r4) ].

Definition initialize_session : M bool :=
  try_except
    (logging INFO [Lit "Initializing Footlocker session..."] ;;
     response <- session_get base_url None ;;
     if Z.eqb (status_code response) 200 then
       logging INFO [Lit "Successfully initialized session"] ;;
       ret true
     else
       logging ERROR [Lit "Failed to initialize session: ";
                      Val (PInt (status_code response))] ;;
       ret false)
    (fun e =>
       logging ERROR [Lit "Error initializing session: "; Lit (str_exn e)] ;;
       ret false).

Definition get_product_details (sku : string) : M pyval :=
  try_except
    (logging INFO [Lit "Fetching product details for SKU: "; Lit sku] ;;
     let url := api_base ++ "/product-core/v1/pdp/sku/" ++ sku in
     h <- _get_tracking_headers ;;
     let h := headers_update h [("x-kpsdk-v", "j-1.1.0")] in
     response <- session_get url (Some h) ;;
     if Z.eqb (status_code response) 200 then
       product_data <- response_json response ;;
       name <- py_get product_data "name" (PStr "Unknown") ;;
       logging INFO [Lit "Successfully retrieved product: "; Val name] ;;
       ret product_data
     else
       logging ERROR [Lit "Failed to get product details: ";
                      Val (PInt (status_code response))] ;;
       ret PNone)
    (fun e =>
       logging ERROR [Lit "Error getting product details: "; Lit (str_exn e)] ;;
       ret PNone).

Definition add_to_cart (sku size : string) (quantity : Z) : M bool :=
  try_except
    (logging INFO [Lit "Adding to cart: SKU="; Lit sku; Lit ", Size="; Lit size;
                   Lit ", Qty="; Val (PInt quantity)] ;;
     product <- get_product_details sku ;;
     if negb (truthy product) then
       logging ERROR [Lit "Failed to get product details before adding to cart"] ;;
       ret false
     else
       let url := api_base
                  ++ "/carts-experience/carts-experience-service/site/fl/cart/add" in
       h <- _get_tracking_headers ;;
       let h := headers_update h [("content-type", "application/json");
                                 ("x-api-lang", "en-US");
                                 ("x-kpsdk-v", "j-1.1.0")] in
       let payload := PDict [ ("sku", PStr sku); ("size", PStr size);
                              ("quantity", PInt quantity);
                              ("fulfillmentType", PStr "JC");
                              ("selectedSizeGroup", PStr "");
                              ("selectedSizeValue", PStr "") ] in
       response <- session_post url (Some h) payload ;;
       if Z.eqb (status_code response) 200 then
         cart_data <- response_json response ;;
         cid <- py_get cart_data "cartId" PNone ;;
         store_cart_id cid ;;
         logging INFO [Lit "Successfully added to cart. Cart ID: "; Val cid] ;;
         ret true
       else
         logging ERROR [Lit "Failed to add to cart: ";
                        Val (PInt (status_code response))] ;;
         log_response_text response ;;
         ret false)
    (fun e =>
       logging ERROR [Lit "Error adding to cart: "; Lit (str_exn e)] ;;
       ret false).

Definition get_updated_cart : M pyval :=
  try_except
    (logging INFO [Lit "Getting updated cart information..."] ;;
     let url := api_base
       ++ "/carts-experience/carts-experience-service/site/fl/cart/getUpdatedCart" in
     h <- _get_tracking_headers ;;
     let h := headers_update h [("accept", "application/json");
                                ("x-api-lang", "en-US");
                                ("x-kpsdk-v", "j-1.1.0")] in
     response <- session_get url (Some h) ;;
     if Z.eqb (status_code response) 200 then
       cart_data <- response_json response ;;
       cid <- py_get cart_data "cartId" PNone ;;
       store_cart_id cid ;;
       log_cart_line "Cart updated. Items: " cart_data ;;
       ret cart_data
     else
       logging ERROR [Lit "Failed to get updated cart: ";
                      Val (PInt (status_code response))] ;;
       ret PNone)
    (fun e =>
       logging ERROR [Lit "Error getting updated cart: "; Lit (str_exn e)] ;;
       ret PNone).

Definition checkout_as_guest : M bool :=
  try_except
    (logging INFO [Lit "Starting guest checkout process..."] ;;
     cart_data <- get_updated_cart ;;
     if negb (truthy cart_data) then
       logging ERROR [Lit "Cannot proceed with checkout - no cart data"] ;;
       ret false
     else
       let url := api_base
         ++ "/carts-experience/carts-experience-service/site/fl/cart/getUpdatedCart" in
       h <- _get_tracking_headers ;;
       let h := headers_update h [("accept", "application/json");
                                  ("referer", "https://www.footlocker.com/checkout");
                                  ("x-api-lang", "en-US");
                                  ("x-kpsdk-v", "j-1.1.0")] in
       response <- session_get url (Some h) ;;
       if Z.eqb (status_code response) 200 then
         checkout_data <- response_json response ;;
         logging INFO [Lit "Successfully initiated guest checkout"] ;;
         user_info <- py_get checkout_data "user" (PDict []) ;;
         gid <- py_get user_info "id" PNone ;;
         store_guest_id gid ;;
         logging INFO [Lit "Guest ID: "; Val gid] ;;
         ret true
       else
         logging ERROR [Lit "Failed to initiate guest checkout: ";
                        Val (PInt (status_code response))] ;;
         ret false)
    (fun e =>
       logging ERROR [Lit "Error in guest checkout: "; Lit (str_exn e)] ;;
       ret false).

(** submit_shipping_info and submit_payment_info differ only in the
    endpoint and the words of their log lines *)
Definition post_info (what url : string) (info : dict) (ok_line : string)
  (fail_line err_line : string) : M bool :=
  try_except
    (logging INFO [Lit what] ;;
     h <- _get_tracking_headers ;;
     let h := headers_update h [("content-type", "application/json");
                                ("x-api-lang", "en-US");
                                ("x-kpsdk-v", "j-1.1.0")] in
     response <- session_post url (Some h) (PDict info) ;;
     if Z.eqb (status_code response) 200 then
       logging INFO [Lit ok_line] ;;
       ret true
     else
       logging ERROR [Lit fail_line; Val (PInt (status_code response))] ;;
       ret false)
    (fun e =>
       logging ERROR [Lit err_line; Lit (str_exn e)] ;;
       ret false).

Definition submit_shipping_info (shipping_info : dict) : M bool :=
  post_info "Submitting shipping information..."
            (api_base ++ "/checkout/shipping") shipping_info
            "Successfully submitted shipping information"
            "Failed to submit shipping info: "
            "Error submitting shipping info: ".

Definition submit_payment_info (payment_info : dict) : M bool :=
  post_info "Submitting payment information..."
            (api_base ++ "/checkout/payment") payment_info
            "Successfully submitted payment information"
            "Failed to submit payment info: "
            "Error submitting payment info: ".

Definition place_order : M pyval :=
  try_except
    (logging INFO [Lit "Placing final order..."] ;;
     let url := api_base ++ "/checkout/placeorder" in
     h <- _get_tracking_headers ;;
     let h := headers_update h [("content-type", "application/json");
                                ("x-api-lang", "en-US");
                                ("x-kpsdk-v", "j-1.1.0")] in
     cid <- load_cart_id ;;
     gid <- load_guest_id ;;
     let payload := PDict [("cartId", cid); ("guestId", gid)] in
     response <- session_post url (Some h) payload ;;
     if Z.eqb (status_code response) 200 then
       order_data <- response_json response ;;
       oid <- py_get order_data "orderId" (PStr "N/A") ;;
       logging INFO [Lit "Order placed successfully! Order ID: "; Val oid] ;;
       ret order_data
     else
       logging ERROR [Lit "Failed to place order: ";
                      Val (PInt (status_code response))] ;;
       log_response_text response ;;
       ret PNone)
    (fun e =>
       logging ERROR [Lit "Error placing order: "; Lit (str_exn e)] ;;
       ret PNone).

Definition complete_checkout_flow (sku size : string)
  (shipping_info payment_info : dict) : M bool :=
  try_except
    (logging INFO [Lit "=== Starting Complete Checkout Flow ==="] ;;
     ok1 <- initialize_session ;;
     if negb ok1 then ret false else
     ok2 <- add_to_cart sku size 1 ;;
     if negb ok2 then ret false else
     ok3 <- checkout_as_guest ;;
     if negb ok3 then ret false else
     ok4 <- submit_shipping_info shipping_info ;;
     if negb ok4 then ret false else
     ok5 <- submit_payment_info payment_info ;;
     if negb ok5 then ret false else
     order_result <- place_order ;;
     if truthy order_result then
       logging INFO [Lit "=== Checkout Flow Completed Successfully ==="] ;;
       ret true
     else
       logging ERROR [Lit "=== Checkout Flow Failed ==="] ;;
       ret false)
    (fun e =>
       logging ERROR [Lit "Error in complete checkout flow: "; Lit (str_exn e)] ;;
       ret false).

End FootlockerCheckout.

(** ** footlocker_checkout.py, second script: class ImprovedFootlockerCheckout *)

Module ImprovedFootlockerCheckout.

Definition api_base : string := "https://www.footlocker.com/zgw".
Definition base_url : string := "https://www.footlocker.com".

(** returns the same captured values on every call *)
Definition _get_tracking_headers : M headers :=
  ret [ ("newrelic",
         "eyJ2IjpbMCwxXSwiZCI6eyJ0eSI6IkJyb3dzZXIiLCJhYyI6IjI2ODQxMjUiLCJhcCI6IjY1NTU1OTQxMSIsImlkIjoiMmVlYzJjZDRhNTAzNzE2NSIsInRyIjoiYWEzNmVmOTQ3NzIxNTZjMTE4YTNlODFlZWQ1ZjljOTUiLCJ0aSI6MTc1MTQxNDAyMzEyNCwidGsiOiIzNjcxMDc3In19");
        ("priority", "u=1, i");
        ("referer", base_url ++ "/");
        ("sec-ch-ua",
         q "Not)A;Brand" ++ ";v=" ++ q "8" ++ ", " ++ q "Chromium" ++ ";v="
         ++ q "138" ++ ", " ++ q "Google Chrome" ++ ";v=" ++ q "138");
        ("sec-ch-ua-mobile", "?0");
        ("sec-ch-ua-platform", q "Windows");
        ("traceparent", "00-aa36ef94772156c118a3e81eed5f9c95-2eec2cd4a5037165-01");
        ("tracestate",
         "3671077@nr=0-1-2684125-655559411-2eec2cd4a5037165----1751414023124");
        ("x-kpsdk-ct", config.ak_bmsc_fl_com);
        ("x-kpsdk-v", "j-1.1.0") ].

Definition initialize_session : M bool :=
  try_except
    (logging INFO [Lit "Initializing session..."] ;;
     response <- session_get base_url None ;;
     if Z.eqb (status_code response) 200 then
       logging INFO [Lit "Session initialized successfully"] ;;
       ret true
     else
       logging ERROR [Lit "Failed to initialize session: ";
                      Val (PInt (status_code response))] ;;
       ret false)
    (fun e =>
       logging ERROR [Lit "Error initializing session: "; Lit (str_exn e)] ;;
       ret false).

Definition check_product_availability (sku : string) : M pyval :=
  try_except
    (logging INFO [Lit "Checking availability for SKU: "; Lit sku] ;;
     let url := api_base ++ "/product-core/v1/pdp/sku/" ++ sku in
     h <- _get_tracking_headers ;;
     let h := headers_update h [("accept", "*/*"); ("x-api-lang", "en-US")] in
     response <- session_get url (Some h) ;;
     if Z.eqb (status_code response) 200 then
       product_data <- response_json response ;;
       name <- py_get product_data "name" (PStr "Unknown") ;;
       logging INFO [Lit "Product found: "; Val name] ;;
       ret product_data
     else if Z.eqb (status_code response) 403 then
       logging ERROR [Lit "Access denied - cookies may be expired"] ;;
       print (nl ++ "🚨 AUTHENTICATION ERROR:") ;;
       print config.COOKIE_UPDATE_INSTRUCTIONS ;;
       ret PNone
     else
       logging ERROR [Lit "Product not available: ";
                      Val (PInt (status_code response))] ;;
       ret PNone)
    (fun e =>
       logging ERROR [Lit "Error checking product availability: ";
                      Lit (str_exn e)] ;;
       ret PNone).

Definition get_fresh_cookies_interactive : M unit :=
  print (nl ++ "🍪 COOKIE UPDATE REQUIRED") ;;
  print (repeat_str "=" 50) ;;
  print config.COOKIE_UPDATE_INSTRUCTIONS ;;
  print (nl ++ "After getting fresh cookies:") ;;
  print "1. Update the values in config.py" ;;
  print "2. Restart this program" ;;
  print (nl ++ "Press Enter to continue or Ctrl+C to exit...") ;;
  _ <- input ;;
  ret tt.

(** the timeout of ten seconds is the transport's business: an exchange
    that times out is a fault *)
Definition test_connection : M bool :=
  try_except
    (logging INFO [Lit "Testing connection..."] ;;
     let url := base_url ++ "/" in
     response <- session_get url None ;;
     if Z.eqb (status_code response) 200 then
       logging INFO [Lit "✅ Connection test successful"] ;;
       ret true
     else
       logging ERROR [Lit "❌ Connection test failed: ";
                      Val (PInt (status_code response))] ;;
       ret false)
    (fun e =>
       logging ERROR [Lit "❌ Connection test error: "; Lit (str_exn e)] ;;
       ret false).

Definition add_to_cart_v2 (sku size : string) (quantity : Z) : M bool :=
  try_except
    (logging INFO [Lit "Adding to cart: SKU="; Lit sku; Lit ", Size="; Lit size;
                   Lit ", Qty="; Val (PInt quantity)] ;;
     product <- check_product_availability sku ;;
     if negb (truthy product) then ret false
     else
       let url := api_base
                  ++ "/carts-experience/carts-experience-service/site/fl/cart/add" in
       h <- _get_tracking_headers ;;
       let h := headers_update h [("accept", "application/json");
                                  ("content-type", "application/json");
                                  ("x-api-lang", "en-US");
                                  ("origin", base_url);
                                  ("referer", base_url ++ "/product/" ++ sku
                                              ++ ".html")] in
       let payload := PDict [ ("productCode", PStr sku);
                              ("quantity", PInt quantity);
                              ("size", PStr size);
                              ("productType", PStr "NORMAL") ] in
       response <- session_post url (Some h) payload ;;
       if Z.eqb (status_code response) 200 then
         cart_data <- response_json response ;;
         cid <- py_get cart_data "cartId" PNone ;;
         store_cart_id cid ;;
         logging INFO [Lit "✅ Successfully added to cart. Cart ID: "; Val cid] ;;
         ret true
       else if Z.eqb (status_code response) 403 then
         logging ERROR [Lit "❌ Access denied - authentication required"] ;;
         get_fresh_cookies_interactive ;;
         ret false
       else
         logging ERROR [Lit "❌ Failed to add to cart: ";
                        Val (PInt (status_code response))] ;;
         log_response_text response ;;
         ret false)
    (fun e =>
       logging ERROR [Lit "Error adding to cart: "; Lit (str_exn e)] ;;
       ret false).

Definition get_cart_info : M pyval :=
  try_except
    (logging INFO [Lit "Getting cart information..."] ;;
     let url := api_base
       ++ "/carts-experience/carts-experience-service/site/fl/cart/getUpdatedCart" in
     h <- _get_tracking_headers ;;
     let h := headers_update h [("accept", "application/json");
                                ("x-api-lang", "en-US")] in
     response <- session_get url (Some h) ;;
     if Z.eqb (status_code response) 200 then
       cart_data <- response_json response ;;
       logging INFO [Lit "✅ Cart information retrieved"] ;;
       ret cart_data
     else
       logging ERROR [Lit "❌ Failed to get cart info: ";
                      Val (PInt (status_code response))] ;;
       ret PNone)
    (fun e =>
       logging ERROR [Lit "Error getting cart info: "; Lit (str_exn e)] ;;
       ret PNone).

End ImprovedFootlockerCheckout.

(** ** enhanced_checkout.py: class EnhancedFootlockerCheckout *)

Module EnhancedFootlockerCheckout.

Definition base_url : string := "https://www.footlocker.com".
Definition api_base : string := "https://www.footlocker.com/zgw".

(** [json.dumps] of the newrelic dict, default separators; every string in
    it is a fixed word or a run of hex digits, so nothing is escaped *)
Definition newrelic_json (span_id trace_id timestamp : string) : string :=
  "{" ++ q "v" ++ ": [0, 1], " ++ q "d" ++ ": {" ++ q "ty" ++ ": " ++ q "Browser"
  ++ ", " ++ q "ac" ++ ": " ++ q "2684125" ++ ", " ++ q "ap" ++ ": "
  ++ q "655559411" ++ ", " ++ q "id" ++ ": " ++ q span_id ++ ", " ++ q "tr"
  ++ ": " ++ q trace_id ++ ", " ++ q "ti" ++ ": " ++ timestamp ++ ", "
  ++ q "tk" ++ ": " ++ q "3671077" ++ "}}".

Definition _get_tracking_headers : M headers :=
  ts <- time_ms ;;
  let timestamp := str_of_Z ts in
  trace_id <- join_choices hexdigits 32 ;;
  span_id <- join_choices hexdigits 16 ;;
  r1 <- join_choices hexdigits 8 ;;
  r2 <- join_choices hexdigits 12 ;;
  let request_id := r1 ++ "-56d8-11f0-af56-" ++ r2 in
  ret [ ("newrelic", newrelic_json span_id trace_id timestamp);
        ("traceparent", "00-" ++ trace_id ++ "-" ++ span_id ++ "-01");
        ("tracestate",
         "3671077@nr=0-1-2684125-655559411-" ++ span_id ++ "----" ++ timestamp);
        ("x-fl-request-id", request_id);
        ("x-kpsdk-v", "j-1.1.0");
        ("priority", "u=1, i") ].

(** [[size['id'] for size in sizes if size.get('stock', 0) > 0]] *)
Fixpoint in_stock_ids (sizes : list pyval) : M (list pyval) :=
  match sizes with
  | [] => ret []
  | size :: rest =>
      stock <- py_get size "stock" (PInt 0) ;;
      positive <- py_gt0 stock ;;
      if positive then
        id <- py_item size "id" ;;
        ids <- in_stock_ids rest ;;
        ret (id :: ids)
      else in_stock_ids rest
  end.

Definition check_product_availability (sku : string) : M pyval :=
  try_except
    (logging INFO [Lit "Checking availability for SKU: "; Lit sku] ;;
     let url := api_base ++ "/product-core/v1/pdp/sku/" ++ sku in
     h <- _get_tracking_headers ;;
     response <- session_get url (Some h) ;;
     if Z.eqb (status_code response) 200 then
       product_data <- response_json response ;;
       name <- py_get product_data "name" (PStr "Unknown") ;;
       logging INFO [Lit "Product available: "; Val name] ;;
       variant_options <- py_get product_data "variantOptions" (PDict []) ;;
       sizes <- py_get variant_options "size" (PList []) ;;
       items <- py_iter sizes ;;
       available_sizes <- in_stock_ids items ;;
       product_data <- py_setitem product_data "available_sizes"
                                  (PList available_sizes) ;;
       ret product_data
     else
       logging ERROR [Lit "Product not available: ";
                      Val (PInt (status_code response))] ;;
       ret PNone)
    (fun e =>
       logging ERROR [Lit "Error checking product availability: ";
                      Lit (str_exn e)] ;;
       ret PNone).

Definition add_to_cart_real (sku size : string) (quantity : Z) : M pyval :=
  try_except
    (logging INFO [Lit "Adding to cart: "; Lit sku; Lit " size "; Lit size] ;;
     let url := api_base
                ++ "/carts-experience/carts-experience-service/site/fl/cart/add" in
     h <- _get_tracking_headers ;;
     let h := headers_update h [("accept", "application/json");
                                ("content-type", "application/json");
                                ("x-api-lang", "en-US");
                                ("x-api-simulation", "undefined")] in
     let payload := PDict [ ("productCode", PStr sku);
                            ("quantity", PInt quantity);
                            ("size", PStr size);
                            ("fulfillmentType", PStr "JC") ] in
     response <- session_post url (Some h) payload ;;
     if Z.eqb (status_code response) 200 || Z.eqb (status_code response) 201 then
       cart_data <- response_json response ;;
       cid <- py_get cart_data "cartId" PNone ;;
       store_cart_id cid ;;
       logging INFO [Lit "Added to cart successfully! Cart ID: "; Val cid] ;;
       ret cart_data
     else
       logging ERROR [Lit "Failed to add to cart: ";
                      Val (PInt (status_code response))] ;;
       logging ERROR [Lit "Response: "; Lit (text response)] ;;
       ret (PDict []))
    (fun e =>
       logging ERROR [Lit "Error adding to cart: "; Lit (str_exn e)] ;;
       ret (PDict [])).

Definition get_cart_status : M pyval :=
  try_except
    (logging INFO [Lit "Getting cart status..."] ;;
     let url := api_base
       ++ "/carts-experience/carts-experience-service/site/fl/cart/getUpdatedCart" in
     h <- _get_tracking_headers ;;
     let h := headers_update h [("accept", "application/json");
                                ("accept-language", "undefined");
                                ("x-api-lang", "en-US");
                                ("x-api-simulation", "undefined");
                                ("referer", "https://www.footlocker.com/checkout")] in
     response <- session_get url (Some h) ;;
     if Z.eqb (status_code response) 200 then
       cart_data <- response_json response ;;
       cid <- py_get cart_data "cartId" PNone ;;
       store_cart_id cid ;;
       user_info <- py_get cart_data "user" (PDict []) ;;
       gid <- py_get user_info "id" PNone ;;
       store_guest_id gid ;;
       log_cart_line "Cart Status - Items: " cart_data ;;
       logging INFO [Lit "Guest ID: "; Val gid] ;;
       ret cart_data
     else
       logging ERROR [Lit "Failed to get cart status: ";
                      Val (PInt (status_code response))] ;;
       ret PNone)
    (fun e =>
       logging ERROR [Lit "Error getting cart status: "; Lit (str_exn e)] ;;
       ret PNone).

Definition set_shipping_address (shipping_info : dict) : M bool :=
  try_except
    (logging INFO [Lit "Setting shipping address..."] ;;
     let url := api_base
       ++ "/carts-experience/carts-experience-service/site/fl/cart/setShippingAddress" in
     h <- _get_tracking_headers ;;
     let h := headers_update h [("accept", "application/json");
                                ("content-type", "application/json");
                                ("x-api-lang", "en-US");
                                ("referer", "https://www.footlocker.com/checkout")] in
     firstName <- dict_item shipping_info "firstName" ;;
     lastName <- dict_item shipping_info "lastName" ;;
     line1 <- dict_item shipping_info "address1" ;;
     let line2 := dict_get shipping_info "address2" (PStr "") in
     town <- dict_item shipping_info "city" ;;
     state <- dict_item shipping_info "state" ;;
     postalCode <- dict_item shipping_info "zipCode" ;;
     country <- dict_item shipping_info "country" ;;
     phone <- dict_item shipping_info "phone" ;;
     email <- dict_item shipping_info "email" ;;
     let address_payload :=
       PDict [ ("shippingAddress",
                PDict [ ("firstName", firstName); ("lastName", lastName);
                        ("line1", line1); ("line2", line2); ("town", town);
                        ("region", PDict [("isocode", state)]);
                        ("postalCode", postalCode);
                        ("country", PDict [("isocode", country)]);
                        ("phone", phone); ("email", email) ]) ] in
     response <- session_post url (Some h) address_payload ;;
     if Z.eqb (status_code response) 200 then
       logging INFO [Lit "Shipping address set successfully"] ;;
       ret true
     else
       logging ERROR [Lit "Failed to set shipping address: ";
                      Val (PInt (status_code response))] ;;
       ret false)
    (fun e =>
       logging ERROR [Lit "Error setting shipping address: "; Lit (str_exn e)] ;;
       ret false).

Definition quick_add_and_checkout (product_key size : string) : M bool :=
  try_except
    (match config.find_product config.PRODUCTS product_key with
     | None =>
         logging ERROR [Lit "Product key '"; Lit product_key;
                        Lit "' not found in config"] ;;
         ret false
     | Some product_info =>
         let sku := config.sku product_info in
         logging INFO [Lit "=== Quick Checkout for ";
                       Lit (config.name product_info); Lit " ==="] ;;
         product_data <- check_product_availability sku ;;
         if negb (truthy product_data) then
           logging ERROR [Lit "Product not available"] ;;
           ret false
         else
         cart_result <- add_to_cart_real sku size 1 ;;
         if negb (truthy cart_result) then
           logging ERROR [Lit "Failed to add to cart"] ;;
           ret false
         else
         cart_status <- get_cart_status ;;
         if negb (truthy cart_status) then
           logging ERROR [Lit "Failed to get cart status"] ;;
           ret false
         else
         shipped <- set_shipping_address config.SHIPPING_INFO ;;
         if negb shipped then
           logging ERROR [Lit "Failed to set shipping address"] ;;
           ret false
         else
           logging INFO [Lit "=== Ready for payment - Manual completion required ==="] ;;
           logging INFO [Lit "Cart prepared successfully. Complete payment manually in browser."] ;;
           ret true
     end)
    (fun e =>
       logging ERROR [Lit "Error in quick checkout: "; Lit (str_exn e)] ;;
       ret false).

End EnhancedFootlockerCheckout.

(** ** order_placer.py: class FootlockerOrderPlacer *)

Module FootlockerOrderPlacer.

Definition base_url : string := "https://www.footlocker.com".
Definition api_base : string := "https://www.footlocker.com/zgw".

Definition _get_tracking_headers : M headers :=
  ts <- time_ms ;;
  let timestamp := str_of_Z ts in
  r1 <- join_choices hexdigits 8 ;;
  r2 <- join_choices hexdigits 4 ;;
  r3 <- join_choices hexdigits 4 ;;
  r4 <- join_choices hexdigits 12 ;;
  let request_id := r1 ++ "-" ++ r2 ++ "-11f0-" ++ r3 ++ "-" ++ r4 in
  nr_id <- join_choices hexdigits 16 ;;
  nr_tr <- join_choices hexdigits 32 ;;
  tp_trace <- join_choices hexdigits 32 ;;
  tp_span <- join_choices hexdigits 16 ;;
  ts_span <- join_choices hexdigits 16 ;;
  cd_id <- join_choices hexdigits 32 ;;
  ret [ ("newrelic", newrelic_fstring nr_id nr_tr timestamp);
        ("priority", "u=1, i");
        ("traceparent", "00-" ++ tp_trace ++ "-" ++ tp_span ++ "-01");
        ("tracestate",
         "3671077@nr=0-1-2684125-655559411-" ++ ts_span ++ "-" ++ dq ++ dq
         ++ "--" ++ timestamp);
        ("x-api-lang", "en-US");
        ("x-api-simulation", "undefined");
        ("x-fl-request-id", request_id);
        ("x-kpsdk-cd",
         "{" ++ q "workTime" ++ ":" ++ timestamp ++ "," ++ q "id" ++ ":"
         ++ q cd_id ++ "," ++ q "answers" ++ ":[9,7]," ++ q "duration" ++ ":98,"
         ++ q "d" ++ ":-439," ++ q "st" ++ ":1751392861410," ++ q "rst"
         ++ ":1751392860971}");
        ("x-kpsdk-ct", config.ak_bmsc_fl_com);
        ("x-kpsdk-v", "j-1.1.0") ].

Definition submit_user_info (user_info : dict) : M bool :=
  try_except
    (logging INFO [Lit "Step 1: Submitting user contact information..."] ;;
     let url := api_base
                ++ "/carts/co-cart-aggregation-service/site/fl/cart/userInfo" in
     h <- _get_tracking_headers ;;
     let h := headers_update h [("accept", "application/json");
                                ("accept-language", "undefined")] in
     let payload :=
       PDict [ ("firstName", dict_get user_info "firstName" PNone);
               ("lastName", dict_get user_info "lastName" PNone);
               ("email", dict_get user_info "email" PNone);
               ("phone", dict_get user_info "phone" PNone);
               ("phoneCountry", dict_get user_info "phoneCountry" (PStr "US"));
               ("payPalAlert", PBool false) ] in
     response <- session_post url (Some h) payload ;;
     if Z.eqb (status_code response) 200 then
       logging INFO [Lit "✅ User info submitted successfully"] ;;
       ret true
     else
       logging ERROR [Lit "❌ Failed to submit user info: ";
                      Val (PInt (status_code response))] ;;
       log_response_text response ;;
       ret false)
    (fun e =>
       logging ERROR [Lit "Error submitting user info: "; Lit (str_exn e)] ;;
       ret false).

Definition verify_shipping_address (address : dict) : M pyval :=
  try_except
    (logging INFO [Lit "Step 2: Verifying shipping address..."] ;;
     let url := api_base ++ "/address-verification/v0/address/verification" in
     h <- _get_tracking_headers ;;
     let h := headers_update h
       [("x-functions-key",
         "m663XzcEgqHJqzbq4JH6FrDIStLZh4FMUMAzXct09W6HAzFuozxPuA==")] in
     let payload :=
       PDict [ ("country",
                PDict [ ("isocode", dict_get address "country" (PStr "US"));
                        ("name", dict_get address "country" (PStr "US")) ]);
               ("region",
                PDict [ ("isocodeShort", dict_get address "state" PNone) ]);
               ("line1", dict_get address "address1" PNone);
               ("line2", dict_get address "address2" (PStr ""));
               ("postalCode", dict_get address "zipCode" PNone);
               ("town", dict_get address "city" PNone) ] in
     response <- session_post url (Some h) payload ;;
     if Z.eqb (status_code response) 200 then
       verification_result <- response_json response ;;
       decision <- py_get verification_result "decision" (PStr "Unknown") ;;
       logging INFO [Lit "✅ Address verified: "; Val decision] ;;
       decision <- py_get verification_result "decision" PNone ;;
       if py_eq_str decision "Accepted" then
         suggested <- py_get verification_result "suggestedAddresses" (PList []) ;;
         if truthy suggested then
           first <- py_index0 suggested ;;
           ret first
         else ret verification_result
       else ret verification_result
     else
       logging ERROR [Lit "❌ Failed to verify address: ";
                      Val (PInt (status_code response))] ;;
       ret PNone)
    (fun e =>
       logging ERROR [Lit "Error verifying address: "; Lit (str_exn e)] ;;
       ret PNone).

(** the cart-format address built from the verified address *)
Definition shipping_payload (verified_address : pyval) : M pyval :=
  let firstName := dict_get config.SHIPPING_INFO "firstName" PNone in
  let lastName := dict_get config.SHIPPING_INFO "lastName" PNone in
  line1 <- py_get verified_address "line1" PNone ;;
  line2 <- py_get verified_address "line2" (PStr "") ;;
  town <- py_get verified_address "town" PNone ;;
  region <- py_get verified_address "region" (PDict []) ;;
  region_code <- py_get region "isocodeShort" PNone ;;
  postalCode <- py_get verified_address "postalCode" PNone ;;
  country <- py_get verified_address "country" (PDict []) ;;
  country_code <- py_get country "isocode" (PStr "US") ;;
  let phone := dict_get config.SHIPPING_INFO "phone" PNone in
  let email := dict_get config.SHIPPING_INFO "email" PNone in
  ret (PDict [ ("shippingAddress",
                PDict [ ("firstName", firstName); ("lastName", lastName);
                        ("line1", line1); ("line2", line2); ("town", town);
                        ("region", PDict [("isocodeShort", region_code)]);
                        ("postalCode", postalCode);
                        ("country", PDict [("isocode", country_code)]);
                        ("phone", phone); ("email", email);
                        ("shippingAddress", PBool true) ]) ]).

Definition set_shipping_address (verified_address : pyval) : M bool :=
  try_except
    (logging INFO [Lit "Step 3: Setting shipping address on cart..."] ;;
     let url := api_base
                ++ "/carts-experience/carts-experience-service/site/fl/cart/address" in
     h <- _get_tracking_headers ;;
     payload <- shipping_payload verified_address ;;
     response <- session_post url (Some h) payload ;;
     if Z.eqb (status_code response) 200 then
       logging INFO [Lit "✅ Shipping address set successfully"] ;;
       ret true
     else
       logging ERROR [Lit "❌ Failed to set shipping address: ";
                      Val (PInt (status_code response))] ;;
       log_response_text response ;;
       ret false)
    (fun e =>
       logging ERROR [Lit "Error setting shipping address: "; Lit (str_exn e)] ;;
       ret false).

Definition get_updated_cart_with_shipping : M pyval :=
  try_except
    (logging INFO [Lit "Step 4: Getting updated cart with shipping..."] ;;
     let url := api_base
                ++ "/carts/co-cart-aggregation-service/site/fl/cart/userInfo" in
     h <- _get_tracking_headers ;;
     let h := headers_update h [("accept", "application/json");
                                ("accept-language", "undefined")] in
     response <- session_get url (Some h) ;;
     if Z.eqb (status_code response) 200 then
       cart_data <- response_json response ;;
       logging INFO [Lit "✅ Updated cart retrieved with shipping info"] ;;
       ret cart_data
     else
       logging ERROR [Lit "❌ Failed to get updated cart: ";
                      Val (PInt (status_code response))] ;;
       ret PNone)
    (fun e =>
       logging ERROR [Lit "Error getting updated cart: "; Lit (str_exn e)] ;;
       ret PNone).

(** the payment endpoint is a placeholder: the payload is prepared and
    dropped, nothing is sent *)
Definition submit_payment_info (payment_info : dict) : M bool :=
  try_except
    (logging INFO [Lit "Step 5: Submitting payment information..."] ;;
     let url := api_base ++ "/payment/submit" in
     h <- _get_tracking_headers ;;
     let payload :=
       PDict [ ("paymentMethod",
                PDict [ ("type", dict_get payment_info "paymentType"
                                          (PStr "CREDITCARD"));
                        ("cardNumber", dict_get payment_info "cardNumber" PNone);
                        ("expiryMonth", dict_get payment_info "expiryMonth" PNone);
                        ("expiryYear", dict_get payment_info "expiryYear" PNone);
                        ("cvv", dict_get payment_info "cvv" PNone);
                        ("nameOnCard", dict_get payment_info "nameOnCard" PNone) ]);
               ("billingAddress",
                dict_get payment_info "billingAddress" (PDict [])) ] in
     logging WARNING
       [Lit "⚠️ Payment endpoint not captured yet - this is a placeholder"] ;;
     logging INFO [Lit "Payment info prepared but not submitted (test mode)"] ;;
     ret true)
    (fun e =>
       logging ERROR [Lit "Error submitting payment: "; Lit (str_exn e)] ;;
       ret false).

Definition mock_order_confirmation : pyval :=
  PDict [ ("orderId", PStr "TEST-ORDER-12345");
          ("status", PStr "TEST_MODE");
          ("message", PStr "Order placement in test mode") ].

(** the order endpoint is a placeholder as well *)
Definition place_final_order : M pyval :=
  try_except
    (logging INFO [Lit "Step 6: Placing final order..."] ;;
     let url := api_base ++ "/checkout/placeorder" in
     h <- _get_tracking_headers ;;
     cid <- load_cart_id ;;
     let payload := PDict [ ("cartId", cid); ("termsAccepted", PBool true);
                            ("marketingOptIn", PBool false) ] in
     logging WARNING
       [Lit "⚠️ Order placement endpoint not captured yet - this is a placeholder"] ;;
     logging INFO [Lit "Order prepared but not placed (test mode)"] ;;
     ret mock_order_confirmation)
    (fun e =>
       logging ERROR [Lit "Error placing order: "; Lit (str_exn e)] ;;
       ret PNone).

Definition complete_order_flow (user_info shipping_address payment_info : dict)
  : M bool :=
  try_except
    (logging INFO [Lit "🚀 Starting complete order placement flow..."] ;;
     ok1 <- submit_user_info user_info ;;
     if negb ok1 then
       logging ERROR [Lit "Failed at Step 1: User info submission"] ;;
       ret false
     else
     verified_address <- verify_shipping_address shipping_address ;;
     if negb (truthy verified_address) then
       logging ERROR [Lit "Failed at Step 2: Address verification"] ;;
       ret false
     else
     ok3 <- set_shipping_address verified_address ;;
     if negb ok3 then
       logging ERROR [Lit "Failed at Step 3: Setting shipping address"] ;;
       ret false
     else
     cart_data <- get_updated_cart_with_shipping ;;
     if negb (truthy cart_data) then
       logging ERROR [Lit "Failed at Step 4: Getting updated cart"] ;;
       ret false
     else
     ok5 <- submit_payment_info payment_info ;;
     if negb ok5 then
       logging ERROR [Lit "Failed at Step 5: Payment submission"] ;;
       ret false
     else
     order_result <- place_final_order ;;
     if negb (truthy order_result) then
       logging ERROR [Lit "Failed at Step 6: Order placement"] ;;
       ret false
     else
       logging INFO [Lit "🎉 Order placement flow completed successfully!"] ;;
       oid <- py_get order_result "orderId" (PStr "N/A") ;;
       logging INFO [Lit "Order ID: "; Val oid] ;;
       ret true)
    (fun e =>
       logging ERROR [Lit "Error in complete order flow: "; Lit (str_exn e)] ;;
       ret false).

End FootlockerOrderPlacer.

(** ** adyen_encryption.py: class MockAdyenEncryption *)

Module MockAdyenEncryption.

Record self_ : Type := mkSelf {
  adyen_prefix : string;
  mock_key_version : string
}.

Definition __init__ : self_ :=
  mkSelf "adyenjs_0_1_25$" "10001|A237060180D24CDEF3E4E27D828BDB6A5".

Definition chars : string :=
  "ABCDEFGHIJKLMNOPQRSTUVWXYZabcdefghijklmnopqrstuvwxyz0123456789+/=".

Definition _generate_mock_encrypted_string (length : nat) : M string :=
  join_choices chars length.

Definition mock_encrypt_card_data (self : self_) (card_data : dict) : M dict :=
  card_number <- _generate_mock_encrypted_string 64 ;;
  expiry_month <- _generate_mock_encrypted_string 32 ;;
  expiry_year <- _generate_mock_encrypted_string 32 ;;
  security_code <- _generate_mock_encrypted_string 32 ;;
  let head := adyen_prefix self ++ "MEEwEAYHKoZIzj0CAQYFK4EEACIDYgAE" in
  ret [ ("encryptedCardNumber", PStr (head ++ card_number));
        ("encryptedExpiryMonth", PStr (head ++ expiry_month));
        ("encryptedExpiryYear", PStr (head ++ expiry_year));
        ("encryptedSecurityCode", PStr (head ++ security_code)) ].

(** the module-level instance *)
Definition mock_adyen : self_ := __init__.

Definition generate_mock_device_id : M string :=
  a <- token_hex 4 ;;
  b <- token_hex 2 ;;
  c <- token_hex 2 ;;
  d <- token_hex 2 ;;
  e <- token_hex 6 ;;
  ret ("fe80" ++ a ++ "-" ++ b ++ "-" ++ c ++ "-" ++ d ++ "-" ++ e).

End MockAdyenEncryption.

(** ** adyen_encryption.py: the module-level functions *)

(** [None] when the real encryption is asked for *)
Definition encrypt_payment_data (card_data : dict) (use_mock : bool) : M pyval :=
  if use_mock then
    print "⚠️  Using MOCK encryption - not suitable for real payments!" ;;
    fields <- MockAdyenEncryption.mock_encrypt_card_data
                MockAdyenEncryption.mock_adyen card_data ;;
    ret (PDict fields)
  else
    print "❌ Real Adyen encryption not implemented yet!" ;;
    print "See get_real_adyen_implementation_guide() for details" ;;
    ret PNone.

Definition generate_device_fingerprint (use_mock : bool) : M string :=
  if use_mock then MockAdyenEncryption.generate_mock_device_id
  else
    print "❌ Real device fingerprinting not implemented yet!" ;;
    ret "REAL_DEVICE_FINGERPRINT_NEEDED".

(** * The vocabulary of the properties

    What the statements below are written in: readings of the random tape,
    sample states and transports, the requests and statuses of a run, and
    the state machine of the orchestrator. *)

(** the character [choice seq] returns when the tape cell holds [r] *)
Definition pick (seq : string) (r : nat) : ascii :=
  match String.get (r mod String.length seq) seq with
  | Some c => c
  | None => Ascii.zero
  end.

(** the [n] characters read from cell [pos] on *)
Fixpoint draws (seq : string) (tape : nat -> nat) (pos n : nat) : string :=
  match n with
  | O => ""
  | S n' => String (pick seq (tape pos)) (draws seq tape (S pos) n')
  end.

(** the state after one clock reading and [n] draws *)
Definition advance (n : nat) (s : State) : State :=
  set_rpos (rpos s + n) (set_cpos (S (cpos s)) s).




(** a clock for the examples: a few readings some hundred milliseconds
    apart; and a state to run them from: nothing sent or logged yet, no
    input, a random tape that counts up in steps of seven *)
Definition sample_clock (n : nat) : Z :=
  nth n [1751392861410; 1751392861652; 1751392862007; 1751392862391;
         1751392862800; 1751392863154; 1751392863533; 1751392863902]%Z
      1751392864300%Z.

Definition initial_state (cid : pyval) (tr : nat -> request -> outcome) : State :=
  mkState cid PNone tr [] [] [] (fun _ => None) 0
          (fun n => 7 * n + 3) 0 sample_clock 0.

(** a 200 response carrying a JSON body, and a bare status *)
Definition ok_json (v : pyval) : outcome := Resp (mkResponse 200 "" (Some v)).
Definition status_only (code : Z) : outcome := Resp (mkResponse code "" None).

(** a transport that answers exchange number [n] with [o] and the earlier
    ones from the list [before] *)
Definition scripted (before : list outcome) (o : outcome)
  : nat -> request -> outcome :=
  fun i _ => nth i before o.

(** the headers FootlockerCheckout builds from a clock reading and a window
    of the tape *)
Definition checkout_headers (ts : Z) (tape : nat -> nat) (p : nat) : headers :=
  [ ("newrelic",
     newrelic_fstring (draws hexdigits tape p 16) (draws hexdigits tape (p + 16) 32)
                      (str_of_Z ts));
    ("traceparent",
     "00-" ++ draws hexdigits tape (p + 48) 32 ++ "-"
     ++ draws hexdigits tape (p + 80) 16 ++ "-01");
    ("x-fl-request-id",
     draws hexdigits tape (p + 96) 8 ++ "-" ++ draws hexdigits tape (p + 104) 4
     ++ "-11f0-" ++ draws hexdigits tape (p + 108) 4 ++ "-"
     ++ draws hexdigits tape (p + 112) 12) ].

(** the headers EnhancedFootlockerCheckout builds *)
Definition enhanced_headers (ts : Z) (tape : nat -> nat) (p : nat) : headers :=
  let trace_id := draws hexdigits tape p 32 in
  let span_id := draws hexdigits tape (p + 32) 16 in
  [ ("newrelic",
     EnhancedFootlockerCheckout.newrelic_json span_id trace_id (str_of_Z ts));
    ("traceparent", "00-" ++ trace_id ++ "-" ++ span_id ++ "-01");
    ("tracestate",
     "3671077@nr=0-1-2684125-655559411-" ++ span_id ++ "----" ++ str_of_Z ts);
    ("x-fl-request-id",
     draws hexdigits tape (p + 48) 8 ++ "-56d8-11f0-af56-"
     ++ draws hexdigits tape (p + 56) 12);
    ("x-kpsdk-v", "j-1.1.0");
    ("priority", "u=1, i") ].

(** the headers FootlockerOrderPlacer builds *)
Definition placer_headers (ts : Z) (tape : nat -> nat) (p : nat) : headers :=
  [ ("newrelic",
     newrelic_fstring (draws hexdigits tape (p + 28) 16)
                      (draws hexdigits tape (p + 44) 32) (str_of_Z ts));
    ("priority", "u=1, i");
    ("traceparent",
     "00-" ++ draws hexdigits tape (p + 76) 32 ++ "-"
     ++ draws hexdigits tape (p + 108) 16 ++ "-01");
    ("tracestate",
     "3671077@nr=0-1-2684125-655559411-" ++ draws hexdigits tape (p + 124) 16
     ++ "-" ++ dq ++ dq ++ "--" ++ str_of_Z ts);
    ("x-api-lang", "en-US");
    ("x-api-simulation", "undefined");
    ("x-fl-request-id",
     draws hexdigits tape p 8 ++ "-" ++ draws hexdigits tape (p + 8) 4
     ++ "-11f0-" ++ draws hexdigits tape (p + 12) 4 ++ "-"
     ++ draws hexdigits tape (p + 16) 12);
    ("x-kpsdk-cd",
     "{" ++ q "workTime" ++ ":" ++ str_of_Z ts ++ "," ++ q "id" ++ ":"
     ++ q (draws hexdigits tape (p + 140) 32) ++ "," ++ q "answers" ++ ":[9,7],"
     ++ q "duration" ++ ":98," ++ q "d" ++ ":-439," ++ q "st" ++ ":1751392861410,"
     ++ q "rst" ++ ":1751392860971}");
    ("x-kpsdk-ct", config.ak_bmsc_fl_com);
    ("x-kpsdk-v", "j-1.1.0") ].

(** the value of header [k] of a request *)
Fixpoint header_lookup (h : headers) (k : string) : option string :=
  match h with
  | [] => None
  | (k', v) :: rest => if String.eqb k k' then Some v else header_lookup rest k
  end.



Definition status_of (o : outcome) : option Z :=
  match o with
  | Resp r => Some (status_code r)
  | Fault _ => None
  end.

(** the statuses the transport answered to the requests [l], the first of
    which was exchange number [i]; [None] stands for a fault *)
Fixpoint statuses_from (tr : nat -> request -> outcome) (i : nat)
  (l : list request) : list (option Z) :=
  match l with
  | [] => []
  | r :: l' => status_of (tr i r) :: statuses_from tr (S i) l'
  end.

(** the requests a run from [s] to [s'] added, and their statuses *)
Definition new_requests (s s' : State) : list request :=
  skipn (List.length (sent s)) (sent s').

Definition new_statuses (s s' : State) : list (option Z) :=
  statuses_from (transport s) (List.length (sent s)) (new_requests s s').

(** the statuses an executor takes for a success: 200 everywhere, and 201
    as well in add_to_cart_real *)
Definition accepted (o : option Z) : Prop :=
  o = Some 200%Z \/ o = Some 201%Z.

(** What a run of [c] from [s] is like when [c] is an executor or a flow:
    it returns a value (no exception escapes), keeps the transport, only
    appends to the requests sent, and when the value counts as a success
    every exchange it made was answered with an accepted status. *)
Definition summary {A} (succ : A -> bool) (c : M A) (s : State) : Prop :=
  exists a s' new,
    c s = (Ok a, s')
    /\ transport s' = transport s
    /\ sent s' = (sent s ++ new)%list
    /\ (succ a = true ->
        Forall accepted
               (statuses_from (transport s) (List.length (sent s)) new)).

(** the same for a piece of an executor's body, which may still raise *)
Definition trace_ok {A} (succ : A -> bool) (c : M A) (s : State) : Prop :=
  exists r s' new,
    c s = (r, s')
    /\ transport s' = transport s
    /\ sent s' = (sent s ++ new)%list
    /\ (forall a, r = Ok a -> succ a = true ->
        Forall accepted
               (statuses_from (transport s) (List.length (sent s)) new)).

(** a handler or a failure branch: it makes no exchange and reports failure *)
Definition gives_up {A} (succ : A -> bool) (c : M A) : Prop :=
  forall s, exists b s',
    c s = (Ok b, s') /\ transport s' = transport s /\ sent s' = sent s
    /\ succ b = false.

(** a step that only writes to the log or the console in between *)
Definition quiet {A} (c : M A) : Prop :=
  forall s, exists a s',
    c s = (Ok a, s') /\ transport s' = transport s /\ sent s' = sent s.

(** the state in which step 1 of complete_order_flow starts *)
Definition order_flow_start (s : State) : State :=
  snd (logging INFO [Lit "🚀 Starting complete order placement flow..."] s).

(** a transport under which the four network steps of the order flow
    succeed *)
Definition order_transport : nat -> request -> outcome :=
  scripted
    [ status_only 200;
      ok_json (PDict [ ("decision", PStr "Accepted");
                       ("suggestedAddresses",
                        PList [PDict [ ("line1", PStr "1 MORRIS RD");
                                       ("town", PStr "SOUTH HILL");
                                       ("postalCode", PStr "23970-5627") ]]) ]);
      status_only 200;
      ok_json (PDict [("cartId", PStr "CART-1")]) ]
    (Fault "no further exchange expected").

Definition sample_user_info : dict :=
  [ ("firstName", PStr "kazmi"); ("lastName", PStr "shb");
    ("email", PStr "domgyrgpt@gmail.com"); ("phone", PStr "9452060458");
    ("phoneCountry", PStr "US") ].

Definition sample_address : dict :=
  [ ("address1", PStr "1 Morris Rd"); ("address2", PStr "");
    ("city", PStr "South Hill"); ("state", PStr "VA");
    ("zipCode", PStr "23970-5627"); ("country", PStr "US") ].

(** The state machine of the specification: one state per stage and two
    terminal states.  A stage is run on what the stage before it returned;
    the machine advances only when the stage returns a success (a truthy
    value) and goes to [Aborted] at the first failure, running no later
    stage.  Beside the terminal state the machine returns the stages it
    ran, each with what it returned. *)
Inductive terminal : Type :=
| Completed (output : pyval)
| Aborted (stage : nat).

Record stage : Type := mkStage {
  execute : pyval -> M pyval;
  on_failure : M unit          (* what the orchestrator logs when it stops here *)
}.

Fixpoint orchestrate (stages : list stage) (n : nat) (input : pyval)
  : M (terminal * list (nat * pyval)) :=
  match stages with
  | [] => ret (Completed input, [])
  | st :: rest =>
      out <- execute st input ;;
      if truthy out then
        r <- orchestrate rest (S n) out ;;
        ret (fst r, (n, out) :: snd r)
      else
        on_failure st ;;
        ret (Aborted n, [(n, out)])
  end.

(** a boolean executor as a stage *)
Definition as_stage (c : M bool) : M pyval := b <- c ;; ret (PBool b).

(** the six stages of FootlockerOrderPlacer.complete_order_flow *)
Definition order_stages (user_info shipping_address payment_info : dict)
  : list stage :=
  [ mkStage (fun _ => as_stage (FootlockerOrderPlacer.submit_user_info user_info))
            (logging ERROR [Lit "Failed at Step 1: User info submission"]);
    mkStage (fun _ => FootlockerOrderPlacer.verify_shipping_address shipping_address)
            (logging ERROR [Lit "Failed at Step 2: Address verification"]);
    mkStage (fun verified =>
               as_stage (FootlockerOrderPlacer.set_shipping_address verified))
            (logging ERROR [Lit "Failed at Step 3: Setting shipping address"]);
    mkStage (fun _ => FootlockerOrderPlacer.get_updated_cart_with_shipping)
            (logging ERROR [Lit "Failed at Step 4: Getting updated cart"]);
    mkStage (fun _ =>
               as_stage (FootlockerOrderPlacer.submit_payment_info payment_info))
            (logging ERROR [Lit "Failed at Step 5: Payment submission"]);
    mkStage (fun _ => FootlockerOrderPlacer.place_final_order)
            (logging ERROR [Lit "Failed at Step 6: Order placement"]) ].

(** the six stages of FootlockerCheckout.complete_checkout_flow *)
Definition checkout_stages (sku size : string)
  (shipping_info payment_info : dict) : list stage :=
  [ mkStage (fun _ => as_stage FootlockerCheckout.initialize_session) (ret tt);
    mkStage (fun _ => as_stage (FootlockerCheckout.add_to_cart sku size 1)) (ret tt);
    mkStage (fun _ => as_stage FootlockerCheckout.checkout_as_guest) (ret tt);
    mkStage (fun _ =>
               as_stage (FootlockerCheckout.submit_shipping_info shipping_info))
            (ret tt);
    mkStage (fun _ =>
               as_stage (FootlockerCheckout.submit_payment_info payment_info))
            (ret tt);
    mkStage (fun _ => FootlockerCheckout.place_order)
            (logging ERROR [Lit "=== Checkout Flow Failed ==="]) ].

Definition checkout_flow_start (s : State) : State :=
  snd (logging INFO [Lit "=== Starting Complete Checkout Flow ==="] s).

(** what fail-fast means for a run of [total] stages numbered from [n]:
    the stages ran in order with none skipped; [Completed] needs all of
    them to have succeeded; [Aborted k] means stage [k] was the last one
    run, it failed, and every stage before it succeeded *)
Definition fail_fast (n total : nat) (t : terminal) (ran : list (nat * pyval))
  : Prop :=
  map fst ran = seq n (List.length ran)
  /\ List.length ran <= total
  /\ match t with
     | Completed _ =>
         List.length ran = total
         /\ Forall (fun i => truthy (snd i) = true) ran
     | Aborted k =>
         exists before out,
           ran = (before ++ [(k, out)])%list
           /\ truthy out = false
           /\ Forall (fun i => truthy (snd i) = true) before
     end.

(** the cart id kept after an exchange with outcome [o], when [old] was kept
    before: a 200 response with a JSON object replaces it by the object's
    cartId, None when the object has none; anything else leaves it *)
Definition cart_id_after (old : pyval) (o : outcome) : pyval :=
  match o with
  | Resp r =>
      if Z.eqb (status_code r) 200 then
        match json_body r with
        | Some (PDict d) => dict_get d "cartId" PNone
        | _ => old
        end
      else old
  | Fault _ => old
  end.

(** the same for the guest id, read from the object's user entry *)
Definition guest_id_after (old : pyval) (o : outcome) : pyval :=
  match o with
  | Resp r =>
      if Z.eqb (status_code r) 200 then
        match json_body r with
        | Some (PDict d) =>
            match dict_get d "user" (PDict []) with
            | PDict u => dict_get u "id" PNone
            | _ => old
            end
        | _ => old
        end
      else old
  | Fault _ => old
  end.

(** the outcomes the transport gave to the requests [l], the first of which
    was exchange number [i] *)
Fixpoint outcomes_from (tr : nat -> request -> outcome) (i : nat)
  (l : list request) : list outcome :=
  match l with
  | [] => []
  | r :: l' => tr i r :: outcomes_from tr (S i) l'
  end.

(** the outcomes of the exchanges a run from [s] to [s'] made, in order *)
Definition new_outcomes (s s' : State) : list outcome :=
  outcomes_from (transport s) (List.length (sent s)) (new_requests s s').

(** a session that fetches the cart [n] times in a row *)
Fixpoint refresh_cart (n : nat) : M unit :=
  match n with
  | O => ret tt
  | S n' => _ <- FootlockerCheckout.get_updated_cart ;; refresh_cart n'
  end.

Definition address_url : string :=
  FootlockerOrderPlacer.api_base
  ++ "/carts-experience/carts-experience-service/site/fl/cart/address".

(** the order transport of above, with the address rejected *)
Definition rejecting_transport : nat -> request -> outcome :=
  scripted
    [ status_only 200;
      ok_json (PDict [ ("decision", PStr "Rejected");
                       ("suggestedAddresses", PList []) ]);
      status_only 200;
      ok_json (PDict [("cartId", PStr "CART-1")]) ]
    (Fault "no further exchange expected").

Definition cart_add_url : string :=
  EnhancedFootlockerCheckout.api_base
  ++ "/carts-experience/carts-experience-service/site/fl/cart/add".

(** the state in which step 1 of quick_add_and_checkout starts *)
Definition quick_checkout_start (product_info : config.product) (s : State)
  : State :=
  snd (logging INFO [Lit "=== Quick Checkout for ";
                     Lit (config.name product_info); Lit " ==="] s).

(** a product payload in which the requested size 04.5 has no stock *)
Definition sold_out_payload : pyval :=
  PDict [ ("name", PStr "Jordan Air Jordan 5 Retro OG");
          ("variantOptions",
           PDict [ ("size",
                    PList [ PDict [("id", PStr "04.5"); ("stock", PInt 0)];
                            PDict [("id", PStr "05.0"); ("stock", PInt 3)] ]) ]) ].

Definition sold_out_transport : nat -> request -> outcome :=
  scripted
    [ ok_json sold_out_payload;
      ok_json (PDict [("cartId", PStr "CART-1")]);
      ok_json (PDict [ ("cartId", PStr "CART-1");
                       ("user", PDict [("id", PStr "GUEST-1")]) ]);
      status_only 200 ]
    (Fault "no further exchange expected").


(** the exchanges a run of [c] from [s] makes *)
Definition exchanges {A} (c : M A) (s : State) : nat :=
  List.length (new_requests s (snd (c s))).


(** the state in which add_to_cart looks the product up *)
Definition add_to_cart_start (sku size : string) (quantity : Z) (s : State)
  : State :=
  snd (logging INFO [Lit "Adding to cart: SKU="; Lit sku; Lit ", Size=";
                     Lit size; Lit ", Qty="; Val (PInt quantity)] s).

(** ** The vocabulary of the further properties *)

(** a size entry as a product payload lists it: an object whose stock, when
    it has one, is an integer, and which has an id when the stock is
    positive *)
Definition listed_size (v : pyval) : Prop :=
  exists d stock,
    v = PDict d
    /\ dict_get d "stock" (PInt 0) = PInt stock
    /\ ((0 < stock)%Z -> exists id, dict_lookup d "id" = Some id).

(** [id] is the id of an entry of [sizes] with positive stock *)
Definition in_stock (id : pyval) (sizes : list pyval) : Prop :=
  exists d stock,
    In (PDict d) sizes
    /\ dict_get d "stock" (PInt 0) = PInt stock
    /\ (0 < stock)%Z
    /\ dict_lookup d "id" = Some id.

(** a computation that never changes cart_id or guest_id *)
Definition keeps_ids {A} (c : M A) : Prop :=
  forall s, cart_id (snd (c s)) = cart_id s /\ guest_id (snd (c s)) = guest_id s.

(** what add_to_cart and add_to_cart_v2 leave behind: guest_id as it was;
    cart_id as it was when they return False; and when they return True,
    the cartId of the JSON object that answered their last request with
    status 200 *)
Definition cart_added (c : M bool) (s : State) : Prop :=
  guest_id (snd (c s)) = guest_id s
  /\ (fst (c s) = Ok false -> cart_id (snd (c s)) = cart_id s)
  /\ (fst (c s) = Ok true ->
      exists before r resp d,
        sent (snd (c s)) = (before ++ [r])%list
        /\ transport s (List.length before) r = Resp resp
        /\ status_code resp = 200%Z
        /\ json_body resp = Some (PDict d)
        /\ cart_id (snd (c s)) = dict_get d "cartId" PNone).

(** the JSON object add_to_cart_real takes from an outcome: the body of a
    response with status 200 or 201, when it is an object *)
Definition added_object (o : outcome) : option dict :=
  match o with
  | Resp r =>
      if Z.eqb (status_code r) 200 || Z.eqb (status_code r) 201 then
        match json_body r with
        | Some (PDict d) => Some d
        | _ => None
        end
      else None
  | Fault _ => None
  end.

(** the endpoint FootlockerCheckout fetches the cart from *)
Definition updated_cart_url : string :=
  FootlockerCheckout.api_base
  ++ "/carts-experience/carts-experience-service/site/fl/cart/getUpdatedCart".

(** the exchange was answered, and with status 200 *)
Definition answered_200 (o : outcome) : bool :=
  match o with
  | Resp r => Z.eqb (status_code r) 200
  | Fault _ => false
  end.

(** [c] makes one exchange and returns True exactly when that exchange is
    answered with status 200 *)
Definition verdict_of_status (c : M bool) (s : State) : Prop :=
  exists r,
    sent (snd (c s)) = (sent s ++ [r])%list
    /\ fst (c s) = Ok (answered_200 (transport s (List.length (sent s)) r)).

(** the fields set_shipping_address reads with [shipping_info[...]], in the
    order it reads them; address2 is read with [get] and may be absent *)
Definition required_fields : list string :=
  [ "firstName"; "lastName"; "address1"; "city"; "state"; "zipCode";
    "country"; "phone"; "email" ].

(** the first required field that [info] lacks *)
Definition first_missing (info : dict) : option string :=
  find (fun k => match dict_lookup info k with
                 | None => true
                 | Some _ => false
                 end)
       required_fields.

(** [isinstance(v, dict)] *)
Definition is_dict (v : pyval) : bool :=
  match v with
  | PDict _ => true
  | _ => false
  end.

(** what set_shipping_address can read an address from: an object whose
    region and country, when it has them, are objects *)
Definition address_shaped (v : pyval) : bool :=
  match v with
  | PDict d =>
      is_dict (dict_get d "region" (PDict []))
      && is_dict (dict_get d "country" (PDict []))
  | _ => false
  end.

(** what get_updated_cart returns for the outcome of its exchange: the JSON
    object of a response with status 200 whose totalPriceWithTax, when it
    has one, is an object (the log line reads a field of it); None for
    anything else *)
Definition fetched_cart (o : outcome) : pyval :=
  match o with
  | Resp r =>
      if Z.eqb (status_code r) 200 then
        match json_body r with
        | Some (PDict d) =>
            if is_dict (dict_get d "totalPriceWithTax" (PDict []))
            then PDict d else PNone
        | _ => PNone
        end
      else PNone
  | Fault _ => PNone
  end.

(** the guest id checkout_as_guest takes from the outcome of its second
    exchange: the id in the user entry of the JSON object of a response with
    status 200, None of Python when the user entry is absent or has no id;
    nothing when there is no such object or its user entry is no object *)
Definition guest_of (o : outcome) : option pyval :=
  match o with
  | Resp r =>
      if Z.eqb (status_code r) 200 then
        match json_body r with
        | Some (PDict d) =>
            match dict_get d "user" (PDict []) with
            | PDict u => Some (dict_get u "id" PNone)
            | _ => None
            end
        | _ => None
        end
      else None
  | Fault _ => None
  end.

(** every request a run of [c] adds satisfies [P]; the run only adds to the
    requests sent *)
Definition sends_only {A} (P : request -> Prop) (c : M A) : Prop :=
  forall s, exists new,
    sent (snd (c s)) = (sent s ++ new)%list /\ Forall P new.

(** the site every class is written for *)
Definition site : string := "https://www.footlocker.com".

(** a request to the root of the site or to a path under it *)
Definition on_site (r : request) : Prop :=
  req_url r = site \/ exists path, req_url r = (site ++ "/" ++ path)%string.

(** a payload that names the contact of config.SHIPPING_INFO *)
Definition names_configured_contact (payload : pyval) : Prop :=
  exists fields,
    payload = PDict [("shippingAddress", PDict fields)]
    /\ dict_get fields "firstName" PNone = PStr "John"
    /\ dict_get fields "lastName" PNone = PStr "Doe"
    /\ dict_get fields "phone" PNone = PStr "555-123-4567"
    /\ dict_get fields "email" PNone = PStr "john.doe@example.com".

(** a request to the address endpoint carries such a payload *)
Definition configured_contact (r : request) : Prop :=
  req_url r = address_url ->
  exists payload,
    req_json r = Some payload /\ names_configured_contact payload.

(** the method and the URL of a request *)
Definition endpoint : Type := (http_method * string)%type.

(** the endpoint a request hits *)
Definition endpoint_of (r : request) : endpoint := (req_method r, req_url r).

(** A run of [c] from [s] goes along [full]: it returns a value, the
    requests it adds hit, in order, the first endpoints of [full], and all
    of [full] when the value counts as a success. *)
Definition route {A} (succ : A -> bool) (full : list endpoint) (c : M A)
  (s : State) : Prop :=
  exists a s' new rest,
    c s = (Ok a, s')
    /\ sent s' = (sent s ++ new)%list
    /\ (map endpoint_of new ++ rest)%list = full
    /\ (succ a = true -> rest = []).

(** the same for a piece of a body, which may still raise *)
Definition route_ok {A} (succ : A -> bool) (full : list endpoint) (c : M A)
  (s : State) : Prop :=
  exists r s' new rest,
    c s = (r, s')
    /\ sent s' = (sent s ++ new)%list
    /\ (map endpoint_of new ++ rest)%list = full
    /\ (forall a, r = Ok a -> succ a = true -> rest = []).

(** the routes of the three flows: complete_order_flow *)
Definition order_route : list endpoint :=
  [ (POST, FootlockerOrderPlacer.api_base
           ++ "/carts/co-cart-aggregation-service/site/fl/cart/userInfo");
    (POST, FootlockerOrderPlacer.api_base
           ++ "/address-verification/v0/address/verification");
    (POST, FootlockerOrderPlacer.api_base
           ++ "/carts-experience/carts-experience-service/site/fl/cart/address");
    (GET, FootlockerOrderPlacer.api_base
          ++ "/carts/co-cart-aggregation-service/site/fl/cart/userInfo") ]%string.

(** complete_checkout_flow, for a SKU *)
Definition checkout_route (sku : string) : list endpoint :=
  [ (GET, FootlockerCheckout.base_url);
    (GET, FootlockerCheckout.api_base ++ "/product-core/v1/pdp/sku/" ++ sku);
    (POST, FootlockerCheckout.api_base
           ++ "/carts-experience/carts-experience-service/site/fl/cart/add");
    (GET, updated_cart_url);
    (GET, updated_cart_url);
    (POST, FootlockerCheckout.api_base ++ "/checkout/shipping");
    (POST, FootlockerCheckout.api_base ++ "/checkout/payment");
    (POST, FootlockerCheckout.api_base ++ "/checkout/placeorder") ]%string.

(** quick_add_and_checkout, for the SKU of the product *)
Definition quick_route (sku : string) : list endpoint :=
  [ (GET, EnhancedFootlockerCheckout.api_base ++ "/product-core/v1/pdp/sku/" ++ sku);
    (POST, cart_add_url);
    (GET, EnhancedFootlockerCheckout.api_base
          ++ "/carts-experience/carts-experience-service/site/fl/cart/getUpdatedCart");
    (POST, EnhancedFootlockerCheckout.api_base
           ++ "/carts-experience/carts-experience-service/site/fl/cart/setShippingAddress")
  ]%string.

(** a string of [n] lower-case hexadecimal digits *)
Definition hex_string (n : nat) (x : string) : Prop :=
  String.length x = n
  /\ Forall (fun c => In c (list_ascii_of_string hexdigits))
            (list_ascii_of_string x).

(** a traceparent of version 00 with the sampled flag set: 32 digits of
    trace id and 16 of parent id *)
Definition traceparent_shaped (v : string) : Prop :=
  exists trace span,
    v = ("00-" ++ trace ++ "-" ++ span ++ "-01")%string
    /\ hex_string 32 trace /\ hex_string 16 span.

(** five groups of 8, 4, 4, 4 and 12 digits, the way a UUID is written *)
Definition uuid_shaped (v : string) : Prop :=
  exists a b c d e,
    v = (a ++ "-" ++ b ++ "-" ++ c ++ "-" ++ d ++ "-" ++ e)%string
    /\ hex_string 8 a /\ hex_string 4 b /\ hex_string 4 c /\ hex_string 4 d
    /\ hex_string 12 e.

(** the digits [token_hex n] returns, read from cell [pos] on *)
Fixpoint hex_draws (tape : nat -> nat) (pos n : nat) : string :=
  match n with
  | O => ""
  | S n' =>
      String (hex_digit ((tape pos mod 256) / 16))
             (String (hex_digit ((tape pos mod 256) mod 16))
                     (hex_draws tape (S pos) n'))
  end.

(** the last line of the log is an error line *)
Definition ends_on_error (s : State) : Prop :=
  exists m, last (logs s) (INFO, []) = (ERROR, m).

(** a run of [c] returns a boolean, and when that is False the log ends on
    an error line *)
Definition says_why (c : M bool) (s : State) : Prop :=
  exists b s', c s = (Ok b, s') /\ (b = false -> ends_on_error s').

(** a product payload in which a size in stock has no id *)
Definition unnamed_size_payload : pyval :=
  PDict [ ("name", PStr "Sample Product");
          ("variantOptions",
           PDict [ ("size",
                    PList [ PDict [("id", PStr "08.0"); ("stock", PInt 0)];
                            PDict [("stock", PInt 2)];
                            PDict [("id", PStr "10.0"); ("stock", PInt 1)] ]) ]) ].

(** a transport that gives the same answer to every exchange *)
Definition always (o : outcome) : nat -> request -> outcome := scripted [] o.

(** * Reading the tapes

    What a run of [choice] and [join_choices] returns, as a function of the
    random tape alone. *)

Lemma get_in_range (seq : string) :
  forall i, i < String.length seq -> exists c, String.get i seq = Some c.
Proof.
  induction seq as [|a seq IH]; intros i Hi; simpl in *.
  - lia.
  - destruct i as [|i]; [eauto|]. apply IH. lia.
Qed.

Lemma choice_spec (seq : string) (s : State) :
  0 < String.length seq ->
  choice seq s = (Ok (pick seq (rand s (rpos s))), set_rpos (S (rpos s)) s).
Proof.
  intros Hlen. unfold choice, pick.
  destruct (get_in_range seq (rand s (rpos s) mod String.length seq)) as [c Hc].
  - apply Nat.mod_upper_bound. lia.
  - rewrite Hc. reflexivity.
Qed.

Lemma join_choices_spec (seq : string) (n : nat) :
  0 < String.length seq ->
  forall s, join_choices seq n s
            = (Ok (draws seq (rand s) (rpos s) n), set_rpos (rpos s + n) s).
Proof.
  intros Hlen. induction n as [|n IH]; intros s.
  - simpl. unfold ret. rewrite Nat.add_0_r. destruct s; reflexivity.
  - simpl. unfold bind. rewrite (choice_spec seq s Hlen). rewrite IH.
    unfold ret. simpl. f_equal. unfold set_rpos. simpl.
    f_equal. lia.
Qed.


Lemma pick_in (seq : string) (r : nat) :
  0 < String.length seq -> In (pick seq r) (list_ascii_of_string seq).
Proof.
  intros Hlen. unfold pick.
  assert (Hb : r mod String.length seq < String.length seq)
    by (apply Nat.mod_upper_bound; lia).
  revert Hb. generalize (r mod String.length seq) as i.
  clear Hlen. induction seq as [|a seq IH]; intros i Hi; simpl in *; [lia|].
  destruct i as [|i]; [now left|]. right. apply IH. lia.
Qed.

Lemma draws_in (seq : string) (tape : nat -> nat) (n : nat) :
  0 < String.length seq ->
  forall pos, Forall (fun c => In c (list_ascii_of_string seq))
                     (list_ascii_of_string (draws seq tape pos n)).
Proof.
  intros Hlen. induction n as [|n IH]; intros pos; simpl; constructor.
  - now apply pick_in.
  - apply IH.
Qed.

Lemma draws_length (seq : string) (tape : nat -> nat) (n : nat) :
  forall pos, String.length (draws seq tape pos n) = n.
Proof. induction n as [|n IH]; intros pos; simpl; [reflexivity|now rewrite IH]. Qed.

Lemma hexdigits_nonempty : 0 < String.length hexdigits.
Proof. simpl. lia. Qed.

Lemma chars_nonempty : 0 < String.length MockAdyenEncryption.chars.
Proof. simpl. lia. Qed.

(** rewriting a run of the two tape readers inside a larger computation *)
Ltac read_tapes :=
  unfold bind, ret, time_ms;
  repeat (rewrite (join_choices_spec hexdigits _ hexdigits_nonempty); cbn [fst snd]).

Lemma set_rpos_twice (n m : nat) (s : State) :
  set_rpos n (set_rpos m s) = set_rpos n s.
Proof. reflexivity. Qed.

Lemma rpos_set_rpos (n : nat) (s : State) : rpos (set_rpos n s) = n.
Proof. reflexivity. Qed.

Lemma rand_set_rpos (n : nat) (s : State) : rand (set_rpos n s) = rand s.
Proof. reflexivity. Qed.

Lemma checkout_tracking_spec (s : State) :
  FootlockerCheckout._get_tracking_headers s
  = (Ok (checkout_headers (clock s (cpos s)) (rand s) (rpos s)), advance 124 s).
Proof.
  unfold FootlockerCheckout._get_tracking_headers. read_tapes.
  unfold checkout_headers, advance. simpl.
  repeat rewrite <- Nat.add_assoc. simpl. reflexivity.
Qed.

Lemma enhanced_tracking_spec (s : State) :
  EnhancedFootlockerCheckout._get_tracking_headers s
  = (Ok (enhanced_headers (clock s (cpos s)) (rand s) (rpos s)), advance 68 s).
Proof.
  unfold EnhancedFootlockerCheckout._get_tracking_headers. read_tapes.
  unfold enhanced_headers, advance. simpl.
  repeat rewrite <- Nat.add_assoc. simpl. reflexivity.
Qed.

Lemma placer_tracking_spec (s : State) :
  FootlockerOrderPlacer._get_tracking_headers s
  = (Ok (placer_headers (clock s (cpos s)) (rand s) (rpos s)), advance 172 s).
Proof.
  unfold FootlockerOrderPlacer._get_tracking_headers. read_tapes.
  unfold placer_headers, advance. simpl.
  repeat rewrite <- Nat.add_assoc. simpl. reflexivity.
Qed.

Lemma improved_tracking_spec (s : State) :
  exists h, ImprovedFootlockerCheckout._get_tracking_headers s = (Ok h, s)
            /\ forall s', ImprovedFootlockerCheckout._get_tracking_headers s'
                          = (Ok h, s').
Proof. eexists. split; [reflexivity|]. intros s'. reflexivity. Qed.







(** ** When two traceparents are the same *)











(** * The mock payment encryption *)

(** C10. For every card_data, the output of mock_encrypt_card_data does not
    depend on the card fields: each of the four fields is the fixed prefix
    adyenjs_0_1_25$MEEwEAYHKoZIzj0CAQYFK4EEACIDYgAE followed by 64, 32, 32 and
    32 characters read from the random tape (and every such character is one
    of [chars]); another card_data in the same state gives the same payload. *)
Theorem mock_encrypt_ignores_card (card_data card_data' : dict) (s : State) :
  let head := "adyenjs_0_1_25$MEEwEAYHKoZIzj0CAQYFK4EEACIDYgAE" in
  let field := fun k n =>
    PStr (head ++ draws MockAdyenEncryption.chars (rand s) (rpos s + k) n) in
  MockAdyenEncryption.mock_encrypt_card_data
    MockAdyenEncryption.mock_adyen card_data s
  = (Ok [ ("encryptedCardNumber", field 0 64);
          ("encryptedExpiryMonth", field 64 32);
          ("encryptedExpiryYear", field 96 32);
          ("encryptedSecurityCode", field 128 32) ],
     set_rpos (rpos s + 160) s)
  /\ MockAdyenEncryption.mock_encrypt_card_data
       MockAdyenEncryption.mock_adyen card_data' s
     = MockAdyenEncryption.mock_encrypt_card_data
         MockAdyenEncryption.mock_adyen card_data s
  /\ forall k n,
       Forall (fun c => In c (list_ascii_of_string MockAdyenEncryption.chars))
              (list_ascii_of_string
                 (draws MockAdyenEncryption.chars (rand s) k n)).
Proof.
  cbv zeta. split; [|split].
  - unfold MockAdyenEncryption.mock_encrypt_card_data,
      MockAdyenEncryption._generate_mock_encrypted_string, bind, ret.
    repeat (rewrite (join_choices_spec MockAdyenEncryption.chars _ chars_nonempty);
            cbn [fst snd]).
    rewrite !rpos_set_rpos, !rand_set_rpos, !set_rpos_twice.
    rewrite Nat.add_0_r.
    replace (rpos s + 64 + 32) with (rpos s + 96) by lia.
    replace (rpos s + 96 + 32) with (rpos s + 128) by lia.
    replace (rpos s + 128 + 32) with (rpos s + 160) by lia.
    reflexivity.
  - reflexivity.
  - intros k n. apply draws_in. exact chars_nonempty.
Qed.

(** * Tracking headers *)




(** * Exchanges and their statuses *)

Lemma statuses_from_app tr l1 l2 :
  forall i, statuses_from tr i (l1 ++ l2)%list
            = (statuses_from tr i l1
               ++ statuses_from tr (i + List.length l1) l2)%list.
Proof.
  induction l1 as [|r l1 IH]; intros i; simpl.
  - now rewrite Nat.add_0_r.
  - rewrite IH. do 3 f_equal. lia.
Qed.

Lemma new_requests_app (s s' : State) (new : list request) :
  sent s' = (sent s ++ new)%list -> new_requests s s' = new.
Proof.
  intros H. unfold new_requests. rewrite H.
  rewrite skipn_app, skipn_all, Nat.sub_diag. reflexivity.
Qed.

Lemma quiet_logging l m : quiet (logging l m).
Proof. intros s. do 2 eexists. repeat split. Qed.

Lemma quiet_ret {A} (a : A) : quiet (ret a).
Proof. intros s. do 2 eexists. repeat split. Qed.

Lemma summary_try {A} (succ : A -> bool) (body : M A) handler s :
  trace_ok succ body s ->
  (forall e, gives_up succ (handler e)) ->
  summary succ (try_except body handler) s.
Proof.
  intros (r & s1 & new & Hrun & Ht & Hs & Hok) Hh.
  unfold summary, try_except. rewrite Hrun. destruct r as [a|e].
  - exists a, s1, new. split; [reflexivity|]. split; [exact Ht|].
    split; [exact Hs|]. intros Ha. now apply (Hok a).
  - destruct (Hh e s1) as (b & s' & Hrun' & Ht' & Hs' & Hb).
    exists b, s', new. rewrite Hrun'.
    split; [reflexivity|]. split; [congruence|]. split; [congruence|].
    intros Hb'. congruence.
Qed.

Lemma trace_ok_after_quiet {A B} (succ : B -> bool) (c : M A) (k : A -> M B) s :
  quiet c ->
  (forall a s1, c s = (Ok a, s1) -> trace_ok succ (k a) s1) ->
  trace_ok succ (bind c k) s.
Proof.
  intros Hq Hk. destruct (Hq s) as (a & s1 & Hrun & Ht & Hs).
  destruct (Hk a s1 Hrun) as (b & s' & new & Hrun' & Ht' & Hs' & Hok).
  exists b, s', new. unfold bind. rewrite Hrun, Hrun'.
  rewrite Ht, Hs in *. auto.
Qed.

(** the fail-fast step of a flow: run a stage, stop on failure, go on
    otherwise *)
Lemma trace_ok_guarded {A B} (succ1 : A -> bool) (succ : B -> bool)
  (c : M A) (stop : M B) (rest : A -> M B) s :
  summary succ1 c s ->
  gives_up succ stop ->
  (forall a s1, c s = (Ok a, s1) -> succ1 a = true -> trace_ok succ (rest a) s1) ->
  trace_ok succ (bind c (fun a => if negb (succ1 a) then stop else rest a)) s.
Proof.
  intros (a & s1 & new & Hrun & Ht & Hs & Hok) Hstop Hrest.
  unfold trace_ok, bind. rewrite Hrun. destruct (succ1 a) eqn:Ha; simpl.
  - destruct (Hrest a s1 Hrun Ha) as (b & s' & new' & Hrun' & Ht' & Hs' & Hok').
    exists b, s', (new ++ new')%list. rewrite Hrun'.
    split; [reflexivity|]. split; [congruence|].
    split; [rewrite Hs', Hs; now rewrite app_assoc|].
    intros b' Hb Hb'. rewrite statuses_from_app. apply Forall_app.
    split; [auto|]. rewrite Ht, Hs, length_app in Hok'. eauto.
  - destruct (Hstop s1) as (b & s' & Hrun' & Ht' & Hs' & Hb).
    exists (Ok b), s', new. rewrite Hrun'.
    split; [reflexivity|]. split; [congruence|]. split; [congruence|].
    intros b' Hb' Hb''. congruence.
Qed.

(** a last stage followed by nothing but logging *)
Lemma trace_ok_then_quiet {A B} (succ1 : A -> bool) (succ : B -> bool)
  (c : M A) (k : A -> M B) s :
  summary succ1 c s ->
  (forall a s1, exists b s',
      k a s1 = (Ok b, s') /\ transport s' = transport s1 /\ sent s' = sent s1
      /\ (succ b = true -> succ1 a = true)) ->
  trace_ok succ (bind c k) s.
Proof.
  intros (a & s1 & new & Hrun & Ht & Hs & Hok) Hk.
  destruct (Hk a s1) as (b & s' & Hrun' & Ht' & Hs' & Hb).
  exists (Ok b), s', new. unfold bind. rewrite Hrun, Hrun'.
  split; [reflexivity|]. split; [congruence|]. split; [congruence|].
  intros b' Hb' Hb''. injection Hb' as <-. auto.
Qed.

Lemma gives_up_log_false l m : gives_up (fun b : bool => b) (logging l m ;; ret false).
Proof. intros s. do 2 eexists. repeat split. Qed.

Lemma gives_up_false : gives_up (fun b : bool => b) (ret false).
Proof. intros s. do 2 eexists. repeat split. Qed.

Lemma gives_up_log_none l m : gives_up truthy (logging l m ;; ret PNone).
Proof. intros s. do 2 eexists. repeat split. Qed.

(** * Running an executor symbolically *)

(** case analysis on the innermost scrutinee of the goal *)
Ltac split_innermost x :=
  lazymatch x with
  | context [match ?y with _ => _ end] => split_innermost y
  | _ => destruct x eqn:?
  end.

Ltac read_headers :=
  repeat (rewrite ?checkout_tracking_spec, ?enhanced_tracking_spec,
            ?placer_tracking_spec; cbn [fst snd]).

Ltac split_cases :=
  repeat (read_headers; cbn;
          match goal with
          | |- context [match ?x with _ => _ end] => split_innermost x; cbn
          end);
  read_headers; cbn.

Ltac expose :=
  unfold try_except, bind, ret, raise, logging, print, session_post, session_get,
    session_request, response_json, log_response_text, log_cart_line, py_get,
    py_index0, py_item, py_gt0, py_setitem, py_iter, dict_item,
    store_cart_id, store_guest_id, load_cart_id, load_guest_id;
  read_headers; cbn.

Ltac accept_status :=
  match goal with
  | H : (?z =? 200)%Z = true |- accepted (Some ?z) =>
      left; f_equal; now apply Z.eqb_eq
  | H : ((?z =? 200)%Z || (?z =? 201)%Z)%bool = true |- accepted (Some ?z) =>
      apply orb_true_iff in H; destruct H as [H|H]; apply Z.eqb_eq in H;
      [left|right]; now f_equal
  end.

Ltac use_statuses :=
  rewrite ?length_app, ?Nat.add_1_r in *; cbn in *;
  repeat match goal with
  | H : transport _ _ _ = _ |- _ => rewrite H
  end;
  cbn;
  repeat (constructor; [accept_status|]); constructor.

Ltac close_summary :=
  do 3 eexists; split; [reflexivity|]; split; [reflexivity|]; split;
  [ cbn; rewrite <- ?app_assoc; first [reflexivity | symmetry; apply app_nil_r]
  | cbn; intros ?; first [discriminate | use_statuses] ].

Ltac close_trace :=
  do 3 eexists; split; [reflexivity|]; split; [reflexivity|]; split;
  [ cbn; rewrite <- ?app_assoc; first [reflexivity | symmetry; apply app_nil_r]
  | cbn; intros ? Hr ?;
    first [discriminate | injection Hr as <-; first [discriminate | use_statuses]] ].

Arguments FootlockerCheckout._get_tracking_headers : simpl never.
Arguments EnhancedFootlockerCheckout._get_tracking_headers : simpl never.
Arguments FootlockerOrderPlacer._get_tracking_headers : simpl never.
Arguments headers_update : simpl never.
Arguments checkout_headers : simpl never.
Arguments enhanced_headers : simpl never.
Arguments placer_headers : simpl never.
Arguments String.append : simpl never.
Arguments str_exn : simpl never.

Section CheckoutExecutors.
Import FootlockerCheckout.

Lemma initialize_session_summary s : summary (fun b => b) initialize_session s.
Proof. unfold summary, initialize_session. expose. split_cases; close_summary. Qed.

Lemma get_product_details_summary sku s :
  summary truthy (get_product_details sku) s.
Proof. unfold summary, get_product_details. expose. split_cases; close_summary. Qed.

Lemma get_updated_cart_summary s : summary truthy get_updated_cart s.
Proof. unfold summary, get_updated_cart. expose. split_cases; close_summary. Qed.

Lemma post_info_summary what url info l1 l2 l3 s :
  summary (fun b => b) (post_info what url info l1 l2 l3) s.
Proof. unfold summary, post_info. expose. split_cases; close_summary. Qed.

Lemma place_order_summary s : summary truthy place_order s.
Proof. unfold summary, place_order. expose. split_cases; close_summary. Qed.

Lemma add_to_cart_summary sku size quantity s :
  summary (fun b => b) (add_to_cart sku size quantity) s.
Proof.
  unfold add_to_cart. apply summary_try; [|intros e; apply gives_up_log_false].
  apply trace_ok_after_quiet; [apply quiet_logging|]. intros _ s1 _.
  apply (trace_ok_guarded truthy (fun b : bool => b)).
  - apply get_product_details_summary.
  - apply gives_up_log_false.
  - intros product s2 _ _. unfold trace_ok. expose. split_cases; close_trace.
Qed.

Lemma checkout_as_guest_summary s : summary (fun b => b) checkout_as_guest s.
Proof.
  unfold checkout_as_guest. apply summary_try; [|intros e; apply gives_up_log_false].
  apply trace_ok_after_quiet; [apply quiet_logging|]. intros _ s1 _.
  apply (trace_ok_guarded truthy (fun b : bool => b)).
  - apply get_updated_cart_summary.
  - apply gives_up_log_false.
  - intros cart_data s2 _ _. unfold trace_ok. expose. split_cases; close_trace.
Qed.

Lemma complete_checkout_flow_summary sku size shipping_info payment_info s :
  summary (fun b => b)
          (complete_checkout_flow sku size shipping_info payment_info) s.
Proof.
  unfold complete_checkout_flow.
  apply summary_try; [|intros e; apply gives_up_log_false].
  apply trace_ok_after_quiet; [apply quiet_logging|]. intros _ s0 _.
  apply (trace_ok_guarded (fun b : bool => b) (fun b : bool => b));
    [apply initialize_session_summary | apply gives_up_false |].
  intros _ s1 _ _.
  apply (trace_ok_guarded (fun b : bool => b) (fun b : bool => b));
    [apply add_to_cart_summary | apply gives_up_false |].
  intros _ s2 _ _.
  apply (trace_ok_guarded (fun b : bool => b) (fun b : bool => b));
    [apply checkout_as_guest_summary | apply gives_up_false |].
  intros _ s3 _ _.
  apply (trace_ok_guarded (fun b : bool => b) (fun b : bool => b));
    [apply post_info_summary | apply gives_up_false |].
  intros _ s4 _ _.
  apply (trace_ok_guarded (fun b : bool => b) (fun b : bool => b));
    [apply post_info_summary | apply gives_up_false |].
  intros _ s5 _ _.
  apply (trace_ok_then_quiet truthy); [apply place_order_summary|].
  intros order_result s6. destruct (truthy order_result) eqn:Ho;
    do 2 eexists; (split; [reflexivity|]); repeat split; auto.
Qed.

End CheckoutExecutors.

(** * The executors of FootlockerOrderPlacer *)

Section PlacerExecutors.
Import FootlockerOrderPlacer.

Lemma submit_user_info_summary user_info s :
  summary (fun b => b) (submit_user_info user_info) s.
Proof. unfold summary, submit_user_info. expose. split_cases; close_summary. Qed.

Lemma verify_shipping_address_summary address s :
  summary truthy (verify_shipping_address address) s.
Proof.
  unfold summary, verify_shipping_address. expose. split_cases; close_summary.
Qed.

Lemma set_shipping_address_summary verified_address s :
  summary (fun b => b) (set_shipping_address verified_address) s.
Proof.
  unfold summary, set_shipping_address, shipping_payload. expose.
  split_cases; close_summary.
Qed.

Lemma get_updated_cart_with_shipping_summary s :
  summary truthy get_updated_cart_with_shipping s.
Proof.
  unfold summary, get_updated_cart_with_shipping. expose.
  split_cases; close_summary.
Qed.

(** the two placeholders, run out *)
Lemma submit_payment_info_run payment_info s :
  submit_payment_info payment_info s
  = (Ok true,
     set_logs
       (logs s
        ++ [ (INFO, [Lit "Step 5: Submitting payment information..."]);
             (WARNING,
              [Lit "⚠️ Payment endpoint not captured yet - this is a placeholder"]);
             (INFO, [Lit "Payment info prepared but not submitted (test mode)"]) ])
       (advance 172 s)).
Proof.
  unfold submit_payment_info. expose. rewrite <- !app_assoc. reflexivity.
Qed.

Lemma place_final_order_run s :
  place_final_order s
  = (Ok mock_order_confirmation,
     set_logs
       (logs s
        ++ [ (INFO, [Lit "Step 6: Placing final order..."]);
             (WARNING,
              [Lit "⚠️ Order placement endpoint not captured yet - this is a placeholder"]);
             (INFO, [Lit "Order prepared but not placed (test mode)"]) ])
       (advance 172 s)).
Proof.
  unfold place_final_order. expose. rewrite <- !app_assoc. reflexivity.
Qed.

End PlacerExecutors.

(** * The payment and order placeholders *)

(** C9. submit_payment_info returns True for every payment_info and sends
    nothing; place_final_order returns the fixed confirmation with orderId
    TEST-ORDER-12345 and sends nothing; so a complete_order_flow run whose
    first four steps succeed returns True whatever the payment data. *)
Theorem placeholders_always_succeed
  (user_info shipping_address payment_info : dict) (s : State) :
  (fst (FootlockerOrderPlacer.submit_payment_info payment_info s) = Ok true
   /\ sent (snd (FootlockerOrderPlacer.submit_payment_info payment_info s))
      = sent s)
  /\ (fst (FootlockerOrderPlacer.place_final_order s)
      = Ok (PDict [ ("orderId", PStr "TEST-ORDER-12345");
                    ("status", PStr "TEST_MODE");
                    ("message", PStr "Order placement in test mode") ])
      /\ sent (snd (FootlockerOrderPlacer.place_final_order s)) = sent s)
  /\ (forall s1 verified s2 s3 cart s4,
        FootlockerOrderPlacer.submit_user_info user_info (order_flow_start s)
        = (Ok true, s1) ->
        FootlockerOrderPlacer.verify_shipping_address shipping_address s1
        = (Ok verified, s2) ->
        truthy verified = true ->
        FootlockerOrderPlacer.set_shipping_address verified s2 = (Ok true, s3) ->
        FootlockerOrderPlacer.get_updated_cart_with_shipping s3 = (Ok cart, s4) ->
        truthy cart = true ->
        fst (FootlockerOrderPlacer.complete_order_flow
               user_info shipping_address payment_info s) = Ok true).
Proof.
  split; [|split].
  - rewrite submit_payment_info_run. split; reflexivity.
  - rewrite place_final_order_run. split; reflexivity.
  - intros s1 verified s2 s3 cart s4 H1 H2 Hv H3 H4 Hc.
    unfold FootlockerOrderPlacer.complete_order_flow, try_except, bind.
    unfold order_flow_start in H1. cbn [snd] in H1.
    change (logging INFO [Lit "🚀 Starting complete order placement flow..."] s)
      with (Ok tt, snd (logging INFO
                          [Lit "🚀 Starting complete order placement flow..."] s)).
    cbv beta iota. rewrite H1. cbv beta iota. cbn [negb].
    rewrite H2. cbv beta iota. rewrite Hv. cbn [negb].
    rewrite H3. cbv beta iota. cbn [negb].
    rewrite H4. cbv beta iota. rewrite Hc. cbn [negb].
    rewrite submit_payment_info_run. cbv beta iota. cbn [negb].
    rewrite place_final_order_run. reflexivity.
Qed.

Lemma placeholders_always_succeed_witness :
  fst (FootlockerOrderPlacer.complete_order_flow
         sample_user_info sample_address [("cardNumber", PStr "not a card")]
         (initial_state PNone order_transport)) = Ok true.
Proof.
  pose (s0 := order_flow_start (initial_state PNone order_transport)).
  pose (r1 := FootlockerOrderPlacer.submit_user_info sample_user_info s0).
  pose (r2 := FootlockerOrderPlacer.verify_shipping_address sample_address (snd r1)).
  pose (v := PDict [ ("line1", PStr "1 MORRIS RD"); ("town", PStr "SOUTH HILL");
                     ("postalCode", PStr "23970-5627") ]).
  pose (r3 := FootlockerOrderPlacer.set_shipping_address v (snd r2)).
  pose (r4 := FootlockerOrderPlacer.get_updated_cart_with_shipping (snd r3)).
  apply (proj2 (proj2 (placeholders_always_succeed
                         sample_user_info sample_address
                         [("cardNumber", PStr "not a card")]
                         (initial_state PNone order_transport)))
           (snd r1) v (snd r2) (snd r3) (PDict [("cartId", PStr "CART-1")])
           (snd r4)).
  - vm_compute. reflexivity.
  - vm_compute. reflexivity.
  - reflexivity.
  - vm_compute. reflexivity.
  - vm_compute. reflexivity.
  - reflexivity.
Defined.

(** * The orchestrator as a state machine *)

Lemma orchestrate_fail_fast (stages : list stage) :
  forall n input s t ran s',
    orchestrate stages n input s = (Ok (t, ran), s') ->
    fail_fast n (List.length stages) t ran.
Proof.
  induction stages as [|st rest IH]; intros n input s t ran s' Hrun.
  - injection Hrun as <- <- _. repeat split; simpl; auto.
  - simpl in Hrun. unfold bind in Hrun.
    destruct (execute st input s) as [[out|e] s1]; [|discriminate].
    destruct (truthy out) eqn:Hout.
    + destruct (orchestrate rest (S n) out s1) as [[[t' ran']|e] s2] eqn:Hrest;
        [|discriminate].
      injection Hrun as <- <- _. simpl.
      destruct (IH _ _ _ _ _ _ Hrest) as (Hseq & Hlen & Ht).
      split; [simpl; now rewrite Hseq|]. split; [simpl; lia|].
      destruct t' as [o|k].
      * destruct Ht as [Hl Hall]. split; [simpl; lia|]. now constructor.
      * destruct Ht as (before & o & -> & Ho & Hall).
        exists ((n, out) :: before), o. repeat split; auto.
    + destruct (on_failure st s1) as [[[]|e] s2]; [|discriminate].
      injection Hrun as <- <- _. split; [reflexivity|]. split; [simpl; lia|].
      exists [], out. repeat split; auto.
Qed.

(** one stage of a flow, on both sides of the comparison: take the value
    and the state the executor returns and go by cases on the value *)
Ltac unfold_flow :=
  cbv [orchestrate order_stages checkout_stages execute on_failure as_stage
         bind ret try_except logging].

Ltac stage_result lem :=
  match goal with
  | |- context [match ?c ?st with _ => _ end] =>
      let H := fresh "Hrun" in
      destruct (lem st) as (? & ? & ? & H & _); rewrite !H; clear H;
      cbv beta iota
  end.

Ltac stop_here :=
  cbn [negb truthy fst snd]; do 3 eexists; split; reflexivity.

Lemma order_flow_refines (user_info shipping_address payment_info : dict) s :
  exists t ran s1,
    orchestrate (order_stages user_info shipping_address payment_info)
                1 PNone (order_flow_start s) = (Ok (t, ran), s1)
    /\ FootlockerOrderPlacer.complete_order_flow
         user_info shipping_address payment_info s
       = match t with
         | Completed _ =>
             (Ok true,
              set_logs
                (logs s1
                 ++ [ (INFO, [Lit "🎉 Order placement flow completed successfully!"]);
                      (INFO, [Lit "Order ID: "; Val (PStr "TEST-ORDER-12345")]) ])
                s1)
         | Aborted _ => (Ok false, s1)
         end.
Proof.
  unfold order_flow_start, FootlockerOrderPlacer.complete_order_flow.
  unfold_flow. cbv beta iota. cbn [snd].
  stage_result (submit_user_info_summary user_info).
  match goal with |- context [negb ?b] => destruct b end; [|stop_here].
  cbn [negb truthy].
  stage_result (verify_shipping_address_summary shipping_address).
  match goal with |- context [truthy ?v] => destruct (truthy v) end; [|stop_here].
  cbn [negb].
  match goal with
  | |- context [FootlockerOrderPlacer.set_shipping_address ?v ?st] =>
      destruct (set_shipping_address_summary v st) as (b3 & s3 & ? & H3 & _);
      rewrite !H3; clear H3; cbv beta iota
  end.
  destruct b3; [|stop_here]. cbn [negb truthy].
  stage_result get_updated_cart_with_shipping_summary.
  match goal with |- context [truthy ?v] => destruct (truthy v) end; [|stop_here].
  cbn [negb].
  rewrite !submit_payment_info_run. cbv beta iota. cbn [negb truthy].
  rewrite !place_final_order_run. cbv beta iota.
  cbn [negb truthy FootlockerOrderPlacer.mock_order_confirmation fst snd].
  do 3 eexists. split; [reflexivity|].
  cbn. rewrite <- !app_assoc. reflexivity.
Qed.

Lemma checkout_flow_refines (sku size : string)
  (shipping_info payment_info : dict) s :
  exists t ran s1,
    orchestrate (checkout_stages sku size shipping_info payment_info)
                1 PNone (checkout_flow_start s) = (Ok (t, ran), s1)
    /\ FootlockerCheckout.complete_checkout_flow
         sku size shipping_info payment_info s
       = match t with
         | Completed _ =>
             (Ok true,
              set_logs
                (logs s1
                 ++ [(INFO, [Lit "=== Checkout Flow Completed Successfully ==="])])
                s1)
         | Aborted _ => (Ok false, s1)
         end.
Proof.
  unfold checkout_flow_start, FootlockerCheckout.complete_checkout_flow.
  unfold_flow. cbv beta iota. cbn [snd].
  stage_result initialize_session_summary.
  match goal with |- context [negb ?b] => destruct b end; [|stop_here].
  cbn [negb truthy].
  stage_result (add_to_cart_summary sku size 1%Z).
  match goal with |- context [negb ?b] => destruct b end; [|stop_here].
  cbn [negb truthy].
  stage_result checkout_as_guest_summary.
  match goal with |- context [negb ?b] => destruct b end; [|stop_here].
  cbn [negb truthy].
  unfold FootlockerCheckout.submit_shipping_info.
  match goal with
  | |- context [FootlockerCheckout.post_info ?a ?b ?c ?d ?e ?f ?st] =>
      destruct (post_info_summary a b c d e f st) as (b4 & s4 & ? & H4 & _);
      rewrite !H4; clear H4; cbv beta iota
  end.
  destruct b4; [|stop_here]. cbn [negb truthy].
  unfold FootlockerCheckout.submit_payment_info.
  match goal with
  | |- context [FootlockerCheckout.post_info ?a ?b ?c ?d ?e ?f ?st] =>
      destruct (post_info_summary a b c d e f st) as (b5 & s5 & ? & H5 & _);
      rewrite !H5; clear H5; cbv beta iota
  end.
  destruct b5; [|stop_here]. cbn [negb truthy].
  stage_result place_order_summary.
  match goal with |- context [truthy ?v] => destruct (truthy v) end;
    do 3 eexists; split; reflexivity.
Qed.

(** C4. Both orchestrators are the fail-fast state machine run on their six
    stages in the written order.  A run of complete_order_flow or of
    complete_checkout_flow from [s] is the run of [orchestrate] from stage 1:
    the machine's run returns, and the flow's result and final state (the
    requests sent, the log, the identifiers, the tapes) are the machine's,
    False and the machine's final state as it is on Aborted, True and the
    machine's final state with the closing log lines on Completed.  So the
    flow ran the stages the machine ran and no other: they are numbered
    1, 2, ... with none skipped or repeated, stage n+1 ran only when stage n
    returned a success, and on Aborted k stage k is the first that failed
    and the last that ran. *)
Theorem orchestrators_are_fail_fast
  (user_info shipping_address payment_info : dict)
  (sku size : string) (shipping_info : dict) (s : State) :
  (exists t ran s1,
      orchestrate (order_stages user_info shipping_address payment_info)
                  1 PNone (order_flow_start s) = (Ok (t, ran), s1)
      /\ fail_fast 1 6 t ran
      /\ FootlockerOrderPlacer.complete_order_flow
           user_info shipping_address payment_info s
         = match t with
           | Completed _ =>
               (Ok true,
                set_logs
                  (logs s1
                   ++ [ (INFO, [Lit "🎉 Order placement flow completed successfully!"]);
                        (INFO, [Lit "Order ID: "; Val (PStr "TEST-ORDER-12345")]) ])
                  s1)
           | Aborted _ => (Ok false, s1)
           end)
  /\ (exists t ran s1,
      orchestrate (checkout_stages sku size shipping_info payment_info)
                  1 PNone (checkout_flow_start s) = (Ok (t, ran), s1)
      /\ fail_fast 1 6 t ran
      /\ FootlockerCheckout.complete_checkout_flow
           sku size shipping_info payment_info s
         = match t with
           | Completed _ =>
               (Ok true,
                set_logs
                  (logs s1
                   ++ [(INFO, [Lit "=== Checkout Flow Completed Successfully ==="])])
                  s1)
           | Aborted _ => (Ok false, s1)
           end).
Proof.
  split.
  - destruct (order_flow_refines user_info shipping_address payment_info s)
      as (t & ran & s1 & Hm & Hflow).
    exists t, ran, s1. split; [exact Hm|].
    split; [exact (orchestrate_fail_fast _ _ _ _ _ _ _ Hm)|exact Hflow].
  - destruct (checkout_flow_refines sku size shipping_info payment_info s)
      as (t & ran & s1 & Hm & Hflow).
    exists t, ran, s1. split; [exact Hm|].
    split; [exact (orchestrate_fail_fast _ _ _ _ _ _ _ Hm)|exact Hflow].
Qed.

(** * The stored identifiers *)

Ltac read_outcome :=
  repeat (match goal with
          | H : transport _ _ _ = _ |- _ => rewrite H; clear H
          | H : (_ =? _)%Z = _ |- _ => rewrite H; clear H
          | H : json_body _ = _ |- _ => rewrite H; clear H
          | H : dict_get _ _ _ = _ |- _ => rewrite H; clear H
          end; cbn).

Ltac close_step :=
  do 3 eexists; split; [reflexivity|]; split; [reflexivity|];
  split; [reflexivity|];
  split; [cbn; unfold cart_id_after; read_outcome; reflexivity|];
  cbn; unfold guest_id_after; read_outcome; reflexivity.

Lemma get_updated_cart_step s :
  exists v s1 r,
    FootlockerCheckout.get_updated_cart s = (Ok v, s1)
    /\ transport s1 = transport s
    /\ sent s1 = (sent s ++ [r])%list
    /\ cart_id s1
       = cart_id_after (cart_id s) (transport s (List.length (sent s)) r)
    /\ guest_id s1 = guest_id s.
Proof.
  unfold FootlockerCheckout.get_updated_cart. expose.
  split_cases;
    (do 3 eexists; split; [reflexivity|]; split; [reflexivity|];
     split; [reflexivity|];
     split; [cbn; unfold cart_id_after; read_outcome; reflexivity|reflexivity]).
Qed.

Lemma get_cart_status_step s :
  exists v s1 r,
    EnhancedFootlockerCheckout.get_cart_status s = (Ok v, s1)
    /\ transport s1 = transport s
    /\ sent s1 = (sent s ++ [r])%list
    /\ cart_id s1
       = cart_id_after (cart_id s) (transport s (List.length (sent s)) r)
    /\ guest_id s1
       = guest_id_after (guest_id s) (transport s (List.length (sent s)) r).
Proof.
  unfold EnhancedFootlockerCheckout.get_cart_status. expose.
  split_cases; close_step.
Qed.

Lemma refresh_cart_folds (n : nat) :
  forall s, exists s' new,
    refresh_cart n s = (Ok tt, s')
    /\ transport s' = transport s
    /\ sent s' = (sent s ++ new)%list
    /\ List.length new = n
    /\ cart_id s'
       = fold_left cart_id_after
                   (outcomes_from (transport s) (List.length (sent s)) new)
                   (cart_id s).
Proof.
  induction n as [|n IH]; intros s.
  - exists s, []. cbn. rewrite app_nil_r. repeat split.
  - destruct (get_updated_cart_step s) as (v & s1 & r & Hrun & Ht & Hs & Hc & _).
    destruct (IH s1) as (s' & new & Hrun' & Ht' & Hs' & Hn & Hc').
    exists s', (r :: new). cbn [refresh_cart]. unfold bind.
    rewrite Hrun, Hrun'. split; [reflexivity|]. split; [congruence|].
    split; [rewrite Hs', Hs, <- app_assoc; reflexivity|].
    split; [cbn; now rewrite Hn|].
    rewrite Hc'. cbn [outcomes_from fold_left]. rewrite Hc, Ht, Hs.
    rewrite length_app, Nat.add_1_r. reflexivity.
Qed.

Lemma outcomes_from_length tr (l : list request) :
  forall i, List.length (outcomes_from tr i l) = List.length l.
Proof. induction l as [|r l IH]; intros i; cbn; [reflexivity|now rewrite IH]. Qed.

(** the last 200 JSON-object response decides, whatever came before *)
Lemma cart_id_after_last (outs : list outcome) (old : pyval)
  (resp : response) (d : dict) :
  status_code resp = 200%Z ->
  json_body resp = Some (PDict d) ->
  fold_left cart_id_after (outs ++ [Resp resp]) old = dict_get d "cartId" PNone.
Proof.
  intros Hst Hb. rewrite fold_left_app. cbn. now rewrite Hst, Hb.
Qed.

(** C3, as the code has it.  get_updated_cart and get_cart_status send one
    request; when it is answered 200 with a JSON object, the stored cart_id
    becomes that object's cartId, and None when the object has no cartId,
    whatever was stored before; any other outcome leaves cart_id as it was.
    get_cart_status treats guest_id the same way through user.id.  Over any
    number of cart fetches in a row the stored cart_id is the result of
    applying this replacement to the outcomes in order, so it is the cartId
    field, null or not, of the latest 200 JSON-object response. *)
Theorem cart_id_is_overwritten (n : nat) (s : State) :
  (exists r,
      sent (snd (FootlockerCheckout.get_updated_cart s)) = (sent s ++ [r])%list
      /\ cart_id (snd (FootlockerCheckout.get_updated_cart s))
         = cart_id_after (cart_id s) (transport s (List.length (sent s)) r)
      /\ guest_id (snd (FootlockerCheckout.get_updated_cart s)) = guest_id s)
  /\ (exists r,
      sent (snd (EnhancedFootlockerCheckout.get_cart_status s))
      = (sent s ++ [r])%list
      /\ cart_id (snd (EnhancedFootlockerCheckout.get_cart_status s))
         = cart_id_after (cart_id s) (transport s (List.length (sent s)) r)
      /\ guest_id (snd (EnhancedFootlockerCheckout.get_cart_status s))
         = guest_id_after (guest_id s) (transport s (List.length (sent s)) r))
  /\ (List.length (new_outcomes s (snd (refresh_cart n s))) = n
      /\ cart_id (snd (refresh_cart n s))
         = fold_left cart_id_after (new_outcomes s (snd (refresh_cart n s)))
                     (cart_id s))
  /\ (forall outs old resp d,
        status_code resp = 200%Z ->
        json_body resp = Some (PDict d) ->
        fold_left cart_id_after (outs ++ [Resp resp]) old
        = dict_get d "cartId" PNone).
Proof.
  split; [|split; [|split]].
  - destruct (get_updated_cart_step s) as (v & s1 & r & Hrun & _ & Hs & Hc & Hg).
    rewrite Hrun. exists r. auto.
  - destruct (get_cart_status_step s) as (v & s1 & r & Hrun & _ & Hs & Hc & Hg).
    rewrite Hrun. exists r. auto.
  - destruct (refresh_cart_folds n s) as (s' & new & Hrun & _ & Hs & Hn & Hc).
    rewrite Hrun. cbn [snd]. unfold new_outcomes.
    rewrite (new_requests_app _ _ _ Hs). split; [|exact Hc].
    now rewrite outcomes_from_length.
  - intros outs old resp d. apply cart_id_after_last.
Qed.

(** C3 fails: with CART-1 stored, a 200 cart response that carries no cartId
    (or a null one) leaves None stored. *)
Lemma cart_id_erased_by_absent_field :
  let absent := scripted [] (ok_json (PDict [("totalUnitCount", PInt 1)])) in
  let null := scripted [] (ok_json (PDict [("cartId", PNone)])) in
  cart_id (initial_state (PStr "CART-1") absent) = PStr "CART-1"
  /\ cart_id (snd (FootlockerCheckout.get_updated_cart
                     (initial_state (PStr "CART-1") absent))) = PNone
  /\ cart_id (snd (EnhancedFootlockerCheckout.get_cart_status
                     (initial_state (PStr "CART-1") null))) = PNone.
Proof. vm_compute. repeat split. Qed.

(** * Address verification *)

Arguments FootlockerOrderPlacer.shipping_payload : simpl never.

(** what verify_shipping_address returns for a 200 response with the JSON
    object [d]: the first suggested address when the decision is Accepted
    and there is one, the verification result itself otherwise *)
Lemma verify_shipping_address_returns address s :
  exists r,
    sent (snd (FootlockerOrderPlacer.verify_shipping_address address s))
    = (sent s ++ [r])%list
    /\ forall resp d,
         transport s (List.length (sent s)) r = Resp resp ->
         status_code resp = 200%Z ->
         json_body resp = Some (PDict d) ->
         (forall first others,
             dict_get d "decision" PNone = PStr "Accepted" ->
             dict_get d "suggestedAddresses" (PList []) = PList (first :: others) ->
             fst (FootlockerOrderPlacer.verify_shipping_address address s)
             = Ok first)
         /\ (py_eq_str (dict_get d "decision" PNone) "Accepted" = false ->
             fst (FootlockerOrderPlacer.verify_shipping_address address s)
             = Ok (PDict d)).
Proof.
  eexists. unfold FootlockerOrderPlacer.verify_shipping_address. expose.
  split; [split_cases; reflexivity|].
  intros resp d Hresp Hstatus Hbody. rewrite Hresp. cbn.
  rewrite Hstatus. cbn. rewrite Hbody. cbn. split.
  - intros first others Hd Hs. rewrite Hd, Hs. reflexivity.
  - intros Hd. rewrite Hd. reflexivity.
Qed.

(** set_shipping_address posts the payload built from the value it is given *)
Lemma set_shipping_address_sends verified payload s :
  (forall st, FootlockerOrderPlacer.shipping_payload verified st = (Ok payload, st)) ->
  exists r,
    sent (snd (FootlockerOrderPlacer.set_shipping_address verified s))
    = (sent s ++ [r])%list
    /\ req_method r = POST /\ req_url r = address_url
    /\ req_json r = Some payload.
Proof.
  intros Hp. eexists. unfold FootlockerOrderPlacer.set_shipping_address. expose.
  rewrite Hp. cbn. split; [split_cases; reflexivity|]. repeat split.
Qed.

(** what set_shipping_address can build its payload from *)
Lemma shipping_payload_shape verified :
  if address_shaped verified then
    exists payload,
      forall st, FootlockerOrderPlacer.shipping_payload verified st
                 = (Ok payload, st)
  else
    exists e,
      forall st, FootlockerOrderPlacer.shipping_payload verified st
                 = (Raise e, st).
Proof.
  unfold address_shaped, is_dict, FootlockerOrderPlacer.shipping_payload,
    py_get, bind, ret, raise.
  destruct verified as [| | | | |d]; cbv beta iota;
    try (eexists; intros st; reflexivity).
  destruct (dict_get d "region" (PDict [])) as [| | | | |rg];
    cbv beta iota; cbn [andb]; try (eexists; intros st; reflexivity).
  destruct (dict_get d "country" (PDict [])) as [| | | | |ct];
    cbv beta iota; eexists; intros st; reflexivity.
Qed.

(** a value it cannot read as an address is not sent: the attribute error
    is caught and the step fails *)
Lemma set_shipping_address_unreadable verified s :
  address_shaped verified = false ->
  exists s',
    FootlockerOrderPlacer.set_shipping_address verified s = (Ok false, s')
    /\ sent s' = sent s.
Proof.
  intros Hshape. generalize (shipping_payload_shape verified).
  rewrite Hshape. intros [e He].
  unfold FootlockerOrderPlacer.set_shipping_address. expose.
  rewrite He. cbn. eexists. split; reflexivity.
Qed.

(** C5, as the code has it.  In complete_order_flow, once step 1 has
    succeeded: verify_shipping_address sends one request and, for a 200
    response with a JSON object, returns the first suggested address when
    the decision is Accepted and there is one, and the verification result
    itself when the decision is not Accepted.  When the value returned is
    falsy the run stops at step 2 and returns False without any request to
    the address endpoint.  When it is truthy, step 3 runs on that value
    (never on the caller's shipping_address): if it can be read as an
    address, an object whose region and country are objects when present,
    the next request of the run is the POST to the address endpoint with the
    payload built from it; if it cannot, the run stops at step 3 and returns
    False, again with no request to the address endpoint. *)
Theorem verified_address_is_what_is_sent
  (user_info shipping_address payment_info : dict)
  (s s1 s2 : State) (verified : pyval) :
  FootlockerOrderPlacer.submit_user_info user_info (order_flow_start s)
  = (Ok true, s1) ->
  FootlockerOrderPlacer.verify_shipping_address shipping_address s1
  = (Ok verified, s2) ->
  let run := FootlockerOrderPlacer.complete_order_flow
               user_info shipping_address payment_info s in
  (exists r,
      sent s2 = (sent s1 ++ [r])%list
      /\ forall resp d,
           transport s1 (List.length (sent s1)) r = Resp resp ->
           status_code resp = 200%Z ->
           json_body resp = Some (PDict d) ->
           (forall first others,
               dict_get d "decision" PNone = PStr "Accepted" ->
               dict_get d "suggestedAddresses" (PList [])
               = PList (first :: others) ->
               verified = first)
           /\ (py_eq_str (dict_get d "decision" PNone) "Accepted" = false ->
               verified = PDict d))
  /\ (truthy verified = false ->
      fst run = Ok false /\ sent (snd run) = sent s2
      /\ last (logs (snd run)) (INFO, [])
         = (ERROR, [Lit "Failed at Step 2: Address verification"]))
  /\ (truthy verified = true ->
      if address_shaped verified then
        exists payload r later,
          (forall st, FootlockerOrderPlacer.shipping_payload verified st
                      = (Ok payload, st))
          /\ sent (snd run) = (sent s2 ++ r :: later)%list
          /\ req_method r = POST /\ req_url r = address_url
          /\ req_json r = Some payload
      else
        fst run = Ok false /\ sent (snd run) = sent s2
        /\ last (logs (snd run)) (INFO, [])
           = (ERROR, [Lit "Failed at Step 3: Setting shipping address"])).
Proof.
  intros H1 H2 run. split; [|split].
  - destruct (verify_shipping_address_returns shipping_address s1)
      as (r & Hr & Hret).
    rewrite H2 in Hr, Hret. cbn [fst snd] in Hr, Hret.
    exists r. split; [exact Hr|].
    intros resp d Hresp Hst Hbody.
    destruct (Hret resp d Hresp Hst Hbody) as [Ha Hn]. split.
    + intros first others Hd Hs. specialize (Ha first others Hd Hs).
      now injection Ha.
    + intros Hd. specialize (Hn Hd). now injection Hn.
  - intros Hv. subst run.
    unfold FootlockerOrderPlacer.complete_order_flow, order_flow_start in *.
    unfold_flow. cbv beta iota. unfold logging in H1. cbn [snd] in H1.
    rewrite H1. cbv beta iota. cbn [negb]. rewrite H2. cbv beta iota.
    rewrite Hv. cbn. split; [reflexivity|]. split; [reflexivity|].
    apply last_last.
  - intros Hv. subst run.
    generalize (shipping_payload_shape verified).
    destruct (address_shaped verified) eqn:Hshape.
    + intros [payload Hp]. exists payload.
      destruct (set_shipping_address_sends verified payload s2 Hp)
        as (r & Hr & Hm & Hu & Hj).
      destruct (set_shipping_address_summary verified s2)
        as (b3 & s3 & n3 & H3 & _).
      rewrite H3 in Hr. cbn [snd] in Hr.
      unfold FootlockerOrderPlacer.complete_order_flow, order_flow_start in *.
      unfold_flow. cbv beta iota. unfold logging in H1. cbn [snd] in H1.
      rewrite H1. cbv beta iota. cbn [negb]. rewrite H2. cbv beta iota.
      rewrite Hv. cbn [negb]. rewrite H3. cbv beta iota.
      destruct b3; cbn [negb].
      * destruct (get_updated_cart_with_shipping_summary s3)
          as (c & s4 & n4 & H4 & _ & Hs4 & _).
        rewrite H4. cbv beta iota.
        exists r, n4. split; [exact Hp|]. split; [|auto].
        destruct (truthy c); cbn [negb].
        -- rewrite submit_payment_info_run. cbv beta iota. cbn [negb].
           rewrite place_final_order_run. cbn.
           rewrite Hs4, Hr, <- app_assoc. reflexivity.
        -- cbn. rewrite Hs4, Hr, <- app_assoc. reflexivity.
      * exists r, []. split; [exact Hp|]. split; [|auto]. cbn. exact Hr.
    + intros _.
      destruct (set_shipping_address_unreadable verified s2 Hshape)
        as (s3 & H3 & Hs3).
      unfold FootlockerOrderPlacer.complete_order_flow, order_flow_start in *.
      unfold_flow. cbv beta iota. unfold logging in H1. cbn [snd] in H1.
      rewrite H1. cbv beta iota. cbn [negb]. rewrite H2. cbv beta iota.
      rewrite Hv. cbn [negb]. rewrite H3. cbv beta iota. cbn.
      split; [reflexivity|]. split; [exact Hs3|]. apply last_last.
Qed.

(** With the address accepted and corrected, the request to the address
    endpoint carries the corrected lines. *)
Lemma verified_address_is_what_is_sent_witness :
  exists r later,
    sent (snd (FootlockerOrderPlacer.complete_order_flow
                 sample_user_info sample_address config.PAYMENT_INFO
                 (initial_state PNone order_transport)))
    = (sent (snd (FootlockerOrderPlacer.verify_shipping_address
                    sample_address
                    (snd (FootlockerOrderPlacer.submit_user_info
                            sample_user_info
                            (order_flow_start
                               (initial_state PNone order_transport))))))
       ++ r :: later)%list
    /\ req_method r = POST /\ req_url r = address_url
    /\ req_json r
       = Some (PDict
                 [ ("shippingAddress",
                    PDict [ ("firstName", PStr "John"); ("lastName", PStr "Doe");
                            ("line1", PStr "1 MORRIS RD"); ("line2", PStr "");
                            ("town", PStr "SOUTH HILL");
                            ("region", PDict [("isocodeShort", PNone)]);
                            ("postalCode", PStr "23970-5627");
                            ("country", PDict [("isocode", PStr "US")]);
                            ("phone", PStr "555-123-4567");
                            ("email", PStr "john.doe@example.com");
                            ("shippingAddress", PBool true) ]) ]).
Proof.
  pose (s0 := order_flow_start (initial_state PNone order_transport)).
  pose (r1 := FootlockerOrderPlacer.submit_user_info sample_user_info s0).
  pose (r2 := FootlockerOrderPlacer.verify_shipping_address sample_address (snd r1)).
  pose (v := PDict [ ("line1", PStr "1 MORRIS RD"); ("town", PStr "SOUTH HILL");
                     ("postalCode", PStr "23970-5627") ]).
  assert (H1 : FootlockerOrderPlacer.submit_user_info sample_user_info s0
               = (Ok true, snd r1)) by (vm_compute; reflexivity).
  assert (H2 : FootlockerOrderPlacer.verify_shipping_address
                 sample_address (snd r1) = (Ok v, snd r2))
    by (vm_compute; reflexivity).
  destruct (proj2 (proj2 (verified_address_is_what_is_sent
                            sample_user_info sample_address config.PAYMENT_INFO
                            (initial_state PNone order_transport)
                            (snd r1) (snd r2) v H1 H2)) eq_refl)
    as (payload & r & later & Hp & Hs & Hm & Hu & Hj).
  exists r, later. split; [exact Hs|]. split; [exact Hm|]. split; [exact Hu|].
  rewrite Hj. specialize (Hp s0). injection Hp as <-. reflexivity.
Defined.

(** C5 fails: the decision is Rejected, and still the third request of the
    run is the POST to the address endpoint, its body built from the
    verification result, and the run ends with True. *)
Lemma rejected_address_is_still_sent :
  let run := FootlockerOrderPlacer.complete_order_flow
               sample_user_info sample_address config.PAYMENT_INFO
               (initial_state PNone rejecting_transport) in
  fst run = Ok true
  /\ map req_url (sent (snd run))
     = [ (FootlockerOrderPlacer.api_base
          ++ "/carts/co-cart-aggregation-service/site/fl/cart/userInfo")%string;
         (FootlockerOrderPlacer.api_base
          ++ "/address-verification/v0/address/verification")%string;
         address_url;
         (FootlockerOrderPlacer.api_base
          ++ "/carts/co-cart-aggregation-service/site/fl/cart/userInfo")%string ].
Proof. vm_compute. split; reflexivity. Qed.

(** * Availability and the cart *)

Section EnhancedExecutors.
Import EnhancedFootlockerCheckout.

(** the comprehension over the sizes touches nothing in the state *)
Lemma in_stock_ids_state (sizes : list pyval) :
  forall s, exists r, in_stock_ids sizes s = (r, s).
Proof.
  induction sizes as [|size rest IH]; intros s; simpl.
  - eexists. reflexivity.
  - unfold bind, py_get, py_gt0, py_item, ret, raise.
    destruct size; try (eexists; reflexivity).
    destruct (dict_get d "stock" (PInt 0)); try (eexists; reflexivity).
    + destruct b; [|apply IH].
      destruct (dict_lookup d "id"); [|eexists; reflexivity].
      destruct (IH s) as [r Hr]. rewrite Hr. destruct r; eexists; reflexivity.
    + destruct (0 <? z)%Z; [|apply IH].
      destruct (dict_lookup d "id"); [|eexists; reflexivity].
      destruct (IH s) as [r Hr]. rewrite Hr. destruct r; eexists; reflexivity.
Qed.

Ltac settle_stock :=
  repeat match goal with
  | |- context [in_stock_ids ?l ?st] =>
      let r := fresh "ids" in
      let H := fresh "Hids" in
      destruct (in_stock_ids_state l st) as [r H]; rewrite H; clear H; cbn
  end.

Ltac split_cases_stock :=
  repeat (read_headers; cbn; settle_stock;
          match goal with
          | |- context [match ?x with _ => _ end] => split_innermost x; cbn
          end);
  read_headers; cbn.

Lemma dict_lookup_set_same (d : dict) (k : string) (v : pyval) :
  dict_lookup (dict_set d k v) k = Some v.
Proof.
  induction d as [|[k' v'] d IH]; simpl.
  - now rewrite String.eqb_refl.
  - destruct (String.eqb k k') eqn:E; simpl; rewrite E; [reflexivity|exact IH].
Qed.

Lemma truthy_dict_set (d : dict) (k : string) (v : pyval) :
  truthy (PDict (dict_set d k v)) = true.
Proof. destruct d as [|[k' v'] d]; simpl; [|destruct (String.eqb k k')]; reflexivity. Qed.

Ltac shape_done :=
  first [ left; reflexivity
        | right; do 2 eexists; split; [reflexivity|]; split;
          [apply dict_lookup_set_same | apply truthy_dict_set] ].

(** check_product_availability sends one request and returns either None or
    the product object with the list of sizes in stock attached *)
Lemma check_product_availability_shape sku s :
  exists r v s',
    check_product_availability sku s = (Ok v, s')
    /\ sent s' = (sent s ++ [r])%list
    /\ (v = PNone
        \/ exists d ids,
             v = PDict d
             /\ dict_lookup d "available_sizes" = Some (PList ids)
             /\ truthy v = true).
Proof.
  eexists. unfold check_product_availability. expose.
  split_cases_stock;
    (do 2 eexists; split; [reflexivity|]; split; [reflexivity|shape_done]).
Qed.

(** add_to_cart_real posts the product code and the size it is given *)
Lemma add_to_cart_real_sends sku size quantity s :
  exists r v s',
    add_to_cart_real sku size quantity s = (Ok v, s')
    /\ sent s' = (sent s ++ [r])%list
    /\ req_method r = POST
    /\ req_url r
       = api_base ++ "/carts-experience/carts-experience-service/site/fl/cart/add"
    /\ req_json r
       = Some (PDict [ ("productCode", PStr sku); ("quantity", PInt quantity);
                       ("size", PStr size); ("fulfillmentType", PStr "JC") ]).
Proof.
  eexists. unfold add_to_cart_real. expose.
  split_cases;
    (do 2 eexists; split; [reflexivity|]; split; [reflexivity|]; repeat split).
Qed.

Lemma get_cart_status_summary s : summary truthy get_cart_status s.
Proof. unfold summary, get_cart_status. expose. split_cases; close_summary. Qed.

Lemma enhanced_set_shipping_address_summary shipping_info s :
  summary (fun b => b) (set_shipping_address shipping_info) s.
Proof. unfold summary, set_shipping_address. expose. split_cases; close_summary. Qed.

Lemma enhanced_check_product_availability_summary sku s :
  summary truthy (check_product_availability sku) s.
Proof.
  unfold summary, check_product_availability. expose.
  split_cases_stock; close_summary.
Qed.

Lemma add_to_cart_real_summary sku size quantity s :
  summary truthy (add_to_cart_real sku size quantity) s.
Proof. unfold summary, add_to_cart_real. expose. split_cases; close_summary. Qed.

End EnhancedExecutors.

(** C2, as the code has it.  For a product key of the catalogue,
    check_product_availability sends one request and returns either None
    or the product object with the sizes in stock attached, which is
    truthy whatever those sizes are.  quick_add_and_checkout stops at that
    stage, returning False with no further request (no cart request, no
    second availability request), when the value returned is falsy; when it
    is truthy the next request of the run is the POST of the product code
    and the requested size to the cart endpoint: the stock of the requested
    size does not enter the decision. *)
Theorem quick_checkout_stops_on_failed_lookup
  (product_key size : string) (product_info : config.product)
  (s s1 : State) (product_data : pyval) :
  config.find_product config.PRODUCTS product_key = Some product_info ->
  EnhancedFootlockerCheckout.check_product_availability
    (config.sku product_info) (quick_checkout_start product_info s)
  = (Ok product_data, s1) ->
  let run := EnhancedFootlockerCheckout.quick_add_and_checkout product_key size s in
  (exists r, sent s1 = (sent s ++ [r])%list)
  /\ (product_data = PNone
      \/ exists d ids,
           product_data = PDict d
           /\ dict_lookup d "available_sizes" = Some (PList ids)
           /\ truthy product_data = true)
  /\ (truthy product_data = false ->
      fst run = Ok false /\ sent (snd run) = sent s1)
  /\ (truthy product_data = true ->
      exists r later,
        sent (snd run) = (sent s1 ++ r :: later)%list
        /\ req_method r = POST /\ req_url r = cart_add_url
        /\ req_json r
           = Some (PDict [ ("productCode", PStr (config.sku product_info));
                           ("quantity", PInt 1); ("size", PStr size);
                           ("fulfillmentType", PStr "JC") ])).
Proof.
  intros Hfind Hcheck run.
  destruct (check_product_availability_shape
              (config.sku product_info) (quick_checkout_start product_info s))
    as (r & v & s' & Hrun & Hsent & Hshape).
  rewrite Hcheck in Hrun. injection Hrun as <- <-.
  split; [exists r; exact Hsent|]. split; [exact Hshape|].
  subst run. unfold EnhancedFootlockerCheckout.quick_add_and_checkout.
  unfold try_except. rewrite Hfind. unfold bind, logging.
  unfold quick_checkout_start, logging in Hcheck. cbn [snd] in Hcheck.
  rewrite Hcheck. split.
  - intros Hv. rewrite Hv. cbn. split; reflexivity.
  - intros Hv. rewrite Hv. cbn [negb].
    destruct (add_to_cart_real_sends (config.sku product_info) size 1%Z s1)
      as (r2 & v2 & s2 & H2 & Hs2 & Hm & Hu & Hj).
    rewrite H2. exists r2.
    destruct (truthy v2); cbn [negb].
    + destruct (get_cart_status_summary s2) as (v3 & s3 & n3 & H3 & _ & Hs3 & _).
      rewrite H3. destruct (truthy v3); cbn [negb].
      * destruct (enhanced_set_shipping_address_summary config.SHIPPING_INFO s3)
          as (b4 & s4 & n4 & H4 & _ & Hs4 & _).
        rewrite H4. exists (n3 ++ n4)%list. split; [|auto].
        destruct b4; cbn; rewrite Hs4, Hs3, Hs2, <- !app_assoc; reflexivity.
      * exists n3. split; [|auto]. cbn. rewrite Hs3, Hs2, <- app_assoc. reflexivity.
    + exists []. split; [|auto]. cbn. exact Hs2.
Qed.

(** With the product lookup answered 404 the run stops after that one
    request. *)
Lemma quick_checkout_stops_on_failed_lookup_witness :
  let s0 := initial_state PNone (scripted [] (status_only 404)) in
  let run := EnhancedFootlockerCheckout.quick_add_and_checkout
               "jordan_5_retro" "04.5" s0 in
  fst run = Ok false /\ List.length (sent (snd run)) = 1.
Proof.
  cbv zeta.
  pose (s0 := initial_state PNone (scripted [] (status_only 404))).
  pose (info := config.mkProduct
                  "H7980100" "Jordan Air Jordan 5 Retro OG - Boys' Grade School"
                  ["03.5"; "04.0"; "04.5"; "05.0"; "05.5"; "06.0"] 160).
  pose (r1 := EnhancedFootlockerCheckout.check_product_availability
                "H7980100" (quick_checkout_start info s0)).
  destruct (quick_checkout_stops_on_failed_lookup
              "jordan_5_retro" "04.5" info s0 (snd r1) PNone)
    as (_ & _ & Hstop & _).
  - reflexivity.
  - vm_compute. reflexivity.
  - destruct (Hstop eq_refl) as [Hf Hs]. split; [exact Hf|].
    fold s0. rewrite Hs. vm_compute. reflexivity.
Defined.

(** C2 fails: the payload reports no stock for size 04.5 (the sizes in
    stock it attaches are 05.0 only), and the run goes on to post size 04.5
    to the cart and ends with True. *)
Lemma sold_out_size_is_still_added :
  let s0 := initial_state PNone sold_out_transport in
  let run := EnhancedFootlockerCheckout.quick_add_and_checkout
               "jordan_5_retro" "04.5" s0 in
  match fst (EnhancedFootlockerCheckout.check_product_availability "H7980100" s0)
  with
  | Ok (PDict d) => dict_lookup d "available_sizes" = Some (PList [PStr "05.0"])
  | _ => False
  end
  /\ fst run = Ok true
  /\ map (fun r => (req_url r, req_json r)) (firstn 2 (sent (snd run)))
     = [ ((EnhancedFootlockerCheckout.api_base
           ++ "/product-core/v1/pdp/sku/H7980100")%string, None);
         (cart_add_url,
          Some (PDict [ ("productCode", PStr "H7980100"); ("quantity", PInt 1);
                        ("size", PStr "04.5");
                        ("fulfillmentType", PStr "JC") ])) ].
Proof. vm_compute. repeat split. Qed.

(** * Exceptions stay inside the executors *)



Lemma exchanges_of_sent {A} (c : M A) (s : State) (new : list request) :
  sent (snd (c s)) = (sent s ++ new)%list -> exchanges c s = List.length new.
Proof. intros H. unfold exchanges. now rewrite (new_requests_app _ _ _ H). Qed.

Ltac one_exchange :=
  eapply (exchanges_of_sent _ _ [_]); expose; split_cases; reflexivity.







(** * Exchanges per executor *)

Lemma add_to_cart_exchanges sku size quantity s :
  exchanges (FootlockerCheckout.add_to_cart sku size quantity) s
  = if truthy (match fst (FootlockerCheckout.get_product_details
                            sku (add_to_cart_start sku size quantity s)) with
               | Ok product => product
               | Raise _ => PNone
               end)
    then 2 else 1.
Proof.
  destruct (get_product_details_summary sku (add_to_cart_start sku size quantity s))
    as (product & s1 & new & Hrun & _ & Hs1 & _).
  assert (Hone : exists r, new = [r]).
  { assert (He : exchanges (FootlockerCheckout.get_product_details sku)
                           (add_to_cart_start sku size quantity s) = 1).
    { unfold FootlockerCheckout.get_product_details. one_exchange. }
    unfold exchanges in He. rewrite Hrun in He. cbn [snd] in He.
    rewrite (new_requests_app _ _ _ Hs1) in He.
    destruct new as [|r [|r' new]]; try discriminate. eauto. }
  destruct Hone as [r ->]. rewrite Hrun. cbn [fst].
  unfold add_to_cart_start, logging in *. cbn [snd] in *.
  destruct (truthy product) eqn:Hp.
  - eapply (exchanges_of_sent _ _ [_; _]).
    unfold FootlockerCheckout.add_to_cart, try_except.
    unfold bind at 1. unfold logging at 1. cbv beta iota. unfold bind at 1.
    rewrite Hrun. cbv beta iota. rewrite Hp. cbn [negb]. expose.
    split_cases; cbn; rewrite Hs1, <- ?app_assoc; reflexivity.
  - eapply (exchanges_of_sent _ _ [_]).
    unfold FootlockerCheckout.add_to_cart, try_except.
    unfold bind at 1. unfold logging at 1. cbv beta iota. unfold bind at 1.
    rewrite Hrun. cbv beta iota. rewrite Hp. cbn. exact Hs1.
Qed.

Lemma no_exchange {A} (c : M A) (s : State) :
  sent (snd (c s)) = sent s -> exchanges c s = 0.
Proof.
  intros H. apply (exchanges_of_sent c s []). now rewrite app_nil_r.
Qed.

(** C8, as the code has it.  One invocation performs exactly one exchange
    in initialize_session, get_product_details, get_updated_cart,
    submit_shipping_info, submit_payment_info and place_order of
    FootlockerCheckout and in submit_user_info, verify_shipping_address and
    get_updated_cart_with_shipping of FootlockerOrderPlacer.
    FootlockerCheckout.add_to_cart performs the product lookup and then,
    only when a product came back, the cart request: two exchanges or one.
    FootlockerOrderPlacer.submit_payment_info and place_final_order perform
    none. *)
Theorem exchanges_per_executor
  (sku size : string) (quantity : Z) (info address : dict) (s : State) :
  exchanges FootlockerCheckout.initialize_session s = 1
  /\ exchanges (FootlockerCheckout.get_product_details sku) s = 1
  /\ exchanges FootlockerCheckout.get_updated_cart s = 1
  /\ exchanges (FootlockerCheckout.submit_shipping_info info) s = 1
  /\ exchanges (FootlockerCheckout.submit_payment_info info) s = 1
  /\ exchanges FootlockerCheckout.place_order s = 1
  /\ exchanges (FootlockerOrderPlacer.submit_user_info info) s = 1
  /\ exchanges (FootlockerOrderPlacer.verify_shipping_address address) s = 1
  /\ exchanges FootlockerOrderPlacer.get_updated_cart_with_shipping s = 1
  /\ exchanges (FootlockerCheckout.add_to_cart sku size quantity) s
     = (if truthy (match fst (FootlockerCheckout.get_product_details
                                sku (add_to_cart_start sku size quantity s)) with
                   | Ok product => product
                   | Raise _ => PNone
                   end)
        then 2 else 1)
  /\ exchanges (FootlockerOrderPlacer.submit_payment_info info) s = 0
  /\ exchanges FootlockerOrderPlacer.place_final_order s = 0.
Proof.
  split; [unfold FootlockerCheckout.initialize_session; one_exchange|].
  split; [unfold FootlockerCheckout.get_product_details; one_exchange|].
  split; [unfold FootlockerCheckout.get_updated_cart; one_exchange|].
  split; [unfold FootlockerCheckout.submit_shipping_info,
            FootlockerCheckout.post_info; one_exchange|].
  split; [unfold FootlockerCheckout.submit_payment_info,
            FootlockerCheckout.post_info; one_exchange|].
  split; [unfold FootlockerCheckout.place_order; one_exchange|].
  split; [unfold FootlockerOrderPlacer.submit_user_info; one_exchange|].
  split; [unfold FootlockerOrderPlacer.verify_shipping_address; one_exchange|].
  split; [unfold FootlockerOrderPlacer.get_updated_cart_with_shipping;
          one_exchange|].
  split; [apply add_to_cart_exchanges|].
  split; apply no_exchange.
  - now rewrite submit_payment_info_run.
  - now rewrite place_final_order_run.
Qed.

(** C8 fails: one add_to_cart makes two exchanges, one submit_payment_info
    of the order placer makes none. *)
Lemma two_exchanges_and_none :
  let s0 := initial_state PNone
              (scripted [ok_json (PDict [("name", PStr "Jordan")])]
                        (ok_json (PDict [("cartId", PStr "CART-1")]))) in
  exchanges (FootlockerCheckout.add_to_cart "H7980100" "04.5" 1) s0 = 2
  /\ exchanges (FootlockerOrderPlacer.submit_payment_info config.PAYMENT_INFO) s0
     = 0.
Proof. vm_compute. split; reflexivity. Qed.

(** * The flows, exchange by exchange *)

Lemma placer_submit_payment_info_summary payment_info s :
  summary (fun b => b) (FootlockerOrderPlacer.submit_payment_info payment_info) s.
Proof.
  exists true. eexists. exists []. rewrite submit_payment_info_run.
  split; [reflexivity|]. split; [reflexivity|].
  split; [cbn; now rewrite app_nil_r|]. intros _. constructor.
Qed.

Lemma place_final_order_summary s :
  summary truthy FootlockerOrderPlacer.place_final_order s.
Proof.
  eexists. eexists. exists []. rewrite place_final_order_run.
  split; [reflexivity|]. split; [reflexivity|].
  split; [cbn; now rewrite app_nil_r|]. intros _. constructor.
Qed.

Lemma complete_order_flow_summary user_info shipping_address payment_info s :
  summary (fun b => b)
          (FootlockerOrderPlacer.complete_order_flow
             user_info shipping_address payment_info) s.
Proof.
  unfold FootlockerOrderPlacer.complete_order_flow.
  apply summary_try; [|intros e; apply gives_up_log_false].
  apply trace_ok_after_quiet; [apply quiet_logging|]. intros _ s0 _.
  apply (trace_ok_guarded (fun b : bool => b) (fun b : bool => b));
    [apply submit_user_info_summary | apply gives_up_log_false |].
  intros _ s1 _ _.
  apply (trace_ok_guarded truthy (fun b : bool => b));
    [apply verify_shipping_address_summary | apply gives_up_log_false |].
  intros verified s2 _ _.
  apply (trace_ok_guarded (fun b : bool => b) (fun b : bool => b));
    [apply set_shipping_address_summary | apply gives_up_log_false |].
  intros _ s3 _ _.
  apply (trace_ok_guarded truthy (fun b : bool => b));
    [apply get_updated_cart_with_shipping_summary | apply gives_up_log_false |].
  intros _ s4 _ _.
  apply (trace_ok_guarded (fun b : bool => b) (fun b : bool => b));
    [apply placer_submit_payment_info_summary | apply gives_up_log_false |].
  intros _ s5 _ _.
  apply (trace_ok_guarded truthy (fun b : bool => b));
    [apply place_final_order_summary | apply gives_up_log_false |].
  intros order_result s6 _ _.
  unfold trace_ok. expose. split_cases; close_trace.
Qed.

Lemma quick_add_and_checkout_summary product_key size s :
  summary (fun b => b)
          (EnhancedFootlockerCheckout.quick_add_and_checkout product_key size) s.
Proof.
  unfold EnhancedFootlockerCheckout.quick_add_and_checkout.
  apply summary_try; [|intros e; apply gives_up_log_false].
  destruct (config.find_product config.PRODUCTS product_key) as [info|].
  - apply trace_ok_after_quiet; [apply quiet_logging|]. intros _ s0 _.
    apply (trace_ok_guarded truthy (fun b : bool => b));
      [apply enhanced_check_product_availability_summary
      | apply gives_up_log_false |].
    intros _ s1 _ _.
    apply (trace_ok_guarded truthy (fun b : bool => b));
      [apply add_to_cart_real_summary | apply gives_up_log_false |].
    intros _ s2 _ _.
    apply (trace_ok_guarded truthy (fun b : bool => b));
      [apply get_cart_status_summary | apply gives_up_log_false |].
    intros _ s3 _ _.
    apply (trace_ok_guarded (fun b : bool => b) (fun b : bool => b));
      [apply enhanced_set_shipping_address_summary | apply gives_up_log_false |].
    intros _ s4 _ _.
    unfold trace_ok. expose. close_trace.
  - unfold trace_ok. expose. close_trace.
Qed.

(** * Status 403 *)

Lemma improved_tracking_headers_returns :
  exists h, forall s, ImprovedFootlockerCheckout._get_tracking_headers s = (Ok h, s).
Proof. eexists. intros s. reflexivity. Qed.

(** a run that returned a success met no status 403 *)
Lemma summary_no_403 {A} (succ : A -> bool) (c : M A) (s : State) :
  summary succ c s ->
  exists a,
    fst (c s) = Ok a
    /\ (In (Some 403%Z) (new_statuses s (snd (c s))) -> succ a = false).
Proof.
  intros (a & s' & new & Hrun & Ht & Hs & Hok).
  rewrite Hrun. cbn [fst snd]. exists a. split; [reflexivity|].
  intros Hin. destruct (succ a) eqn:Ha; [|reflexivity].
  unfold new_statuses in Hin. rewrite (new_requests_app s s' new Hs) in Hin.
  specialize (Hok eq_refl). rewrite Forall_forall in Hok.
  destruct (Hok _ Hin); discriminate.
Qed.

(** C1, as the code has it.  A run of complete_checkout_flow, of
    complete_order_flow or of quick_add_and_checkout always returns a
    boolean, and when any exchange of the run is answered with status 403
    it returns False, the value it returns for every other failure: no
    failure kind goes with it.
    ImprovedFootlockerCheckout has a branch for 403 in two methods, and both
    still return the ordinary failure value.  check_product_availability
    logs the access-denied line and prints the cookie instructions, where
    another non-200 status only logs "Product not available: <status>"; it
    returns None in both cases.  add_to_cart_v2, once the lookup has
    returned a product, sends the cart POST; answered 403 it logs "Access
    denied - authentication required", prints the seven lines of the cookie
    prompt and waits for a line of input (the end of input is caught and
    logged), where another non-200 status logs "Failed to add to cart:
    <status>" and the response text and prints nothing; it returns False in
    both cases. *)
Theorem status_403_fails_the_run
  (sku size product_key : string)
  (shipping_info payment_info user_info shipping_address : dict) (s : State) :
  (exists b,
      fst (FootlockerCheckout.complete_checkout_flow
             sku size shipping_info payment_info s) = Ok b
      /\ (In (Some 403%Z)
             (new_statuses s
                (snd (FootlockerCheckout.complete_checkout_flow
                        sku size shipping_info payment_info s)))
          -> b = false))
  /\ (exists b,
      fst (FootlockerOrderPlacer.complete_order_flow
             user_info shipping_address payment_info s) = Ok b
      /\ (In (Some 403%Z)
             (new_statuses s
                (snd (FootlockerOrderPlacer.complete_order_flow
                        user_info shipping_address payment_info s)))
          -> b = false))
  /\ (exists b,
      fst (EnhancedFootlockerCheckout.quick_add_and_checkout
             product_key size s) = Ok b
      /\ (In (Some 403%Z)
             (new_statuses s
                (snd (EnhancedFootlockerCheckout.quick_add_and_checkout
                        product_key size s)))
          -> b = false))
  /\ (exists r,
      let run := ImprovedFootlockerCheckout.check_product_availability sku s in
      sent (snd run) = (sent s ++ [r])%list
      /\ forall resp,
           transport s (List.length (sent s)) r = Resp resp ->
           (status_code resp = 403%Z ->
            fst run = Ok PNone
            /\ logs (snd run)
               = (logs s
                  ++ [ (INFO, [Lit "Checking availability for SKU: "; Lit sku]);
                       (ERROR, [Lit "Access denied - cookies may be expired"]) ])%list
            /\ stdout (snd run)
               = (stdout s
                  ++ [ (nl ++ "🚨 AUTHENTICATION ERROR:")%string;
                       config.COOKIE_UPDATE_INSTRUCTIONS ])%list)
           /\ (status_code resp <> 200%Z -> status_code resp <> 403%Z ->
               fst run = Ok PNone
               /\ logs (snd run)
                  = (logs s
                     ++ [ (INFO, [Lit "Checking availability for SKU: "; Lit sku]);
                          (ERROR, [Lit "Product not available: ";
                                   Val (PInt (status_code resp))]) ])%list
               /\ stdout (snd run) = stdout s))
  /\ (forall quantity product s1,
        ImprovedFootlockerCheckout.check_product_availability
          sku (add_to_cart_start sku size quantity s) = (Ok product, s1) ->
        truthy product = true ->
        exists r b s',
          ImprovedFootlockerCheckout.add_to_cart_v2 sku size quantity s
          = (Ok b, s')
          /\ sent s' = (sent s1 ++ [r])%list
          /\ req_method r = POST
          /\ forall resp,
               transport s1 (List.length (sent s1)) r = Resp resp ->
               (status_code resp = 403%Z ->
                b = false
                /\ logs s'
                   = (logs s1
                      ++ (ERROR, [Lit "❌ Access denied - authentication required"])
                      :: match stdin s1 (ipos s1) with
                         | Some _ => []
                         | None =>
                             [(ERROR, [Lit "Error adding to cart: ";
                                       Lit "EOF when reading a line"])]
                         end)%list
                /\ stdout s'
                   = (stdout s1
                      ++ [ (nl ++ "🍪 COOKIE UPDATE REQUIRED")%string;
                           repeat_str "=" 50;
                           config.COOKIE_UPDATE_INSTRUCTIONS;
                           (nl ++ "After getting fresh cookies:")%string;
                           "1. Update the values in config.py";
                           "2. Restart this program";
                           (nl ++ "Press Enter to continue or Ctrl+C to exit...")%string
                         ])%list
                /\ ipos s'
                   = match stdin s1 (ipos s1) with
                     | Some _ => S (ipos s1)
                     | None => ipos s1
                     end)
               /\ (status_code resp <> 200%Z -> status_code resp <> 403%Z ->
                   b = false
                   /\ logs s'
                      = (logs s1
                         ++ (ERROR, [Lit "❌ Failed to add to cart: ";
                                     Val (PInt (status_code resp))])
                         :: if negb (String.eqb (text resp) "")
                            then [(ERROR, [Lit "Response: "; Lit (text resp)])]
                            else [])%list
                   /\ stdout s' = stdout s1 /\ ipos s' = ipos s1)).
Proof.
  split; [apply (summary_no_403 (fun b : bool => b));
          apply complete_checkout_flow_summary|].
  split; [apply (summary_no_403 (fun b : bool => b));
          apply complete_order_flow_summary|].
  split; [apply (summary_no_403 (fun b : bool => b));
          apply quick_add_and_checkout_summary|].
  split.
  - eexists. cbv zeta.
    unfold ImprovedFootlockerCheckout.check_product_availability.
    unfold ImprovedFootlockerCheckout._get_tracking_headers. expose.
    split.
    + split_cases; reflexivity.
    + intros resp Hresp. rewrite Hresp. cbn. split.
      * intros H403. rewrite H403. cbn. rewrite <- !app_assoc. repeat split.
      * intros H200 H403.
        destruct (Z.eqb_spec (status_code resp) 200); [contradiction|].
        destruct (Z.eqb_spec (status_code resp) 403); [contradiction|].
        cbn. rewrite <- !app_assoc. repeat split.
  - intros quantity product s1 Hrun Hproduct.
    unfold add_to_cart_start, logging in Hrun. cbn [snd] in Hrun.
    unfold ImprovedFootlockerCheckout.add_to_cart_v2, try_except, bind, logging.
    cbv beta iota. rewrite !Hrun. cbv beta iota. rewrite Hproduct. cbn [negb].
    unfold ImprovedFootlockerCheckout.get_fresh_cookies_interactive, input.
    destruct improved_tracking_headers_returns as [h0 Hh].
    rewrite Hh. cbv beta iota.
    generalize config.COOKIE_UPDATE_INSTRUCTIONS; intros instructions.
    match goal with
    | |- context [headers_update h0 ?u] => generalize (headers_update h0 u); intros h
    end.
    clear Hh Hrun. expose.
    match goal with
    | |- context [transport s1 _ ?q] => exists q
    end.
    destruct (transport s1 _ _) as [m|resp] eqn:Hresp; cbn.
    + do 2 eexists. split; [reflexivity|]. cbn.
      split; [reflexivity|]. split; [reflexivity|].
      intros resp' Hresp'. discriminate Hresp'.
    + destruct (Z.eqb_spec (status_code resp) 200) as [H200|H200]; cbn.
      * split_cases;
          (do 2 eexists; split; [reflexivity|]; cbn;
           split; [reflexivity|]; split; [reflexivity|];
           intros resp' Hresp'; injection Hresp' as <-;
           split; [intros H403; rewrite H200 in H403; discriminate H403
                  |intros Hn; contradiction]).
      * destruct (Z.eqb_spec (status_code resp) 403) as [H403|H403]; cbn.
        -- destruct (stdin s1 (ipos s1)) as [line|] eqn:Hin; cbn;
             (do 2 eexists; split; [reflexivity|]; cbn;
              split; [reflexivity|]; split; [reflexivity|];
              intros resp' Hresp'; injection Hresp' as <-;
              split; [intros _; rewrite <- ?app_assoc; repeat split
                     |intros _ Hn; contradiction]).
        -- unfold str_exn.
           destruct (negb (String.eqb (text resp) "")) eqn:Htext; cbn;
             (do 2 eexists; split; [reflexivity|]; cbn;
              split; [reflexivity|]; split; [reflexivity|];
              intros resp' Hresp'; injection Hresp' as <-;
              split; [intros Hy; contradiction
                     |intros _ _; rewrite ?Htext, <- ?app_assoc; repeat split]).
Qed.

(** With the cart request of a run answered 403, the run reports failure;
    and add_to_cart_v2, whose cart request is answered 403 after a
    successful lookup, returns False after printing the seven lines of the
    cookie prompt. *)
Lemma status_403_fails_the_run_witness :
  let tr := scripted [status_only 200; ok_json (PDict [("name", PStr "Jordan")])]
                     (status_only 403) in
  let tr2 := scripted [ok_json (PDict [("name", PStr "Jordan")])]
                      (status_only 403) in
  (exists b,
      fst (FootlockerCheckout.complete_checkout_flow
             "H7980100" "04.5" config.SHIPPING_INFO config.PAYMENT_INFO
             (initial_state PNone tr)) = Ok b
      /\ b = false)
  /\ (exists s',
        ImprovedFootlockerCheckout.add_to_cart_v2
          "H7980100" "04.5" 1 (initial_state PNone tr2) = (Ok false, s')
        /\ List.length (stdout s') = 7).
Proof.
  cbv zeta. split.
  - destruct (status_403_fails_the_run
                "H7980100" "04.5" "jordan_5_retro"
                config.SHIPPING_INFO config.PAYMENT_INFO
                sample_user_info sample_address
                (initial_state PNone
                   (scripted [status_only 200;
                              ok_json (PDict [("name", PStr "Jordan")])]
                             (status_only 403))))
      as [[b [Hb H403]] _].
    exists b. split; [exact Hb|]. apply H403.
    vm_compute. right. right. left. reflexivity.
  - pose (s0 := initial_state PNone
                  (scripted [ok_json (PDict [("name", PStr "Jordan")])]
                            (status_only 403))).
    pose (r1 := ImprovedFootlockerCheckout.check_product_availability
                  "H7980100" (add_to_cart_start "H7980100" "04.5" 1 s0)).
    assert (H1 : ImprovedFootlockerCheckout.check_product_availability
                   "H7980100" (add_to_cart_start "H7980100" "04.5" 1 s0)
                 = (Ok (PDict [("name", PStr "Jordan")]), snd r1))
      by (vm_compute; reflexivity).
    destruct (proj2 (proj2 (proj2 (proj2
                (status_403_fails_the_run
                   "H7980100" "04.5" "jordan_5_retro"
                   config.SHIPPING_INFO config.PAYMENT_INFO
                   sample_user_info sample_address s0))))
                1%Z (PDict [("name", PStr "Jordan")]) (snd r1) H1 eq_refl)
      as (r & b & s' & Hrun & _ & _ & Hresp).
    assert (Ht : transport (snd r1) (List.length (sent (snd r1))) r
                 = Resp (mkResponse 403 "" None))
      by (vm_compute; reflexivity).
    destruct (proj1 (Hresp _ Ht) eq_refl) as (Hb & _ & Hout & _).
    exists s'. fold s0. rewrite Hrun, Hb. split; [reflexivity|].
    rewrite Hout. vm_compute. reflexivity.
Defined.

(** C1 fails: a 403 and a 500 at the cart request of
    FootlockerCheckout end the run the same way, with False and the line
    that only repeats the status. *)
Lemma status_403_not_told_apart :
  let run code :=
    FootlockerCheckout.complete_checkout_flow
      "H7980100" "04.5" config.SHIPPING_INFO config.PAYMENT_INFO
      (initial_state PNone
         (scripted [status_only 200; ok_json (PDict [("name", PStr "Jordan")])]
                   (status_only code))) in
  fst (run 403%Z) = Ok false
  /\ fst (run 500%Z) = Ok false
  /\ last (logs (snd (run 403%Z))) (INFO, [])
     = (ERROR, [Lit "Failed to add to cart: "; Val (PInt 403)])
  /\ last (logs (snd (run 500%Z))) (INFO, [])
     = (ERROR, [Lit "Failed to add to cart: "; Val (PInt 500)])
  /\ stdout (snd (run 403%Z)) = stdout (snd (run 500%Z)).
Proof. vm_compute. repeat split. Qed.

(** * Further properties of the code *)

(** ** The sizes in stock *)

Lemma in_stock_ids_listed (sizes : list pyval) :
  Forall listed_size sizes ->
  forall s, exists ids,
    EnhancedFootlockerCheckout.in_stock_ids sizes s = (Ok ids, s)
    /\ List.length ids <= List.length sizes
    /\ forall id, In id ids <-> in_stock id sizes.
Proof.
  induction 1 as [|size rest Hsize Hrest IH]; intros s.
  - exists []. split; [reflexivity|]. split; [auto|].
    intros id. split; [intros []|]. intros (d & stock & [] & _).
  - destruct Hsize as (d & stock & -> & Hstock & Hid).
    destruct (IH s) as (ids & Hrun & Hlen & Hmem).
    cbn [EnhancedFootlockerCheckout.in_stock_ids].
    unfold bind, py_get, py_gt0, py_item, ret. rewrite Hstock.
    destruct (Z.ltb_spec 0 stock) as [Hpos|Hpos].
    + destruct (Hid Hpos) as [id0 Hid0]. rewrite Hid0, Hrun.
      exists (id0 :: ids). split; [reflexivity|]. split; [simpl; lia|].
      intros id. split.
      * intros [<-|Hin].
        -- exists d, stock. repeat split; auto. now left.
        -- apply Hmem in Hin. destruct Hin as (d' & st' & Hin & H').
           exists d', st'. split; [now right|exact H'].
      * intros (d' & st' & [Heq|Hin] & Hst' & Hpos' & Hid').
        -- injection Heq as <-. left. congruence.
        -- right. apply Hmem. exists d', st'. auto.
    + rewrite Hrun. exists ids. split; [reflexivity|]. split; [simpl; lia|].
      intros id. split.
      * intros Hin. apply Hmem in Hin. destruct Hin as (d' & st' & Hin & H').
        exists d', st'. split; [now right|exact H'].
      * intros (d' & st' & [Heq|Hin] & Hst' & Hpos' & Hid').
        -- injection Heq as <-. rewrite Hstock in Hst'.
           injection Hst' as <-. lia.
        -- apply Hmem. exists d', st'. auto.
Qed.

(** an entry in stock that has no id stops the comprehension *)
Lemma in_stock_ids_missing_id (before after : list pyval) (d : dict) (stock : Z) :
  Forall listed_size before ->
  dict_get d "stock" (PInt 0) = PInt stock ->
  (0 < stock)%Z ->
  dict_lookup d "id" = None ->
  forall s,
    EnhancedFootlockerCheckout.in_stock_ids (before ++ PDict d :: after) s
    = (Raise (KeyError "'id'"), s).
Proof.
  intros Hbefore Hstock Hpos Hid.
  induction Hbefore as [|size rest Hsize Hrest IH]; intros s.
  - cbn [app EnhancedFootlockerCheckout.in_stock_ids].
    unfold bind, py_get, py_gt0, py_item, ret, raise. rewrite Hstock.
    destruct (Z.ltb_spec 0 stock); [|lia]. now rewrite Hid.
  - destruct Hsize as (d0 & st0 & -> & Hst0 & Hid0).
    cbn [app EnhancedFootlockerCheckout.in_stock_ids].
    unfold bind, py_get, py_gt0, py_item, ret. rewrite Hst0.
    destruct (Z.ltb_spec 0 st0) as [Hp|Hp].
    + destruct (Hid0 Hp) as [id0 ->]. now rewrite IH.
    + apply IH.
Qed.

Ltac settle_sizes :=
  repeat match goal with
  | |- context [EnhancedFootlockerCheckout.in_stock_ids ?l ?st] =>
      let r := fresh "ids" in
      let H := fresh "Hids" in
      destruct (in_stock_ids_state l st) as [r H]; rewrite H; clear H; cbn
  end.

Ltac split_cases_sizes :=
  repeat (read_headers; cbn; settle_sizes;
          match goal with
          | |- context [match ?x with _ => _ end] => split_innermost x; cbn
          end);
  read_headers; cbn.

(** X1. For a 200 product payload whose sizes are well formed,
    check_product_availability returns the payload with available_sizes
    attached, and an id is in available_sizes exactly when it is the id of
    a listed size with positive stock; a payload without variantOptions or
    without sizes gets the empty list. *)
Theorem available_sizes_are_the_sizes_in_stock (sku : string) (s : State) :
  exists r,
    sent (snd (EnhancedFootlockerCheckout.check_product_availability sku s))
    = (sent s ++ [r])%list
    /\ forall resp d options sizes,
         transport s (List.length (sent s)) r = Resp resp ->
         status_code resp = 200%Z ->
         json_body resp = Some (PDict d) ->
         dict_get d "variantOptions" (PDict []) = PDict options ->
         dict_get options "size" (PList []) = PList sizes ->
         Forall listed_size sizes ->
         exists ids,
           fst (EnhancedFootlockerCheckout.check_product_availability sku s)
           = Ok (PDict (dict_set d "available_sizes" (PList ids)))
           /\ List.length ids <= List.length sizes
           /\ forall id, In id ids <-> in_stock id sizes.
Proof.
  eexists. unfold EnhancedFootlockerCheckout.check_product_availability. expose.
  split; [split_cases_sizes; reflexivity|].
  intros resp d options sizes Hresp Hst Hbody Hopt Hsizes Hlisted.
  rewrite Hresp. cbn. rewrite Hst. cbn. rewrite Hbody. cbn.
  rewrite Hopt. cbn. rewrite Hsizes. cbn.
  match goal with
  | |- context [EnhancedFootlockerCheckout.in_stock_ids sizes ?st] =>
      destruct (in_stock_ids_listed sizes Hlisted st) as (ids & Hids & Hlen & Hmem)
  end.
  rewrite Hids. cbn. exists ids. auto.
Qed.

(** For the payload in which 04.5 is sold out and 05.0 is in stock, 05.0
    is among the available sizes and 04.5 is not. *)
Lemma available_sizes_are_the_sizes_in_stock_witness :
  exists d ids,
    sold_out_payload = PDict d
    /\ fst (EnhancedFootlockerCheckout.check_product_availability
              "H7980100" (initial_state PNone (always (ok_json sold_out_payload))))
       = Ok (PDict (dict_set d "available_sizes" (PList ids)))
    /\ In (PStr "05.0") ids /\ ~ In (PStr "04.5") ids.
Proof.
  destruct (available_sizes_are_the_sizes_in_stock
              "H7980100" (initial_state PNone (always (ok_json sold_out_payload))))
    as (r & _ & H).
  assert (Hlisted : Forall listed_size
                      [ PDict [("id", PStr "04.5"); ("stock", PInt 0)];
                        PDict [("id", PStr "05.0"); ("stock", PInt 3)] ]).
  { constructor; [|constructor; [|constructor]].
    - exists [("id", PStr "04.5"); ("stock", PInt 0)], 0%Z.
      split; [reflexivity|]. split; [reflexivity|]. intros _. eexists. reflexivity.
    - exists [("id", PStr "05.0"); ("stock", PInt 3)], 3%Z.
      split; [reflexivity|]. split; [reflexivity|]. intros _. eexists. reflexivity. }
  destruct (H (mkResponse 200 "" (Some sold_out_payload)) _ _ _
              eq_refl eq_refl eq_refl eq_refl eq_refl Hlisted)
    as (ids & Hres & _ & Hmem).
  eexists. exists ids. split; [reflexivity|]. split; [exact Hres|]. split.
  - apply Hmem. exists [("id", PStr "05.0"); ("stock", PInt 3)], 3%Z.
    split; [right; left; reflexivity|]. repeat split.
  - intros Hin. apply Hmem in Hin.
    destruct Hin as (d' & st & [Heq|[Heq|[]]] & Hst & Hpos & Hid);
      injection Heq as <-.
    + injection Hst as <-. discriminate Hpos.
    + discriminate Hid.
Defined.

(** X2. When a listed size has positive stock and no id, the whole
    availability check fails: check_product_availability returns None
    although the response was a 200, and its last log line is the error
    with the missing key. *)
Theorem missing_size_id_fails_the_check (sku : string) (s : State) :
  exists r,
    sent (snd (EnhancedFootlockerCheckout.check_product_availability sku s))
    = (sent s ++ [r])%list
    /\ forall resp d options before entry stock after,
         transport s (List.length (sent s)) r = Resp resp ->
         status_code resp = 200%Z ->
         json_body resp = Some (PDict d) ->
         dict_get d "variantOptions" (PDict []) = PDict options ->
         dict_get options "size" (PList [])
         = PList (before ++ PDict entry :: after) ->
         Forall listed_size before ->
         dict_get entry "stock" (PInt 0) = PInt stock ->
         (0 < stock)%Z ->
         dict_lookup entry "id" = None ->
         fst (EnhancedFootlockerCheckout.check_product_availability sku s)
         = Ok PNone
         /\ last (logs (snd (EnhancedFootlockerCheckout.check_product_availability
                               sku s))) (INFO, [])
            = (ERROR, [Lit "Error checking product availability: "; Lit "'id'"]).
Proof.
  eexists. unfold EnhancedFootlockerCheckout.check_product_availability. expose.
  split; [split_cases_sizes; reflexivity|].
  intros resp d options before entry stock after
         Hresp Hst Hbody Hopt Hsizes Hbefore Hstock Hpos Hid.
  rewrite Hresp. cbn. rewrite Hst. cbn. rewrite Hbody. cbn.
  rewrite Hopt. cbn. rewrite Hsizes. cbn.
  rewrite (in_stock_ids_missing_id before after entry stock Hbefore Hstock Hpos Hid).
  cbn. rewrite last_last. split; reflexivity.
Qed.

(** For a payload whose second size has a stock of 2 and no id, the check
    returns None and logs the missing key. *)
Lemma missing_size_id_fails_the_check_witness :
  let run := EnhancedFootlockerCheckout.check_product_availability
               "S001AS9" (initial_state PNone (always (ok_json unnamed_size_payload))) in
  fst run = Ok PNone
  /\ last (logs (snd run)) (INFO, [])
     = (ERROR, [Lit "Error checking product availability: "; Lit "'id'"]).
Proof.
  destruct (missing_size_id_fails_the_check
              "S001AS9" (initial_state PNone (always (ok_json unnamed_size_payload))))
    as (r & _ & H).
  apply (H (mkResponse 200 "" (Some unnamed_size_payload)) _ _
           [PDict [("id", PStr "08.0"); ("stock", PInt 0)]]
           [("stock", PInt 2)] 2%Z
           [PDict [("id", PStr "10.0"); ("stock", PInt 1)]]
           eq_refl eq_refl eq_refl eq_refl eq_refl).
  - constructor; [|constructor].
    exists [("id", PStr "08.0"); ("stock", PInt 0)], 0%Z.
    split; [reflexivity|]. split; [reflexivity|]. intros _. eexists. reflexivity.
  - reflexivity.
  - reflexivity.
  - reflexivity.
Defined.

(** ** What leaves the stored identifiers alone *)

Lemma keeps_ret {A} (a : A) : keeps_ids (ret a).
Proof. intros s. split; reflexivity. Qed.

Lemma keeps_raise {A} (e : exn) : keeps_ids (@raise A e).
Proof. intros s. split; reflexivity. Qed.

Lemma keeps_bind {A B} (c : M A) (k : A -> M B) :
  keeps_ids c -> (forall a, keeps_ids (k a)) -> keeps_ids (bind c k).
Proof.
  intros Hc Hk s. unfold bind. specialize (Hc s).
  destruct (c s) as [[a|e] s1]; cbn [snd] in *; [|exact Hc].
  destruct (Hk a s1) as [H1 H2]. destruct Hc as [H3 H4]. split; congruence.
Qed.

Lemma keeps_try {A} (body : M A) (handler : exn -> M A) :
  keeps_ids body -> (forall e, keeps_ids (handler e)) ->
  keeps_ids (try_except body handler).
Proof.
  intros Hb Hh s. unfold try_except. specialize (Hb s).
  destruct (body s) as [[a|e] s1]; cbn [snd] in *; [exact Hb|].
  destruct (Hh e s1) as [H1 H2]. destruct Hb as [H3 H4]. split; congruence.
Qed.

Lemma keeps_logging l m : keeps_ids (logging l m).
Proof. intros s. split; reflexivity. Qed.

Lemma keeps_print line : keeps_ids (print line).
Proof. intros s. split; reflexivity. Qed.

Lemma keeps_input : keeps_ids input.
Proof. intros s. unfold input. destruct (stdin s (ipos s)); split; reflexivity. Qed.

Lemma keeps_session_request r : keeps_ids (session_request r).
Proof.
  intros s. unfold session_request. destruct (transport s _ r); split; reflexivity.
Qed.

Lemma keeps_session_get url h : keeps_ids (session_get url h).
Proof. apply keeps_session_request. Qed.

Lemma keeps_session_post url h payload : keeps_ids (session_post url h payload).
Proof. apply keeps_session_request. Qed.

Lemma keeps_response_json r : keeps_ids (response_json r).
Proof. intros s. unfold response_json. destruct (json_body r); split; reflexivity. Qed.

Lemma keeps_py_get v k d : keeps_ids (py_get v k d).
Proof. intros s. destruct v; split; reflexivity. Qed.

Lemma keeps_py_index0 v : keeps_ids (py_index0 v).
Proof.
  intros s. destruct v as [| | |[|c t]|[|x l]|]; split; reflexivity.
Qed.

Lemma keeps_load_cart_id : keeps_ids load_cart_id.
Proof. intros s. split; reflexivity. Qed.

Lemma keeps_load_guest_id : keeps_ids load_guest_id.
Proof. intros s. split; reflexivity. Qed.

Lemma keeps_log_response_text r : keeps_ids (log_response_text r).
Proof.
  intros s. unfold log_response_text.
  destruct (negb (text r =? "")%string); split; reflexivity.
Qed.

Lemma keeps_checkout_tracking : keeps_ids FootlockerCheckout._get_tracking_headers.
Proof. intros s. rewrite checkout_tracking_spec. split; reflexivity. Qed.

Lemma keeps_enhanced_tracking :
  keeps_ids EnhancedFootlockerCheckout._get_tracking_headers.
Proof. intros s. rewrite enhanced_tracking_spec. split; reflexivity. Qed.

Lemma keeps_placer_tracking : keeps_ids FootlockerOrderPlacer._get_tracking_headers.
Proof. intros s. rewrite placer_tracking_spec. split; reflexivity. Qed.

Lemma keeps_improved_tracking :
  keeps_ids ImprovedFootlockerCheckout._get_tracking_headers.
Proof. intros s. split; reflexivity. Qed.

Create HintDb keeps discriminated.
#[export] Hint Resolve keeps_ret keeps_raise keeps_logging keeps_print keeps_input
  keeps_session_get keeps_session_post keeps_response_json keeps_py_get
  keeps_py_index0 keeps_load_cart_id keeps_load_guest_id keeps_log_response_text
  keeps_checkout_tracking keeps_enhanced_tracking keeps_placer_tracking
  keeps_improved_tracking : keeps.

(** goes through a body statement by statement *)
Ltac keeps_walk :=
  cbv zeta;
  repeat first
    [ solve [auto with keeps]
    | apply keeps_try; [|intros ?]
    | apply keeps_bind; [|intros ?]
    | match goal with
      | |- keeps_ids (if ?b then _ else _) => destruct b
      | |- keeps_ids (match ?x with _ => _ end) => destruct x
      end ].

Section PlacerKeepsIds.
Import FootlockerOrderPlacer.

Lemma keeps_submit_user_info user_info : keeps_ids (submit_user_info user_info).
Proof. unfold submit_user_info. keeps_walk. Qed.

Lemma keeps_verify_shipping_address address :
  keeps_ids (verify_shipping_address address).
Proof. unfold verify_shipping_address. keeps_walk. Qed.

Lemma keeps_set_shipping_address verified :
  keeps_ids (set_shipping_address verified).
Proof. unfold set_shipping_address, shipping_payload. keeps_walk. Qed.

Lemma keeps_get_updated_cart_with_shipping :
  keeps_ids get_updated_cart_with_shipping.
Proof. unfold get_updated_cart_with_shipping. keeps_walk. Qed.

Lemma keeps_submit_payment_info payment_info :
  keeps_ids (submit_payment_info payment_info).
Proof. unfold submit_payment_info. keeps_walk. Qed.

Lemma keeps_place_final_order : keeps_ids place_final_order.
Proof. unfold place_final_order. keeps_walk. Qed.

End PlacerKeepsIds.

#[export] Hint Resolve keeps_submit_user_info keeps_verify_shipping_address
  keeps_set_shipping_address keeps_get_updated_cart_with_shipping
  keeps_submit_payment_info keeps_place_final_order : keeps.

(** X3. The order placer never learns a cart: none of its six steps, and
    so no run of complete_order_flow, changes cart_id or guest_id, whatever
    the responses are. *)
Theorem order_placer_keeps_the_identifiers
  (user_info shipping_address payment_info : dict) (verified : pyval) :
  keeps_ids (FootlockerOrderPlacer.submit_user_info user_info)
  /\ keeps_ids (FootlockerOrderPlacer.verify_shipping_address shipping_address)
  /\ keeps_ids (FootlockerOrderPlacer.set_shipping_address verified)
  /\ keeps_ids FootlockerOrderPlacer.get_updated_cart_with_shipping
  /\ keeps_ids (FootlockerOrderPlacer.submit_payment_info payment_info)
  /\ keeps_ids FootlockerOrderPlacer.place_final_order
  /\ keeps_ids (FootlockerOrderPlacer.complete_order_flow
                  user_info shipping_address payment_info).
Proof.
  repeat split; auto with keeps;
    unfold FootlockerOrderPlacer.complete_order_flow; keeps_walk.
Qed.

(** ** add_to_cart fails without a trace in the identifiers *)

Lemma keeps_get_product_details sku :
  keeps_ids (FootlockerCheckout.get_product_details sku).
Proof. unfold FootlockerCheckout.get_product_details. keeps_walk. Qed.

Lemma keeps_improved_check_product_availability sku :
  keeps_ids (ImprovedFootlockerCheckout.check_product_availability sku).
Proof. unfold ImprovedFootlockerCheckout.check_product_availability. keeps_walk. Qed.

Lemma improved_check_product_availability_summary sku s :
  summary truthy (ImprovedFootlockerCheckout.check_product_availability sku) s.
Proof.
  unfold summary, ImprovedFootlockerCheckout.check_product_availability. expose.
  split_cases; close_summary.
Qed.

(** [cart_added], read off one run *)
Lemma cart_added_of_run (c : M bool) (s : State) :
  (exists b s',
      c s = (Ok b, s')
      /\ guest_id s' = guest_id s
      /\ (b = false -> cart_id s' = cart_id s)
      /\ (b = true ->
          exists before r resp d,
            sent s' = (before ++ [r])%list
            /\ transport s (List.length before) r = Resp resp
            /\ status_code resp = 200%Z
            /\ json_body resp = Some (PDict d)
            /\ cart_id s' = dict_get d "cartId" PNone)) ->
  cart_added c s.
Proof.
  intros (b & s' & Hrun & Hg & Hf & Ht). unfold cart_added. rewrite Hrun.
  cbn [fst snd]. split; [exact Hg|]. split; intros Hb; injection Hb as ->; auto.
Qed.

Ltac close_cart_run Hc Hg Ht :=
  do 2 eexists; split; [reflexivity|]; cbn; rewrite ?Hc, ?Hg;
  split; [reflexivity|]; split;
  [ intros Hr; first [discriminate Hr | reflexivity]
  | intros Hr; first
      [ discriminate Hr
      | do 4 eexists; split; [reflexivity|]; rewrite <- Ht;
        match goal with
        | H : transport _ _ _ = Resp _ |- _ => rewrite H
        end;
        split; [reflexivity|]; split; [now apply Z.eqb_eq|];
        split; [eassumption|reflexivity] ] ].

(** X4. FootlockerCheckout.add_to_cart never changes guest_id; when it
    returns False cart_id is what it was before the call; when it returns
    True its last request was answered 200 with a JSON object and cart_id
    is that object's cartId (None when it has none). *)
Theorem add_to_cart_is_all_or_nothing
  (sku size : string) (quantity : Z) (s : State) :
  cart_added (FootlockerCheckout.add_to_cart sku size quantity) s.
Proof.
  apply cart_added_of_run.
  pose (s0 := add_to_cart_start sku size quantity s).
  destruct (get_product_details_summary sku s0)
    as (product & s1 & new & Hrun & Ht & Hs & _).
  destruct (keeps_get_product_details sku s0) as [Hc Hg].
  rewrite Hrun in Hc, Hg. cbn [snd] in Hc, Hg.
  unfold s0, add_to_cart_start, logging in *. cbn [snd] in *.
  unfold FootlockerCheckout.add_to_cart, try_except, bind, logging.
  cbv beta iota. rewrite !Hrun. cbv beta iota.
  cbn in Ht, Hc, Hg.
  destruct (truthy product); cbn [negb].
  - expose. split_cases; close_cart_run Hc Hg Ht.
  - do 2 eexists. split; [reflexivity|]. cbn. rewrite Hc, Hg.
    split; [reflexivity|]. split; [reflexivity|discriminate].
Qed.

(** X5. ImprovedFootlockerCheckout.add_to_cart_v2 leaves the identifiers
    in the same way: guest_id is never changed; cart_id is what it was when
    the call returns False, also after a 403 and the prompt that follows it;
    when the call returns True its last request was answered 200 with a
    JSON object and cart_id is that object's cartId. *)
Theorem add_to_cart_v2_is_all_or_nothing
  (sku size : string) (quantity : Z) (s : State) :
  cart_added (ImprovedFootlockerCheckout.add_to_cart_v2 sku size quantity) s.
Proof.
  apply cart_added_of_run.
  pose (s0 := add_to_cart_start sku size quantity s).
  destruct (improved_check_product_availability_summary sku s0)
    as (product & s1 & new & Hrun & Ht & Hs & _).
  destruct (keeps_improved_check_product_availability sku s0) as [Hc Hg].
  rewrite Hrun in Hc, Hg. cbn [snd] in Hc, Hg.
  unfold s0, add_to_cart_start, logging in *. cbn [snd] in *.
  unfold ImprovedFootlockerCheckout.add_to_cart_v2, try_except, bind, logging.
  cbv beta iota. rewrite !Hrun. cbv beta iota.
  cbn in Ht, Hc, Hg.
  destruct (truthy product); cbn [negb].
  - unfold ImprovedFootlockerCheckout.get_fresh_cookies_interactive, input.
    destruct improved_tracking_headers_returns as [h0 Hh].
    rewrite Hh. cbv beta iota.
    generalize config.COOKIE_UPDATE_INSTRUCTIONS; intros instructions.
    match goal with
    | |- context [headers_update h0 ?u] => generalize (headers_update h0 u); intros h
    end.
    clear Hh. expose. split_cases; close_cart_run Hc Hg Ht.
  - do 2 eexists. split; [reflexivity|]. cbn. rewrite Hc, Hg.
    split; [reflexivity|]. split; [reflexivity|discriminate].
Qed.

(** ** add_to_cart_real always returns an object *)

(** X6. EnhancedFootlockerCheckout.add_to_cart_real sends one request and
    always returns a dict, never None: the JSON object of a response with
    status 200 or 201, and the empty dict in every other case (another
    status, a transport fault, a body that is no JSON object).  In the
    first case cart_id becomes the object's cartId, None when it has none,
    even when the object is empty and the value returned is falsy; in the
    other cases cart_id stays.  guest_id is never changed. *)
Theorem add_to_cart_real_returns_an_object
  (sku size : string) (quantity : Z) (s : State) :
  exists r v s',
    EnhancedFootlockerCheckout.add_to_cart_real sku size quantity s = (Ok v, s')
    /\ sent s' = (sent s ++ [r])%list
    /\ guest_id s' = guest_id s
    /\ match added_object (transport s (List.length (sent s)) r) with
       | Some d => v = PDict d /\ cart_id s' = dict_get d "cartId" PNone
       | None => v = PDict [] /\ cart_id s' = cart_id s
       end.
Proof.
  assert (Hany : forall P : outcome -> pyval -> pyval -> Prop,
    (forall o d, added_object o = Some d ->
                 P o (PDict d) (dict_get d "cartId" PNone)) ->
    (forall o, added_object o = None -> P o (PDict []) (cart_id s)) ->
    exists r v s',
      EnhancedFootlockerCheckout.add_to_cart_real sku size quantity s = (Ok v, s')
      /\ sent s' = (sent s ++ [r])%list
      /\ guest_id s' = guest_id s
      /\ P (transport s (List.length (sent s)) r) v (cart_id s')).
  { intros P Hsome Hnone.
    eexists. unfold EnhancedFootlockerCheckout.add_to_cart_real. expose.
    split_cases;
      (do 2 eexists; split; [reflexivity|]; split; [reflexivity|];
       split; [reflexivity|]; cbn;
       first [apply Hsome | apply Hnone];
       unfold added_object; read_outcome;
       repeat match goal with
              | H : ?b = _ |- context [if ?b then _ else _] => rewrite H
              end;
       reflexivity). }
  apply (Hany (fun o v c =>
                 match added_object o with
                 | Some d => v = PDict d /\ c = dict_get d "cartId" PNone
                 | None => v = PDict [] /\ c = cart_id s
                 end)).
  - intros o d H. rewrite H. split; reflexivity.
  - intros o H. rewrite H. split; reflexivity.
Qed.

(** ** The guest checkout reads two responses *)

Lemma get_updated_cart_fetch s :
  exists v s1 r,
    FootlockerCheckout.get_updated_cart s = (Ok v, s1)
    /\ transport s1 = transport s
    /\ sent s1 = (sent s ++ [r])%list
    /\ cart_id s1
       = cart_id_after (cart_id s) (transport s (List.length (sent s)) r)
    /\ guest_id s1 = guest_id s
    /\ req_method r = GET /\ req_url r = updated_cart_url
    /\ v = fetched_cart (transport s (List.length (sent s)) r).
Proof.
  unfold FootlockerCheckout.get_updated_cart. expose.
  split_cases;
    (do 3 eexists; split; [reflexivity|]; split; [reflexivity|];
     split; [reflexivity|];
     split; [cbn; unfold cart_id_after; read_outcome; reflexivity|];
     split; [reflexivity|]; split; [reflexivity|]; split; [reflexivity|];
     cbn; unfold fetched_cart, is_dict; read_outcome; reflexivity).
Qed.

Ltac second_outcome Ht Hs :=
  match goal with
  | H : transport _ _ _ = _ |- _ =>
      rewrite Ht, Hs, length_app, Nat.add_1_r in H; rewrite H; clear H
  end.

(** the second half of checkout_as_guest, once the first fetch has returned
    cart data; [P] is what is to be said of the outcome of the second
    exchange, the value returned and the guest id left *)
Lemma checkout_as_guest_second (P : outcome -> bool -> pyval -> Prop)
  (s s1 : State) (cart_data : pyval) (r1 : request) :
  FootlockerCheckout.get_updated_cart
    (snd (logging INFO [Lit "Starting guest checkout process..."] s))
  = (Ok cart_data, s1) ->
  transport s1 = transport s ->
  sent s1 = (sent s ++ [r1])%list ->
  guest_id s1 = guest_id s ->
  truthy cart_data = true ->
  (forall o gid, guest_of o = Some gid -> P o true gid) ->
  (forall o, guest_of o = None -> P o false (guest_id s)) ->
  exists b s' r2,
    FootlockerCheckout.checkout_as_guest s = (Ok b, s')
    /\ cart_id s' = cart_id s1
    /\ sent s' = (sent s ++ [r1; r2])%list
    /\ req_method r2 = GET /\ req_url r2 = updated_cart_url
    /\ P (transport s (S (List.length (sent s))) r2) b (guest_id s').
Proof.
  intros Hrun Ht Hs Hg Htr Hyes Hno.
  unfold logging in Hrun. cbn [snd] in Hrun.
  unfold FootlockerCheckout.checkout_as_guest, try_except, bind, logging.
  cbv beta iota. rewrite !Hrun. cbv beta iota. rewrite Htr. cbn [negb].
  clear Hrun. expose.
  split_cases;
    (do 3 eexists; split; [reflexivity|]; cbn;
     split; [reflexivity|];
     split; [rewrite Hs, <- app_assoc; reflexivity|];
     split; [reflexivity|]; split; [reflexivity|];
     first [rewrite Hg; apply Hno | apply Hyes];
     unfold guest_of; second_outcome Ht Hs; read_outcome; reflexivity).
Qed.

(** X7. FootlockerCheckout.checkout_as_guest fetches the cart with a GET
    and replaces cart_id from the response, as get_updated_cart replaces it,
    whatever the call returns.  It makes a second GET to the same URL
    exactly when the first fetch returned cart data: a response with status
    200 and a non-empty JSON object whose totalPriceWithTax is an object or
    absent.  Without cart data it returns False after the one request and
    guest_id is what it was.  After the second request it returns True
    exactly when that was answered 200 with a JSON object whose user entry
    is an object or absent, and guest_id is then the id of that user entry
    (None when there is none); otherwise it returns False and guest_id is
    what it was. *)
Theorem checkout_as_guest_reads_two_responses (s : State) :
  exists b s' r1,
    FootlockerCheckout.checkout_as_guest s = (Ok b, s')
    /\ req_method r1 = GET /\ req_url r1 = updated_cart_url
    /\ cart_id s'
       = cart_id_after (cart_id s) (transport s (List.length (sent s)) r1)
    /\ if truthy (fetched_cart (transport s (List.length (sent s)) r1)) then
         exists r2,
           sent s' = (sent s ++ [r1; r2])%list
           /\ req_method r2 = GET /\ req_url r2 = updated_cart_url
           /\ match guest_of (transport s (S (List.length (sent s))) r2) with
              | Some gid => b = true /\ guest_id s' = gid
              | None => b = false /\ guest_id s' = guest_id s
              end
       else
         b = false /\ sent s' = (sent s ++ [r1])%list
         /\ guest_id s' = guest_id s.
Proof.
  destruct (get_updated_cart_fetch
              (snd (logging INFO [Lit "Starting guest checkout process..."] s)))
    as (cart_data & s1 & r1 & Hrun & Ht & Hs & Hc & Hg & Hm & Hu & Hv).
  cbn in Ht, Hs, Hc, Hg, Hv.
  destruct (truthy cart_data) eqn:Htr.
  - destruct (checkout_as_guest_second
                (fun o b g =>
                   match guest_of o with
                   | Some gid => b = true /\ g = gid
                   | None => b = false /\ g = guest_id s
                   end)
                s s1 cart_data r1 Hrun Ht Hs Hg Htr)
      as (b & s' & r2 & Hrun' & Hc' & Hs' & Hm2 & Hu2 & HP).
    + intros o gid H. rewrite H. split; reflexivity.
    + intros o H. rewrite H. split; reflexivity.
    + exists b, s', r1. split; [exact Hrun'|]. split; [exact Hm|].
      split; [exact Hu|]. split; [rewrite Hc'; exact Hc|].
      rewrite <- Hv, Htr. exists r2. repeat split; assumption.
  - unfold logging in Hrun. cbn [snd] in Hrun.
    unfold FootlockerCheckout.checkout_as_guest, try_except, bind, logging.
    cbv beta iota. rewrite !Hrun. cbv beta iota. rewrite Htr. cbn [negb].
    do 2 eexists; exists r1. split; [reflexivity|]. cbn.
    split; [exact Hm|]. split; [exact Hu|]. split; [exact Hc|].
    rewrite <- Hv, Htr. split; [reflexivity|]. split; [exact Hs|exact Hg].
Qed.

(** ** The verdict of the executors that only look at the status *)

Lemma verdict_of_run (c : M bool) (s : State) :
  (exists r b s',
      c s = (Ok b, s')
      /\ sent s' = (sent s ++ [r])%list
      /\ b = answered_200 (transport s (List.length (sent s)) r)) ->
  verdict_of_status c s.
Proof.
  intros (r & b & s' & Hrun & Hs & Hb). exists r. rewrite Hrun. cbn [fst snd].
  split; [exact Hs|]. now rewrite Hb.
Qed.

Ltac read_verdict :=
  apply verdict_of_run; eexists; expose;
  split_cases;
    (do 2 eexists; split; [reflexivity|]; split; [reflexivity|];
     unfold answered_200; read_outcome; reflexivity).

(** X8. The executors that send one request and return a boolean decide
    on the status alone: initialize_session, submit_shipping_info and
    submit_payment_info of FootlockerCheckout, initialize_session and
    test_connection of ImprovedFootlockerCheckout and submit_user_info of
    FootlockerOrderPlacer return True exactly when their one exchange is
    answered with status 200, whatever the body says, and False for every
    other status and for a transport fault. *)
Theorem verdict_is_the_status (info : dict) (s : State) :
  verdict_of_status FootlockerCheckout.initialize_session s
  /\ verdict_of_status (FootlockerCheckout.submit_shipping_info info) s
  /\ verdict_of_status (FootlockerCheckout.submit_payment_info info) s
  /\ verdict_of_status ImprovedFootlockerCheckout.initialize_session s
  /\ verdict_of_status ImprovedFootlockerCheckout.test_connection s
  /\ verdict_of_status (FootlockerOrderPlacer.submit_user_info info) s.
Proof.
  split; [unfold FootlockerCheckout.initialize_session; read_verdict|].
  split; [unfold FootlockerCheckout.submit_shipping_info,
            FootlockerCheckout.post_info; read_verdict|].
  split; [unfold FootlockerCheckout.submit_payment_info,
            FootlockerCheckout.post_info; read_verdict|].
  split; [unfold ImprovedFootlockerCheckout.initialize_session; read_verdict|].
  split; [unfold ImprovedFootlockerCheckout.test_connection; read_verdict|].
  unfold FootlockerOrderPlacer.submit_user_info; read_verdict.
Qed.

(** ** The fields a shipping address needs *)

(** X9. EnhancedFootlockerCheckout.set_shipping_address needs nine fields
    of shipping_info.  When one is missing it returns False without sending
    anything, and its last log line names the first missing field; when
    all are there it sends one POST and returns True exactly when that is
    answered 200.  The address of config.py has all nine. *)
Theorem shipping_address_needs_every_field (info : dict) (s : State) :
  (exists b s',
      EnhancedFootlockerCheckout.set_shipping_address info s = (Ok b, s')
      /\ match first_missing info with
         | Some k =>
             b = false /\ sent s' = sent s
             /\ last (logs s') (INFO, [])
                = (ERROR, [Lit "Error setting shipping address: ";
                           Lit ("'" ++ k ++ "'")])
         | None =>
             exists r,
               sent s' = (sent s ++ [r])%list /\ req_method r = POST
               /\ b = answered_200 (transport s (List.length (sent s)) r)
         end)
  /\ first_missing config.SHIPPING_INFO = None.
Proof.
  split; [|reflexivity].
  unfold first_missing, required_fields,
    EnhancedFootlockerCheckout.set_shipping_address.
  expose.
  split_cases;
    (do 2 eexists; split; [reflexivity|]; cbn;
     first
       [ split; [reflexivity|]; split; [reflexivity|];
         rewrite last_last; reflexivity
       | eexists; split; [reflexivity|]; split; [reflexivity|];
         unfold answered_200; read_outcome; reflexivity ]).
Qed.

(** ** A verified address that is no address *)

(** X10. FootlockerOrderPlacer.set_shipping_address sends its request only
    for a verified address it can read: an object whose region and country
    are objects when present.  For any other value (a string or a list that
    the verification service returned as first suggestion, say) it sends
    nothing and returns False, leaving an error line in the log; for a
    readable one it sends one request and returns True exactly when that
    is answered 200. *)
Theorem unreadable_address_is_not_sent (verified : pyval) (s : State) :
  exists b s',
    FootlockerOrderPlacer.set_shipping_address verified s = (Ok b, s')
    /\ if address_shaped verified then
         exists r,
           sent s' = (sent s ++ [r])%list
           /\ b = answered_200 (transport s (List.length (sent s)) r)
       else
         b = false /\ sent s' = sent s
         /\ exists m,
              last (logs s') (INFO, [])
              = (ERROR, [Lit "Error setting shipping address: "; Lit m]).
Proof.
  unfold address_shaped, is_dict, FootlockerOrderPlacer.set_shipping_address,
    FootlockerOrderPlacer.shipping_payload.
  expose.
  split_cases;
    (do 2 eexists; split; [reflexivity|]; cbn;
     first
       [ split; [reflexivity|]; split; [reflexivity|];
         eexists; rewrite last_last; reflexivity
       | eexists; split; [reflexivity|];
         unfold answered_200; read_outcome; reflexivity ]).
Qed.

(** ** Where the requests go *)

Section SendsOnly.
Variable P : request -> Prop.

Lemma sends_silent {A} (c : M A) :
  (forall s, sent (snd (c s)) = sent s) -> sends_only P c.
Proof.
  intros H s. exists []. rewrite app_nil_r. split; [apply H|constructor].
Qed.

Lemma sends_ret {A} (a : A) : sends_only P (ret a).
Proof. now apply sends_silent. Qed.

Lemma sends_raise {A} (e : exn) : sends_only P (@raise A e).
Proof. now apply sends_silent. Qed.

Lemma sends_bind {A B} (c : M A) (k : A -> M B) :
  sends_only P c -> (forall a, sends_only P (k a)) -> sends_only P (bind c k).
Proof.
  intros Hc Hk s. unfold bind. destruct (Hc s) as (n1 & H1 & F1).
  destruct (c s) as [[a|e] s1]; cbn [snd] in *; [|eauto].
  destruct (Hk a s1) as (n2 & H2 & F2).
  exists (n1 ++ n2)%list. rewrite H2, H1, app_assoc. split; [reflexivity|].
  apply Forall_app. auto.
Qed.

(** the same when something is known of what [c] returns *)
Lemma sends_bind_post {A B} (Q : A -> Prop) (c : M A) (k : A -> M B) :
  (forall s a s', c s = (Ok a, s') -> Q a) ->
  sends_only P c -> (forall a, Q a -> sends_only P (k a)) ->
  sends_only P (bind c k).
Proof.
  intros HQ Hc Hk s. unfold bind. destruct (Hc s) as (n1 & H1 & F1).
  destruct (c s) as [[a|e] s1] eqn:Hrun; cbn [snd] in *; [|eauto].
  destruct (Hk a (HQ _ _ _ Hrun) s1) as (n2 & H2 & F2).
  exists (n1 ++ n2)%list. rewrite H2, H1, app_assoc. split; [reflexivity|].
  apply Forall_app. auto.
Qed.

Lemma sends_try {A} (body : M A) (handler : exn -> M A) :
  sends_only P body -> (forall e, sends_only P (handler e)) ->
  sends_only P (try_except body handler).
Proof.
  intros Hb Hh s. unfold try_except. destruct (Hb s) as (n1 & H1 & F1).
  destruct (body s) as [[a|e] s1]; cbn [snd] in *; [eauto|].
  destruct (Hh e s1) as (n2 & H2 & F2).
  exists (n1 ++ n2)%list. rewrite H2, H1, app_assoc. split; [reflexivity|].
  apply Forall_app. auto.
Qed.

Lemma sends_request r : P r -> sends_only P (session_request r).
Proof.
  intros Hr s. exists [r]. unfold session_request.
  destruct (transport s _ r); cbn; auto.
Qed.

Lemma sends_logging l m : sends_only P (logging l m).
Proof. now apply sends_silent. Qed.

Lemma sends_print line : sends_only P (print line).
Proof. now apply sends_silent. Qed.

Lemma sends_input : sends_only P input.
Proof.
  apply sends_silent. intros s. unfold input. now destruct (stdin s (ipos s)).
Qed.

Lemma sends_response_json r : sends_only P (response_json r).
Proof.
  apply sends_silent. intros s. unfold response_json. now destruct (json_body r).
Qed.

Lemma sends_py_get v k d : sends_only P (py_get v k d).
Proof. apply sends_silent. intros s. now destruct v. Qed.

Lemma sends_py_index0 v : sends_only P (py_index0 v).
Proof.
  apply sends_silent. intros s. now destruct v as [| | |[|c t]|[|x l]|].
Qed.

Lemma sends_py_iter v : sends_only P (py_iter v).
Proof. apply sends_silent. intros s. now destruct v. Qed.

Lemma sends_py_setitem v k x : sends_only P (py_setitem v k x).
Proof. apply sends_silent. intros s. now destruct v. Qed.

Lemma sends_dict_item d k : sends_only P (dict_item d k).
Proof.
  apply sends_silent. intros s. unfold dict_item. now destruct (dict_lookup d k).
Qed.

Lemma sends_store_cart_id v : sends_only P (store_cart_id v).
Proof. now apply sends_silent. Qed.

Lemma sends_store_guest_id v : sends_only P (store_guest_id v).
Proof. now apply sends_silent. Qed.

Lemma sends_load_cart_id : sends_only P load_cart_id.
Proof. now apply sends_silent. Qed.

Lemma sends_load_guest_id : sends_only P load_guest_id.
Proof. now apply sends_silent. Qed.

Lemma sends_log_response_text r : sends_only P (log_response_text r).
Proof.
  apply sends_silent. intros s. unfold log_response_text.
  now destruct (negb (text r =? "")%string).
Qed.

Lemma sends_in_stock_ids sizes :
  sends_only P (EnhancedFootlockerCheckout.in_stock_ids sizes).
Proof.
  apply sends_silent. intros s.
  destruct (in_stock_ids_state sizes s) as [r Hr]. now rewrite Hr.
Qed.

Lemma sends_checkout_tracking :
  sends_only P FootlockerCheckout._get_tracking_headers.
Proof. apply sends_silent. intros s. now rewrite checkout_tracking_spec. Qed.

Lemma sends_enhanced_tracking :
  sends_only P EnhancedFootlockerCheckout._get_tracking_headers.
Proof. apply sends_silent. intros s. now rewrite enhanced_tracking_spec. Qed.

Lemma sends_placer_tracking :
  sends_only P FootlockerOrderPlacer._get_tracking_headers.
Proof. apply sends_silent. intros s. now rewrite placer_tracking_spec. Qed.

Lemma sends_improved_tracking :
  sends_only P ImprovedFootlockerCheckout._get_tracking_headers.
Proof. now apply sends_silent. Qed.

End SendsOnly.

Create HintDb sends discriminated.
#[export] Hint Resolve sends_ret sends_raise sends_logging sends_print sends_input
  sends_response_json sends_py_get sends_py_index0 sends_py_iter sends_py_setitem
  sends_dict_item sends_store_cart_id sends_store_guest_id sends_load_cart_id
  sends_load_guest_id sends_log_response_text sends_in_stock_ids
  sends_checkout_tracking sends_enhanced_tracking sends_placer_tracking
  sends_improved_tracking : sends.

(** goes through a body statement by statement and leaves, for every
    request the body makes, the goal that [P] holds of it *)
Ltac sends_step :=
  match goal with
  | |- sends_only _ (try_except _ _) => apply sends_try; [|intros ?]
  | |- sends_only _ (bind _ _) => apply sends_bind; [|intros ?]
  | |- sends_only _ (session_request _) => apply sends_request
  | |- sends_only _ (if ?b then _ else _) => destruct b
  | |- sends_only _ (match ?x with _ => _ end) => destruct x
  | |- sends_only _ _ => solve [auto with sends]
  end.

Ltac sends_walk :=
  cbv zeta; unfold session_get, session_post; repeat sends_step.

Ltac site_request :=
  first [ left; reflexivity | right; eexists; reflexivity ].

Ltac all_on_site := sends_walk; site_request.

(** X11. Every URL that an executor or a flow of the four classes hands to
    session.get or session.post is https://www.footlocker.com itself or a
    path under it, whatever the arguments (the SKU is only ever appended to
    a path) and whatever the responses were so far.  Where the HTTP library
    goes when such a request is answered with a redirect is not part of the
    embedding: a request here is what the code asks the session for. *)
Theorem every_request_goes_to_the_site
  (sku size product_key : string) (quantity : Z)
  (shipping_info payment_info user_info address : dict) (verified : pyval) :
  (sends_only on_site FootlockerCheckout.initialize_session
   /\ sends_only on_site (FootlockerCheckout.get_product_details sku)
   /\ sends_only on_site (FootlockerCheckout.add_to_cart sku size quantity)
   /\ sends_only on_site FootlockerCheckout.get_updated_cart
   /\ sends_only on_site FootlockerCheckout.checkout_as_guest
   /\ sends_only on_site (FootlockerCheckout.submit_shipping_info shipping_info)
   /\ sends_only on_site (FootlockerCheckout.submit_payment_info payment_info)
   /\ sends_only on_site FootlockerCheckout.place_order
   /\ sends_only on_site
        (FootlockerCheckout.complete_checkout_flow
           sku size shipping_info payment_info))
  /\ (sends_only on_site ImprovedFootlockerCheckout.initialize_session
      /\ sends_only on_site
           (ImprovedFootlockerCheckout.check_product_availability sku)
      /\ sends_only on_site ImprovedFootlockerCheckout.test_connection
      /\ sends_only on_site
           (ImprovedFootlockerCheckout.add_to_cart_v2 sku size quantity)
      /\ sends_only on_site ImprovedFootlockerCheckout.get_cart_info)
  /\ (sends_only on_site
        (EnhancedFootlockerCheckout.check_product_availability sku)
      /\ sends_only on_site
           (EnhancedFootlockerCheckout.add_to_cart_real sku size quantity)
      /\ sends_only on_site EnhancedFootlockerCheckout.get_cart_status
      /\ sends_only on_site
           (EnhancedFootlockerCheckout.set_shipping_address shipping_info)
      /\ sends_only on_site
           (EnhancedFootlockerCheckout.quick_add_and_checkout product_key size))
  /\ (sends_only on_site (FootlockerOrderPlacer.submit_user_info user_info)
      /\ sends_only on_site (FootlockerOrderPlacer.verify_shipping_address address)
      /\ sends_only on_site (FootlockerOrderPlacer.set_shipping_address verified)
      /\ sends_only on_site FootlockerOrderPlacer.get_updated_cart_with_shipping
      /\ sends_only on_site (FootlockerOrderPlacer.submit_payment_info payment_info)
      /\ sends_only on_site FootlockerOrderPlacer.place_final_order
      /\ sends_only on_site
           (FootlockerOrderPlacer.complete_order_flow
              user_info address payment_info)).
Proof.
  split; [|split; [|split]].
  - unfold FootlockerCheckout.complete_checkout_flow,
      FootlockerCheckout.checkout_as_guest, FootlockerCheckout.add_to_cart,
      FootlockerCheckout.submit_shipping_info,
      FootlockerCheckout.submit_payment_info, FootlockerCheckout.post_info,
      FootlockerCheckout.place_order, FootlockerCheckout.get_updated_cart,
      FootlockerCheckout.get_product_details,
      FootlockerCheckout.initialize_session, log_cart_line.
    repeat split; all_on_site.
  - unfold ImprovedFootlockerCheckout.add_to_cart_v2,
      ImprovedFootlockerCheckout.get_fresh_cookies_interactive,
      ImprovedFootlockerCheckout.check_product_availability,
      ImprovedFootlockerCheckout.test_connection,
      ImprovedFootlockerCheckout.get_cart_info,
      ImprovedFootlockerCheckout.initialize_session.
    repeat split; all_on_site.
  - unfold EnhancedFootlockerCheckout.quick_add_and_checkout,
      EnhancedFootlockerCheckout.set_shipping_address,
      EnhancedFootlockerCheckout.get_cart_status,
      EnhancedFootlockerCheckout.add_to_cart_real,
      EnhancedFootlockerCheckout.check_product_availability, log_cart_line.
    repeat split; all_on_site.
  - unfold FootlockerOrderPlacer.complete_order_flow,
      FootlockerOrderPlacer.place_final_order,
      FootlockerOrderPlacer.submit_payment_info,
      FootlockerOrderPlacer.get_updated_cart_with_shipping,
      FootlockerOrderPlacer.set_shipping_address,
      FootlockerOrderPlacer.shipping_payload,
      FootlockerOrderPlacer.verify_shipping_address,
      FootlockerOrderPlacer.submit_user_info.
    repeat split; all_on_site.
Qed.

(** ** Whose name is on the parcel *)

Lemma shipping_payload_contact verified s payload s' :
  FootlockerOrderPlacer.shipping_payload verified s = (Ok payload, s') ->
  names_configured_contact payload.
Proof.
  unfold FootlockerOrderPlacer.shipping_payload. expose.
  split_cases; intros H;
    first [ discriminate H
          | injection H as <- <-; eexists; repeat split; reflexivity ].
Qed.

Lemma sends_shipping_payload P verified :
  sends_only P (FootlockerOrderPlacer.shipping_payload verified).
Proof. unfold FootlockerOrderPlacer.shipping_payload. sends_walk. Qed.

Ltac contact_request :=
  intros Hurl;
  first [ exfalso; cbv in Hurl; discriminate Hurl
        | eexists; split; [reflexivity|assumption] ].

Ltac contact_walk :=
  cbv zeta; unfold session_get, session_post;
  repeat first
    [ match goal with
      | |- sends_only _ (bind (FootlockerOrderPlacer.shipping_payload _) _) =>
          apply (sends_bind_post _ names_configured_contact);
          [ intros ? ? ?; apply shipping_payload_contact
          | apply sends_shipping_payload
          | intros ? ? ]
      end
    | sends_step ].

(** X12. Whatever user_info, shipping_address and payment_info a run of
    complete_order_flow is given, every request it sends to the address
    endpoint names the contact of config.SHIPPING_INFO in its body: first
    name John, last name Doe, with the phone number and the email address of
    the configuration. *)
Theorem shipping_contact_is_the_configured_one
  (user_info shipping_address payment_info : dict) :
  sends_only configured_contact
             (FootlockerOrderPlacer.complete_order_flow
                user_info shipping_address payment_info).
Proof.
  unfold FootlockerOrderPlacer.complete_order_flow,
    FootlockerOrderPlacer.place_final_order,
    FootlockerOrderPlacer.submit_payment_info,
    FootlockerOrderPlacer.get_updated_cart_with_shipping,
    FootlockerOrderPlacer.set_shipping_address,
    FootlockerOrderPlacer.verify_shipping_address,
    FootlockerOrderPlacer.submit_user_info.
  contact_walk; contact_request.
Qed.

(** ** The card data and the network *)

Ltac next_stage :=
  match goal with
  | |- context [match ?c ?st with _ => _ end] =>
      destruct (c st) as [[?|?] ?]; [|reflexivity]
  | |- context [negb (truthy ?v)] => destruct (truthy v); [|reflexivity]
  | |- context [negb ?b] => destruct b; [|reflexivity]
  end; cbn [negb].

(** X13. The order placer keeps payment_info to itself: two runs of
    complete_order_flow that differ in payment_info alone return the same
    value and end in the same state, so nothing of the card data reaches a
    request or the log. *)
Theorem card_data_stays_out_of_the_order_flow
  (user_info shipping_address payment_info payment_info' : dict) (s : State) :
  FootlockerOrderPlacer.complete_order_flow
    user_info shipping_address payment_info s
  = FootlockerOrderPlacer.complete_order_flow
      user_info shipping_address payment_info' s.
Proof.
  unfold FootlockerOrderPlacer.complete_order_flow, try_except, bind, logging.
  cbv beta iota.
  repeat first [ rewrite !submit_payment_info_run; reflexivity | next_stage ].
Qed.

(** X14. FootlockerCheckout, by contrast, posts what it is given: the one
    request of submit_payment_info is a POST to /checkout/payment whose
    body is payment_info itself, card number and all, with no encryption
    applied on the way; submit_shipping_info does the same with
    shipping_info at /checkout/shipping. *)
Theorem payment_info_is_posted_as_given (info : dict) (s : State) :
  (exists r,
      sent (snd (FootlockerCheckout.submit_payment_info info s))
      = (sent s ++ [r])%list
      /\ req_method r = POST
      /\ req_url r = (FootlockerCheckout.api_base ++ "/checkout/payment")%string
      /\ req_json r = Some (PDict info))
  /\ (exists r,
      sent (snd (FootlockerCheckout.submit_shipping_info info s))
      = (sent s ++ [r])%list
      /\ req_method r = POST
      /\ req_url r = (FootlockerCheckout.api_base ++ "/checkout/shipping")%string
      /\ req_json r = Some (PDict info)).
Proof.
  split; eexists;
    unfold FootlockerCheckout.submit_payment_info,
      FootlockerCheckout.submit_shipping_info, FootlockerCheckout.post_info;
    expose; (split; [split_cases; reflexivity|]); repeat split.
Qed.

(** ** The order of the requests *)

Lemma route_try {A} (succ : A -> bool) full (body : M A) handler s :
  route_ok succ full body s ->
  (forall e, gives_up succ (handler e)) ->
  route succ full (try_except body handler) s.
Proof.
  intros (r & s1 & new & rest & Hrun & Hs & Hfull & Hok) Hh.
  unfold route, try_except. rewrite Hrun. destruct r as [a|e].
  - exists a, s1, new, rest. repeat split; auto. intros Ha. now apply (Hok a).
  - destruct (Hh e s1) as (b & s' & Hrun' & _ & Hs' & Hb).
    exists b, s', new, rest. rewrite Hrun'. repeat split; auto; congruence.
Qed.

Lemma route_after_quiet {A B} (succ : B -> bool) full (c : M A) (k : A -> M B) s :
  quiet c ->
  (forall a s1, c s = (Ok a, s1) -> route_ok succ full (k a) s1) ->
  route_ok succ full (bind c k) s.
Proof.
  intros Hq Hk. destruct (Hq s) as (a & s1 & Hrun & _ & Hs).
  destruct (Hk a s1 Hrun) as (b & s' & new & rest & Hrun' & Hs' & Hfull & Hok).
  exists b, s', new, rest. unfold bind. rewrite Hrun, Hrun'.
  rewrite Hs in *. auto.
Qed.

(** the fail-fast step of a flow *)
Lemma route_guarded {A B} (succ1 : A -> bool) (succ : B -> bool) full1 full2
  (c : M A) (stop : M B) (next : A -> M B) s :
  route succ1 full1 c s ->
  gives_up succ stop ->
  (forall a s1, c s = (Ok a, s1) -> route_ok succ full2 (next a) s1) ->
  route_ok succ (full1 ++ full2)
           (bind c (fun a => if negb (succ1 a) then stop else next a)) s.
Proof.
  intros (a & s1 & new & rest & Hrun & Hs & Hfull & Hok) Hstop Hnext.
  unfold route_ok, bind. rewrite Hrun. destruct (succ1 a) eqn:Ha; simpl.
  - destruct (Hnext a s1 Hrun) as (b & s' & new' & rest' & Hrun' & Hs' & Hfull' & Hok').
    rewrite (Hok eq_refl), app_nil_r in Hfull.
    exists b, s', (new ++ new')%list, rest'. rewrite Hrun'.
    split; [reflexivity|]. split; [rewrite Hs', Hs; now rewrite app_assoc|].
    split; [|exact Hok'].
    now rewrite map_app, <- app_assoc, Hfull', Hfull.
  - destruct (Hstop s1) as (b & s' & Hrun' & _ & Hs' & Hb).
    exists (Ok b), s', new, (rest ++ full2)%list. rewrite Hrun'.
    split; [reflexivity|]. split; [congruence|].
    split; [now rewrite app_assoc, Hfull|].
    intros b' Hb' Hb''. congruence.
Qed.

(** a last stage followed by nothing but logging *)
Lemma route_then_quiet {A B} (succ1 : A -> bool) (succ : B -> bool) full
  (c : M A) (k : A -> M B) s :
  route succ1 full c s ->
  (forall a s1, exists b s',
      k a s1 = (Ok b, s') /\ sent s' = sent s1
      /\ (succ b = true -> succ1 a = true)) ->
  route_ok succ full (bind c k) s.
Proof.
  intros (a & s1 & new & rest & Hrun & Hs & Hfull & Hok) Hk.
  destruct (Hk a s1) as (b & s' & Hrun' & Hs' & Hb).
  exists (Ok b), s', new, rest. unfold bind. rewrite Hrun, Hrun'.
  split; [reflexivity|]. split; [congruence|]. split; [exact Hfull|].
  intros b' Hb' Hb''. injection Hb' as <-. auto.
Qed.

Ltac close_route :=
  do 4 eexists; split; [reflexivity|]; split;
  [ cbn; rewrite <- ?app_assoc; first [reflexivity | symmetry; apply app_nil_r]
  | split; [reflexivity | cbn; intros ?; first [discriminate | reflexivity]] ].

Ltac one_stop := unfold route; expose; split_cases; close_route.

Section PlacerRoutes.
Import FootlockerOrderPlacer.

Lemma submit_user_info_route user_info s :
  route (fun b => b)
        [(POST, api_base
                ++ "/carts/co-cart-aggregation-service/site/fl/cart/userInfo")%string]
        (submit_user_info user_info) s.
Proof. unfold submit_user_info. one_stop. Qed.

Lemma verify_shipping_address_route address s :
  route truthy
        [(POST, api_base ++ "/address-verification/v0/address/verification")%string]
        (verify_shipping_address address) s.
Proof. unfold verify_shipping_address. one_stop. Qed.

Lemma set_shipping_address_route verified s :
  route (fun b => b)
        [(POST, api_base
                ++ "/carts-experience/carts-experience-service/site/fl/cart/address")%string]
        (set_shipping_address verified) s.
Proof. unfold set_shipping_address, shipping_payload. one_stop. Qed.

Lemma get_updated_cart_with_shipping_route s :
  route truthy
        [(GET, api_base
               ++ "/carts/co-cart-aggregation-service/site/fl/cart/userInfo")%string]
        get_updated_cart_with_shipping s.
Proof. unfold get_updated_cart_with_shipping. one_stop. Qed.

Lemma submit_payment_info_route payment_info s :
  route (fun b => b) [] (submit_payment_info payment_info) s.
Proof.
  unfold route. rewrite submit_payment_info_run. close_route.
Qed.

Lemma place_final_order_route s : route truthy [] place_final_order s.
Proof.
  unfold route. rewrite place_final_order_run. close_route.
Qed.

End PlacerRoutes.

(** X15. The requests of a run of complete_order_flow come in one fixed
    order: the POST of the user info, the POST to the address verification,
    the POST of the address to the cart, the GET of the user info.  Every
    run sends a beginning of this list and nothing else, and a run that
    returns True has sent all four, once each. *)
Theorem order_flow_route
  (user_info shipping_address payment_info : dict) (s : State) :
  route (fun b => b) order_route
        (FootlockerOrderPlacer.complete_order_flow
           user_info shipping_address payment_info) s.
Proof.
  unfold FootlockerOrderPlacer.complete_order_flow.
  apply route_try; [|intros e; apply gives_up_log_false].
  apply route_after_quiet; [apply quiet_logging|]. intros _ s0 _.
  apply (route_guarded (fun b : bool => b) (fun b : bool => b) [_] [_; _; _]);
    [apply submit_user_info_route | apply gives_up_log_false |].
  intros _ s1 _.
  apply (route_guarded truthy (fun b : bool => b) [_] [_; _]);
    [apply verify_shipping_address_route | apply gives_up_log_false |].
  intros verified s2 _.
  apply (route_guarded (fun b : bool => b) (fun b : bool => b) [_] [_]);
    [apply set_shipping_address_route | apply gives_up_log_false |].
  intros _ s3 _.
  apply (route_guarded truthy (fun b : bool => b) [_] []);
    [apply get_updated_cart_with_shipping_route | apply gives_up_log_false |].
  intros _ s4 _.
  apply (route_guarded (fun b : bool => b) (fun b : bool => b) [] []);
    [apply submit_payment_info_route | apply gives_up_log_false |].
  intros _ s5 _.
  apply (route_guarded truthy (fun b : bool => b) [] []);
    [apply place_final_order_route | apply gives_up_log_false |].
  intros order_result s6 _.
  unfold route_ok. expose. split_cases;
    (do 4 eexists; split; [reflexivity|]; split;
     [cbn; symmetry; apply app_nil_r|]; split; reflexivity).
Qed.

Ltac close_route_ok :=
  do 4 eexists; split; [reflexivity|]; split;
  [ cbn; rewrite <- ?app_assoc; first [reflexivity | symmetry; apply app_nil_r]
  | split; [reflexivity | cbn; intros ? Hr ?; first [discriminate | reflexivity]] ].

Section CheckoutRoutes.
Import FootlockerCheckout.

Lemma initialize_session_route s :
  route (fun b => b) [(GET, base_url)] initialize_session s.
Proof. unfold initialize_session. one_stop. Qed.

Lemma get_product_details_route sku s :
  route truthy [(GET, api_base ++ "/product-core/v1/pdp/sku/" ++ sku)%string]
        (get_product_details sku) s.
Proof. unfold get_product_details. one_stop. Qed.

Lemma get_updated_cart_route s :
  route truthy [(GET, updated_cart_url)] get_updated_cart s.
Proof. unfold get_updated_cart. one_stop. Qed.

Lemma submit_shipping_info_route info s :
  route (fun b => b) [(POST, api_base ++ "/checkout/shipping")%string]
        (submit_shipping_info info) s.
Proof. unfold submit_shipping_info, post_info. one_stop. Qed.

Lemma submit_payment_info_posts info s :
  route (fun b => b) [(POST, api_base ++ "/checkout/payment")%string]
        (submit_payment_info info) s.
Proof. unfold submit_payment_info, post_info. one_stop. Qed.

Lemma place_order_route s :
  route truthy [(POST, api_base ++ "/checkout/placeorder")%string] place_order s.
Proof. unfold place_order. one_stop. Qed.

Lemma add_to_cart_route sku size quantity s :
  route (fun b => b)
        [ (GET, api_base ++ "/product-core/v1/pdp/sku/" ++ sku);
          (POST, api_base
                 ++ "/carts-experience/carts-experience-service/site/fl/cart/add")
        ]%string
        (add_to_cart sku size quantity) s.
Proof.
  unfold add_to_cart. apply route_try; [|intros e; apply gives_up_log_false].
  apply route_after_quiet; [apply quiet_logging|]. intros _ s1 _.
  apply (route_guarded truthy (fun b : bool => b) [_] [_]);
    [apply get_product_details_route | apply gives_up_log_false |].
  intros product s2 _. unfold route_ok. expose. split_cases; close_route_ok.
Qed.

Lemma checkout_as_guest_route s :
  route (fun b => b) [(GET, updated_cart_url); (GET, updated_cart_url)]
        checkout_as_guest s.
Proof.
  unfold checkout_as_guest. apply route_try; [|intros e; apply gives_up_log_false].
  apply route_after_quiet; [apply quiet_logging|]. intros _ s1 _.
  apply (route_guarded truthy (fun b : bool => b) [_] [_]);
    [apply get_updated_cart_route | apply gives_up_log_false |].
  intros cart_data s2 _. unfold route_ok. expose. split_cases; close_route_ok.
Qed.

End CheckoutRoutes.

(** X16. The requests of a run of complete_checkout_flow come in one
    fixed order: the GET of the site, the product lookup for the SKU, the
    POST to the cart, two GETs of the updated cart, the POSTs of the
    shipping and of the payment information, the POST that places the
    order.  Every run sends a beginning of this list and nothing else; a
    run that returns True has sent all eight. *)
Theorem checkout_flow_route
  (sku size : string) (shipping_info payment_info : dict) (s : State) :
  route (fun b => b) (checkout_route sku)
        (FootlockerCheckout.complete_checkout_flow
           sku size shipping_info payment_info) s.
Proof.
  unfold FootlockerCheckout.complete_checkout_flow.
  apply route_try; [|intros e; apply gives_up_log_false].
  apply route_after_quiet; [apply quiet_logging|]. intros _ s0 _.
  apply (route_guarded (fun b : bool => b) (fun b : bool => b)
                       [_] [_; _; _; _; _; _; _]);
    [apply initialize_session_route | apply gives_up_false |].
  intros _ s1 _.
  apply (route_guarded (fun b : bool => b) (fun b : bool => b)
                       [_; _] [_; _; _; _; _]);
    [apply add_to_cart_route | apply gives_up_false |].
  intros _ s2 _.
  apply (route_guarded (fun b : bool => b) (fun b : bool => b) [_; _] [_; _; _]);
    [apply checkout_as_guest_route | apply gives_up_false |].
  intros _ s3 _.
  apply (route_guarded (fun b : bool => b) (fun b : bool => b) [_] [_; _]);
    [apply submit_shipping_info_route | apply gives_up_false |].
  intros _ s4 _.
  apply (route_guarded (fun b : bool => b) (fun b : bool => b) [_] [_]);
    [apply submit_payment_info_posts | apply gives_up_false |].
  intros _ s5 _.
  apply (route_then_quiet truthy); [apply place_order_route|].
  intros order_result s6. destruct (truthy order_result);
    do 2 eexists; (split; [reflexivity|]); split; auto; discriminate.
Qed.

Section EnhancedRoutes.
Import EnhancedFootlockerCheckout.

Lemma enhanced_check_product_availability_route sku s :
  route truthy [(GET, api_base ++ "/product-core/v1/pdp/sku/" ++ sku)%string]
        (check_product_availability sku) s.
Proof.
  unfold route, check_product_availability. expose.
  split_cases_sizes; close_route.
Qed.

Lemma add_to_cart_real_route sku size quantity s :
  route truthy [(POST, cart_add_url)] (add_to_cart_real sku size quantity) s.
Proof. unfold add_to_cart_real. one_stop. Qed.

Lemma get_cart_status_route s :
  route truthy
        [(GET, api_base
               ++ "/carts-experience/carts-experience-service/site/fl/cart/getUpdatedCart")%string]
        get_cart_status s.
Proof. unfold get_cart_status. one_stop. Qed.

Lemma enhanced_set_shipping_address_route info s :
  route (fun b => b)
        [(POST, api_base
                ++ "/carts-experience/carts-experience-service/site/fl/cart/setShippingAddress")%string]
        (set_shipping_address info) s.
Proof. unfold set_shipping_address. one_stop. Qed.

End EnhancedRoutes.

(** X17. For a product key of the catalogue the requests of a run of
    quick_add_and_checkout come in one fixed order: the product lookup for
    the product's SKU, the POST to the cart, the GET of the updated cart,
    the POST of the shipping address; every run sends a beginning of this
    list, and a run that returns True has sent all four.  For any other
    key the run returns False and sends nothing. *)
Theorem quick_checkout_route (product_key size : string) (s : State) :
  match config.find_product config.PRODUCTS product_key with
  | Some product_info =>
      route (fun b => b) (quick_route (config.sku product_info))
            (EnhancedFootlockerCheckout.quick_add_and_checkout product_key size) s
  | None =>
      route (fun b => b) []
            (EnhancedFootlockerCheckout.quick_add_and_checkout product_key size) s
      /\ fst (EnhancedFootlockerCheckout.quick_add_and_checkout product_key size s)
         = Ok false
  end.
Proof.
  unfold EnhancedFootlockerCheckout.quick_add_and_checkout.
  destruct (config.find_product config.PRODUCTS product_key) as [info|].
  - apply route_try; [|intros e; apply gives_up_log_false].
    apply route_after_quiet; [apply quiet_logging|]. intros _ s0 _.
    apply (route_guarded truthy (fun b : bool => b) [_] [_; _; _]);
      [ apply enhanced_check_product_availability_route
      | apply gives_up_log_false |].
    intros _ s1 _.
    apply (route_guarded truthy (fun b : bool => b) [_] [_; _]);
      [apply add_to_cart_real_route | apply gives_up_log_false |].
    intros _ s2 _.
    apply (route_guarded truthy (fun b : bool => b) [_] [_]);
      [apply get_cart_status_route | apply gives_up_log_false |].
    intros _ s3 _.
    apply (route_guarded (fun b : bool => b) (fun b : bool => b) [_] []);
      [apply enhanced_set_shipping_address_route | apply gives_up_log_false |].
    intros _ s4 _. unfold route_ok. expose. close_route_ok.
  - split; [|reflexivity].
    apply route_try; [|intros e; apply gives_up_log_false].
    unfold route_ok. expose. close_route_ok.
Qed.

(** ** The shape of the generated identifiers *)

Lemma draws_hex (tape : nat -> nat) (pos n : nat) :
  hex_string n (draws hexdigits tape pos n).
Proof.
  split; [apply draws_length|apply draws_in, hexdigits_nonempty].
Qed.

Lemma fixed_hex (x : string) :
  forallb (fun c => existsb (Ascii.eqb c) (list_ascii_of_string hexdigits))
          (list_ascii_of_string x) = true ->
  hex_string (String.length x) x.
Proof.
  intros H. split; [reflexivity|]. apply Forall_forall. intros c Hc.
  rewrite forallb_forall in H. specialize (H c Hc).
  apply existsb_exists in H. destruct H as (c' & Hin & Heq).
  apply Ascii.eqb_eq in Heq. now subst.
Qed.

Lemma hex_digit_in (n : nat) :
  n < 16 -> In (hex_digit n) (list_ascii_of_string hexdigits).
Proof.
  intros H. do 16 (destruct n as [|n]; [simpl; tauto|]). lia.
Qed.

Lemma hex_draws_hex (tape : nat -> nat) (n : nat) :
  forall pos, hex_string (2 * n) (hex_draws tape pos n).
Proof.
  induction n as [|n IH]; intros pos.
  - split; [reflexivity|constructor].
  - destruct (IH (S pos)) as [Hlen Hall]. split.
    + cbn [hex_draws String.length]. rewrite Hlen. lia.
    + cbn [hex_draws list_ascii_of_string].
      constructor; [|constructor; [|exact Hall]]; apply hex_digit_in.
      * apply Nat.Div0.div_lt_upper_bound.
        apply (Nat.mod_upper_bound (tape pos) 256). lia.
      * apply Nat.mod_upper_bound. lia.
Qed.

Lemma token_hex_spec (n : nat) :
  forall s, token_hex n s
            = (Ok (hex_draws (rand s) (rpos s) n), set_rpos (rpos s + n) s).
Proof.
  induction n as [|n IH]; intros s.
  - simpl. unfold ret. rewrite Nat.add_0_r. destruct s; reflexivity.
  - cbn [token_hex hex_draws]. unfold bind, token_byte. rewrite IH. unfold ret.
    cbn [rand rpos set_rpos]. f_equal. unfold set_rpos.
    cbn [cart_id guest_id transport sent logs stdout stdin ipos rand rpos
           clock cpos].
    f_equal. lia.
Qed.

Lemma length_append (x y : string) :
  String.length (x ++ y) = String.length x + String.length y.
Proof. induction x as [|c x IH]; simpl; [reflexivity|now rewrite IH]. Qed.

(** X18. The trace and request identifiers the tracking headers carry are
    well formed whatever the random source gives: in FootlockerCheckout,
    EnhancedFootlockerCheckout and FootlockerOrderPlacer the traceparent is
    00-, 32 hexadecimal digits, -, 16 hexadecimal digits, -01, and
    x-fl-request-id is written like a UUID, in groups of 8, 4, 4, 4 and 12
    digits; the fixed traceparent of ImprovedFootlockerCheckout has the
    same form. *)
Theorem tracking_identifiers_are_well_formed (s : State) :
  (exists h tp id,
      fst (FootlockerCheckout._get_tracking_headers s) = Ok h
      /\ header_lookup h "traceparent" = Some tp /\ traceparent_shaped tp
      /\ header_lookup h "x-fl-request-id" = Some id /\ uuid_shaped id)
  /\ (exists h tp id,
      fst (EnhancedFootlockerCheckout._get_tracking_headers s) = Ok h
      /\ header_lookup h "traceparent" = Some tp /\ traceparent_shaped tp
      /\ header_lookup h "x-fl-request-id" = Some id /\ uuid_shaped id)
  /\ (exists h tp id,
      fst (FootlockerOrderPlacer._get_tracking_headers s) = Ok h
      /\ header_lookup h "traceparent" = Some tp /\ traceparent_shaped tp
      /\ header_lookup h "x-fl-request-id" = Some id /\ uuid_shaped id)
  /\ (exists h tp,
      fst (ImprovedFootlockerCheckout._get_tracking_headers s) = Ok h
      /\ header_lookup h "traceparent" = Some tp /\ traceparent_shaped tp).
Proof.
  split; [|split; [|split]].
  - rewrite checkout_tracking_spec. do 3 eexists. split; [reflexivity|].
    split; [reflexivity|]. split.
    + do 2 eexists. split; [reflexivity|]. split; apply draws_hex.
    + split; [reflexivity|]. do 2 eexists; exists "11f0"%string; do 2 eexists.
      split; [reflexivity|].
      repeat split; try apply draws_hex; try apply (fixed_hex "11f0"); reflexivity.
  - rewrite enhanced_tracking_spec. do 3 eexists. split; [reflexivity|].
    split; [reflexivity|]. split.
    + do 2 eexists. split; [reflexivity|]. split; apply draws_hex.
    + split; [reflexivity|].
      eexists; exists "56d8"%string, "11f0"%string, "af56"%string; eexists.
      split; [reflexivity|].
      repeat split; try apply draws_hex;
        first [apply (fixed_hex "56d8") | apply (fixed_hex "11f0")
              | apply (fixed_hex "af56")]; reflexivity.
  - rewrite placer_tracking_spec. do 3 eexists. split; [reflexivity|].
    split; [reflexivity|]. split.
    + do 2 eexists. split; [reflexivity|]. split; apply draws_hex.
    + split; [reflexivity|]. do 2 eexists; exists "11f0"%string; do 2 eexists.
      split; [reflexivity|].
      repeat split; try apply draws_hex; try apply (fixed_hex "11f0"); reflexivity.
  - do 2 eexists. split; [reflexivity|]. split; [reflexivity|].
    exists "aa36ef94772156c118a3e81eed5f9c95"%string, "2eec2cd4a5037165"%string.
    split; [reflexivity|].
    split; [apply (fixed_hex "aa36ef94772156c118a3e81eed5f9c95")
           |apply (fixed_hex "2eec2cd4a5037165")]; reflexivity.
Qed.

(** X19. The mock device fingerprint is fe80 followed by five groups of
    8, 4, 4, 4 and 12 hexadecimal digits, 40 characters in all, made from
    16 bytes of the random source and from nothing else;
    generate_device_fingerprint returns it when use_mock is set, and
    otherwise returns a fixed word without reading the random source. *)
Theorem mock_device_id_shape (s : State) :
  (exists id,
      generate_device_fingerprint true s = (Ok id, set_rpos (rpos s + 16) s)
      /\ String.length id = 40
      /\ exists tail, id = ("fe80" ++ tail)%string /\ uuid_shaped tail)
  /\ fst (generate_device_fingerprint false s)
     = Ok "REAL_DEVICE_FINGERPRINT_NEEDED"%string
  /\ rpos (snd (generate_device_fingerprint false s)) = rpos s.
Proof.
  split; [|split; reflexivity].
  unfold generate_device_fingerprint, MockAdyenEncryption.generate_mock_device_id,
    bind, ret.
  repeat (rewrite token_hex_spec; cbn [fst snd rand rpos set_rpos]).
  eexists. split; [f_equal; unfold set_rpos; cbn; f_equal; lia|].
  pose proof (hex_draws_hex (rand s) 4 (rpos s)) as Ha.
  pose proof (hex_draws_hex (rand s) 2 (rpos s + 4)) as Hb.
  pose proof (hex_draws_hex (rand s) 2 (rpos s + 4 + 2)) as Hc.
  pose proof (hex_draws_hex (rand s) 2 (rpos s + 4 + 2 + 2)) as Hd.
  pose proof (hex_draws_hex (rand s) 6 (rpos s + 4 + 2 + 2 + 2)) as He.
  cbn [Nat.mul Nat.add] in Ha, Hb, Hc, Hd, He.
  split.
  - rewrite !length_append.
    destruct Ha as [-> _], Hb as [-> _], Hc as [-> _], Hd as [-> _], He as [-> _].
    reflexivity.
  - eexists. split; [reflexivity|]. do 5 eexists. split; [reflexivity|]. auto.
Qed.

(** ** Where the identifiers can change *)

Lemma keeps_py_iter v : keeps_ids (py_iter v).
Proof. intros s. destruct v; split; reflexivity. Qed.

Lemma keeps_py_setitem v k x : keeps_ids (py_setitem v k x).
Proof. intros s. destruct v; split; reflexivity. Qed.

Lemma keeps_dict_item d k : keeps_ids (dict_item d k).
Proof.
  intros s. unfold dict_item. destruct (dict_lookup d k); split; reflexivity.
Qed.

Lemma keeps_in_stock_ids sizes :
  keeps_ids (EnhancedFootlockerCheckout.in_stock_ids sizes).
Proof.
  intros s. destruct (in_stock_ids_state sizes s) as [r Hr]. rewrite Hr.
  split; reflexivity.
Qed.

#[export] Hint Resolve keeps_py_iter keeps_py_setitem keeps_dict_item
  keeps_in_stock_ids : keeps.

(** X20. Outside the cart calls nothing touches the stored identifiers:
    the session, lookup, shipping, payment and order executors of
    FootlockerCheckout, every method of ImprovedFootlockerCheckout but
    add_to_cart_v2, and check_product_availability and set_shipping_address
    of EnhancedFootlockerCheckout leave cart_id and guest_id as they were,
    whatever the responses are. *)
Theorem identifiers_change_only_in_cart_calls (sku : string) (info : dict) :
  (keeps_ids FootlockerCheckout.initialize_session
   /\ keeps_ids (FootlockerCheckout.get_product_details sku)
   /\ keeps_ids (FootlockerCheckout.submit_shipping_info info)
   /\ keeps_ids (FootlockerCheckout.submit_payment_info info)
   /\ keeps_ids FootlockerCheckout.place_order)
  /\ (keeps_ids ImprovedFootlockerCheckout.initialize_session
      /\ keeps_ids (ImprovedFootlockerCheckout.check_product_availability sku)
      /\ keeps_ids ImprovedFootlockerCheckout.get_fresh_cookies_interactive
      /\ keeps_ids ImprovedFootlockerCheckout.test_connection
      /\ keeps_ids ImprovedFootlockerCheckout.get_cart_info)
  /\ (keeps_ids (EnhancedFootlockerCheckout.check_product_availability sku)
      /\ keeps_ids (EnhancedFootlockerCheckout.set_shipping_address info)).
Proof.
  unfold FootlockerCheckout.initialize_session,
    FootlockerCheckout.get_product_details,
    FootlockerCheckout.submit_shipping_info,
    FootlockerCheckout.submit_payment_info, FootlockerCheckout.post_info,
    FootlockerCheckout.place_order,
    ImprovedFootlockerCheckout.initialize_session,
    ImprovedFootlockerCheckout.check_product_availability,
    ImprovedFootlockerCheckout.get_fresh_cookies_interactive,
    ImprovedFootlockerCheckout.test_connection,
    ImprovedFootlockerCheckout.get_cart_info,
    EnhancedFootlockerCheckout.check_product_availability,
    EnhancedFootlockerCheckout.set_shipping_address.
  repeat split; keeps_walk.
Qed.

(** ** A failure leaves an error line *)

Ltac loud_leaf :=
  do 2 eexists; split; [reflexivity|]; intros Hb;
  first [ discriminate Hb | eexists; cbn; apply last_last ].

Ltac loud_executor := unfold says_why, ends_on_error; expose; split_cases; loud_leaf.

(** a stage whose failure the caller reports itself *)
Ltac any_stage :=
  match goal with
  | |- context [match ?c ?st with _ => _ end] =>
      destruct (c st) as [[?|?] ?]; cbv beta iota; [|loud_leaf]
  end;
  match goal with
  | |- context [negb (truthy ?v)] => destruct (truthy v)
  | |- context [negb ?b] => destruct b
  end; cbn [negb]; [|loud_leaf].

(** a stage the caller takes the word of *)
Ltac loud_stage lem :=
  match goal with
  | |- context [match ?c ?st with _ => _ end] =>
      let b := fresh "b" in
      let Hrun := fresh "Hrun" in
      let Hwhy := fresh "Hwhy" in
      destruct (lem st) as (b & ? & Hrun & Hwhy); rewrite Hrun; clear Hrun;
      cbv beta iota; destruct b; cbn [negb];
      [ clear Hwhy
      | do 2 eexists; split; [reflexivity|]; intros _; apply Hwhy; reflexivity ]
  end.

Section CheckoutSaysWhy.
Import FootlockerCheckout.

Lemma initialize_session_says_why s : says_why initialize_session s.
Proof. unfold initialize_session. loud_executor. Qed.

Lemma post_info_says_why what url info l1 l2 l3 s :
  says_why (post_info what url info l1 l2 l3) s.
Proof. unfold post_info. loud_executor. Qed.

Lemma add_to_cart_says_why sku size quantity s :
  says_why (add_to_cart sku size quantity) s.
Proof.
  unfold says_why, ends_on_error, add_to_cart, try_except, bind, logging.
  cbv beta iota. any_stage. expose. split_cases; loud_leaf.
Qed.

Lemma checkout_as_guest_says_why s : says_why checkout_as_guest s.
Proof.
  unfold says_why, ends_on_error, checkout_as_guest, try_except, bind, logging.
  cbv beta iota. any_stage. expose. split_cases; loud_leaf.
Qed.

Lemma complete_checkout_flow_says_why sku size shipping_info payment_info s :
  says_why (complete_checkout_flow sku size shipping_info payment_info) s.
Proof.
  unfold says_why, complete_checkout_flow, try_except, bind, logging.
  cbv beta iota.
  loud_stage initialize_session_says_why.
  loud_stage (add_to_cart_says_why sku size 1%Z).
  loud_stage checkout_as_guest_says_why.
  unfold submit_shipping_info, submit_payment_info.
  loud_stage (post_info_says_why "Submitting shipping information..."
                (api_base ++ "/checkout/shipping") shipping_info
                "Successfully submitted shipping information"
                "Failed to submit shipping info: "
                "Error submitting shipping info: ").
  loud_stage (post_info_says_why "Submitting payment information..."
                (api_base ++ "/checkout/payment") payment_info
                "Successfully submitted payment information"
                "Failed to submit payment info: "
                "Error submitting payment info: ").
  unfold ends_on_error.
  match goal with
  | |- context [match ?c ?st with _ => _ end] =>
      destruct (c st) as [[order_result|?] ?]; cbv beta iota; [|loud_leaf]
  end.
  destruct (truthy order_result); loud_leaf.
Qed.

End CheckoutSaysWhy.

(** X21. A boolean failure is never silent in these methods: when
    initialize_session, add_to_cart, checkout_as_guest, submit_shipping_info,
    submit_payment_info or complete_checkout_flow of FootlockerCheckout,
    initialize_session or test_connection of ImprovedFootlockerCheckout,
    set_shipping_address or quick_add_and_checkout of
    EnhancedFootlockerCheckout, or submit_user_info, set_shipping_address
    or complete_order_flow of FootlockerOrderPlacer returns False, the last
    line of the log is an error line. *)
Theorem a_failure_leaves_an_error_line
  (sku size product_key : string) (quantity : Z)
  (shipping_info payment_info user_info address : dict)
  (verified : pyval) (s : State) :
  (says_why FootlockerCheckout.initialize_session s
   /\ says_why (FootlockerCheckout.add_to_cart sku size quantity) s
   /\ says_why FootlockerCheckout.checkout_as_guest s
   /\ says_why (FootlockerCheckout.submit_shipping_info shipping_info) s
   /\ says_why (FootlockerCheckout.submit_payment_info payment_info) s
   /\ says_why (FootlockerCheckout.complete_checkout_flow
                  sku size shipping_info payment_info) s)
  /\ (says_why ImprovedFootlockerCheckout.initialize_session s
      /\ says_why ImprovedFootlockerCheckout.test_connection s)
  /\ (says_why (EnhancedFootlockerCheckout.set_shipping_address shipping_info) s
      /\ says_why (EnhancedFootlockerCheckout.quick_add_and_checkout
                     product_key size) s)
  /\ (says_why (FootlockerOrderPlacer.submit_user_info user_info) s
      /\ says_why (FootlockerOrderPlacer.set_shipping_address verified) s
      /\ says_why (FootlockerOrderPlacer.complete_order_flow
                     user_info address payment_info) s).
Proof.
  split; [|split; [|split]].
  - split; [apply initialize_session_says_why|].
    split; [apply add_to_cart_says_why|].
    split; [apply checkout_as_guest_says_why|].
    split; [apply post_info_says_why|].
    split; [apply post_info_says_why|].
    apply complete_checkout_flow_says_why.
  - split; [unfold ImprovedFootlockerCheckout.initialize_session; loud_executor|].
    unfold ImprovedFootlockerCheckout.test_connection; loud_executor.
  - split; [unfold EnhancedFootlockerCheckout.set_shipping_address;
            loud_executor|].
    unfold says_why, ends_on_error,
      EnhancedFootlockerCheckout.quick_add_and_checkout, try_except.
    destruct (config.find_product config.PRODUCTS product_key) as [product_info|];
      [|expose; loud_leaf].
    unfold bind, logging. cbv beta iota.
    do 4 any_stage. loud_leaf.
  - split; [unfold FootlockerOrderPlacer.submit_user_info; loud_executor|].
    split; [unfold FootlockerOrderPlacer.set_shipping_address,
              FootlockerOrderPlacer.shipping_payload; loud_executor|].
    unfold says_why, ends_on_error, FootlockerOrderPlacer.complete_order_flow,
      try_except, bind, logging.
    cbv beta iota. do 6 any_stage.
    match goal with
    | |- context [py_get ?v ?k ?d ?st] => destruct (py_get v k d st) as [[?|?] ?]
    end; loud_leaf.
Qed.

Lemma improved_check_empty_object sku s :
  exists r,
    req_method r = GET
    /\ req_url r
       = (ImprovedFootlockerCheckout.api_base ++ "/product-core/v1/pdp/sku/" ++ sku)%string
    /\ forall resp,
         transport s (List.length (sent s)) r = Resp resp ->
         status_code resp = 200%Z ->
         json_body resp = Some (PDict []) ->
         ImprovedFootlockerCheckout.check_product_availability sku s
         = (Ok (PDict []),
            set_logs
              (logs s
               ++ [ (INFO, [Lit "Checking availability for SKU: "; Lit sku]);
                    (INFO, [Lit "Product found: "; Val (PStr "Unknown")]) ])
              (set_sent (sent s ++ [r]) s)).
Proof.
  eexists. split; [|split]; [| |intros resp Hresp Hst Hbody].
  3: { unfold ImprovedFootlockerCheckout.check_product_availability. expose.
       rewrite Hresp. cbn. rewrite Hst. cbn. rewrite Hbody. cbn.
       rewrite <- app_assoc. reflexivity. }
  all: reflexivity.
Qed.

(** X22. add_to_cart_v2 is the exception: when the product lookup is
    answered 200 with an empty JSON object, it returns False after that
    one request without logging an error; the last line of the log is the
    INFO line that reports the product as found. *)
Theorem add_to_cart_v2_can_fail_silently
  (sku size : string) (quantity : Z) (s : State) :
  exists r,
    req_method r = GET
    /\ req_url r
       = (ImprovedFootlockerCheckout.api_base ++ "/product-core/v1/pdp/sku/" ++ sku)%string
    /\ forall resp,
         transport s (List.length (sent s)) r = Resp resp ->
         status_code resp = 200%Z ->
         json_body resp = Some (PDict []) ->
         let run := ImprovedFootlockerCheckout.add_to_cart_v2 sku size quantity s in
         fst run = Ok false
         /\ sent (snd run) = (sent s ++ [r])%list
         /\ last (logs (snd run)) (INFO, [])
            = (INFO, [Lit "Product found: "; Val (PStr "Unknown")]).
Proof.
  destruct (improved_check_empty_object sku (add_to_cart_start sku size quantity s))
    as (r & Hm & Hu & Hrun).
  exists r. split; [exact Hm|]. split; [exact Hu|].
  intros resp Hresp Hst Hbody.
  specialize (Hrun resp Hresp Hst Hbody).
  unfold add_to_cart_start, logging in Hrun. cbn [snd] in Hrun.
  unfold ImprovedFootlockerCheckout.add_to_cart_v2, try_except, bind, logging.
  cbv beta iota. rewrite Hrun. cbn.
  split; [reflexivity|]. split; [reflexivity|].
  match goal with
  | |- last (?l ++ [?a; ?b]) _ = _ =>
      change (l ++ [a; b])%list with (l ++ [a] ++ [b])%list
  end.
  rewrite app_assoc. apply last_last.
Qed.

(** With every exchange answered 200 and an empty object, add_to_cart_v2
    returns False and the log ends on the INFO line of the lookup. *)
Lemma add_to_cart_v2_can_fail_silently_witness :
  let run := ImprovedFootlockerCheckout.add_to_cart_v2
               "H7980100" "04.5" 1
               (initial_state PNone (always (ok_json (PDict [])))) in
  fst run = Ok false
  /\ List.length (sent (snd run)) = 1
  /\ last (logs (snd run)) (INFO, [])
     = (INFO, [Lit "Product found: "; Val (PStr "Unknown")]).
Proof.
  destruct (add_to_cart_v2_can_fail_silently
              "H7980100" "04.5" 1
              (initial_state PNone (always (ok_json (PDict [])))))
    as (r & _ & _ & H).
  destruct (H (mkResponse 200 "" (Some (PDict []))) eq_refl eq_refl eq_refl)
    as (Hres & Hsent & Hlog).
  split; [exact Hres|]. split; [|exact Hlog].
  cbv zeta. rewrite Hsent. reflexivity.
Defined.

(** ** What the order is placed for *)

Section OrderedCart.
Import FootlockerCheckout.

Lemma get_updated_cart_detail s :
  exists v s1 r,
    get_updated_cart s = (Ok v, s1)
    /\ transport s1 = transport s
    /\ sent s1 = (sent s ++ [r])%list
    /\ guest_id s1 = guest_id s
    /\ (truthy v = true ->
        exists resp d,
          transport s (List.length (sent s)) r = Resp resp
          /\ json_body resp = Some (PDict d)
          /\ cart_id s1 = dict_get d "cartId" PNone).
Proof.
  unfold get_updated_cart. expose.
  split_cases;
    (do 3 eexists; split; [reflexivity|]; split; [reflexivity|];
     split; [reflexivity|]; split; [reflexivity|]; cbn; intros Hv;
     first [ discriminate Hv
           | do 2 eexists; split; [eassumption|]; split; [eassumption|reflexivity] ]).
Qed.

Lemma checkout_as_guest_detail s :
  exists b s',
    checkout_as_guest s = (Ok b, s')
    /\ transport s' = transport s
    /\ (b = true ->
        exists r4 r5 resp4 d4 resp5 d5 u5,
          sent s' = (sent s ++ [r4; r5])%list
          /\ transport s (List.length (sent s)) r4 = Resp resp4
          /\ json_body resp4 = Some (PDict d4)
          /\ cart_id s' = dict_get d4 "cartId" PNone
          /\ transport s (S (List.length (sent s))) r5 = Resp resp5
          /\ json_body resp5 = Some (PDict d5)
          /\ dict_get d5 "user" (PDict []) = PDict u5
          /\ guest_id s' = dict_get u5 "id" PNone).
Proof.
  pose (s0 := snd (logging INFO [Lit "Starting guest checkout process..."] s)).
  destruct (get_updated_cart_detail s0)
    as (cart_data & s1 & r4 & Hrun & Ht & Hs & Hg & Hcart).
  unfold s0, logging in *. cbn [snd] in *.
  unfold checkout_as_guest, try_except, bind, logging.
  cbv beta iota. rewrite !Hrun. cbv beta iota.
  cbn in Ht, Hs, Hg, Hcart. clear Hrun.
  destruct (truthy cart_data); cbn [negb].
  - destruct (Hcart eq_refl) as (resp4 & d4 & Hr4 & Hb4 & Hc4). clear Hcart.
    expose. split_cases;
      (do 2 eexists; split; [reflexivity|]; split; [exact Ht|]; intros Hb;
       first
         [ discriminate Hb
         | exists r4; eexists; exists resp4, d4; do 3 eexists; cbn;
           split; [rewrite Hs, <- app_assoc; reflexivity|];
           split; [exact Hr4|]; split; [exact Hb4|]; split; [exact Hc4|];
           split; [ match goal with
                    | H : transport s1 _ _ = Resp _ |- _ =>
                        rewrite Ht, Hs, length_app, Nat.add_1_r in H; exact H
                    end |];
           split; [eassumption|]; split; [eassumption|reflexivity] ]).
  - do 2 eexists. split; [reflexivity|]. split; [exact Ht|]. discriminate.
Qed.

Lemma place_order_sends s :
  exists v s' r,
    place_order s = (Ok v, s')
    /\ sent s' = (sent s ++ [r])%list
    /\ req_method r = POST
    /\ req_url r = (api_base ++ "/checkout/placeorder")%string
    /\ req_json r = Some (PDict [("cartId", cart_id s); ("guestId", guest_id s)]).
Proof.
  unfold place_order. expose.
  split_cases;
    (do 3 eexists; split; [reflexivity|]; split; [reflexivity|]; repeat split).
Qed.

(** a boolean executor that succeeded made as many requests as its route
    is long *)
Lemma route_count (full : list endpoint) (c : M bool) (s : State) :
  route (fun b => b) full c s ->
  summary (fun b => b) c s ->
  exists b s' new,
    c s = (Ok b, s')
    /\ transport s' = transport s
    /\ sent s' = (sent s ++ new)%list
    /\ (b = true -> List.length new = List.length full).
Proof.
  intros (b & s' & new & rest & Hrun & Hs & Hfull & Hok)
         (b' & s'' & new' & Hrun' & Ht & _).
  rewrite Hrun in Hrun'. injection Hrun' as <- <-.
  exists b, s', new. repeat split; auto.
  intros Hb. rewrite (Hok Hb), app_nil_r in Hfull.
  now rewrite <- Hfull, length_map.
Qed.

End OrderedCart.

Lemma keeps_post_info what url info l1 l2 l3 :
  keeps_ids (FootlockerCheckout.post_info what url info l1 l2 l3).
Proof. unfold FootlockerCheckout.post_info. keeps_walk. Qed.

(** a stage of the checkout flow that only counts: run it, stop when it
    failed, keep the number of its requests when it succeeded *)
Ltac counted_stage Hroute Hsummary Ht Hs Hn :=
  match goal with
  | |- context [match ?c ?st with _ => _ end] =>
      let b := fresh "b" in
      let Hrun := fresh "Hrun" in
      destruct (route_count _ c st (Hroute st) (Hsummary st))
        as (b & ? & ? & Hrun & Ht & Hs & Hn);
      rewrite Hrun; clear Hrun; cbv beta iota;
      destruct b; cbn [negb];
      [ specialize (Hn eq_refl)
      | do 2 eexists; split; [reflexivity|discriminate] ]
  end.

(** the same for a stage that leaves the identifiers alone *)
Ltac kept_stage Hroute Hsummary Hkeeps Ht Hs Hn Hc Hg :=
  match goal with
  | |- context [match ?c ?st with _ => _ end] =>
      let b := fresh "b" in
      let Hrun := fresh "Hrun" in
      destruct (route_count _ c st (Hroute st) (Hsummary st))
        as (b & ? & ? & Hrun & Ht & Hs & Hn);
      pose proof (Hkeeps st
                  : cart_id (snd (c st)) = cart_id st
                    /\ guest_id (snd (c st)) = guest_id st) as [Hc Hg];
      rewrite Hrun in Hc, Hg; cbn [snd] in Hc, Hg;
      rewrite Hrun; clear Hrun; cbv beta iota;
      destruct b; cbn [negb];
      [ specialize (Hn eq_refl)
      | do 2 eexists; split; [reflexivity|discriminate] ]
  end.

(** X23. A run of complete_checkout_flow that returns True has placed the
    order for what the server said during the guest checkout: the last of
    its eight requests is the POST to /checkout/placeorder, and its body
    holds as cartId the cartId of the JSON object that answered the fourth
    request (the first fetch of the updated cart, not the answer to the
    cart addition) and as guestId the user id of the object that answered
    the fifth. *)
Theorem order_is_placed_for_the_fetched_cart
  (sku size : string) (shipping_info payment_info : dict) (s : State) :
  exists b s',
    FootlockerCheckout.complete_checkout_flow
      sku size shipping_info payment_info s = (Ok b, s')
    /\ (b = true ->
        exists before r4 r5 between r8 resp4 d4 resp5 d5 u5,
          sent s' = (sent s ++ before ++ [r4; r5] ++ between ++ [r8])%list
          /\ List.length before = 3 /\ List.length between = 2
          /\ transport s (List.length (sent s) + 3) r4 = Resp resp4
          /\ json_body resp4 = Some (PDict d4)
          /\ transport s (List.length (sent s) + 4) r5 = Resp resp5
          /\ json_body resp5 = Some (PDict d5)
          /\ dict_get d5 "user" (PDict []) = PDict u5
          /\ req_url r8
             = (FootlockerCheckout.api_base ++ "/checkout/placeorder")%string
          /\ req_json r8
             = Some (PDict [ ("cartId", dict_get d4 "cartId" PNone);
                             ("guestId", dict_get u5 "id" PNone) ])).
Proof.
  unfold FootlockerCheckout.complete_checkout_flow, try_except, bind, logging.
  cbv beta iota.
  counted_stage initialize_session_route initialize_session_summary Ht1 Hs1 Hn1.
  counted_stage (add_to_cart_route sku size 1%Z) (add_to_cart_summary sku size 1%Z)
                Ht2 Hs2 Hn2.
  match goal with
  | |- context [FootlockerCheckout.checkout_as_guest ?st] =>
      destruct (checkout_as_guest_detail st) as (b3 & s3 & Hrun3 & Ht3 & Hok3)
  end.
  rewrite Hrun3. clear Hrun3. cbv beta iota.
  destruct b3; cbn [negb]; [|do 2 eexists; split; [reflexivity|discriminate]].
  destruct (Hok3 eq_refl)
    as (r4 & r5 & resp4 & d4 & resp5 & d5 & u5
        & Hs3 & Hr4 & Hb4 & Hc3 & Hr5 & Hb5 & Hu5 & Hg3).
  clear Hok3.
  unfold FootlockerCheckout.submit_shipping_info,
    FootlockerCheckout.submit_payment_info.
  kept_stage (submit_shipping_info_route shipping_info)
             (post_info_summary "Submitting shipping information..."
                (FootlockerCheckout.api_base ++ "/checkout/shipping")
                shipping_info
                "Successfully submitted shipping information"
                "Failed to submit shipping info: "
                "Error submitting shipping info: ")
             (keeps_post_info "Submitting shipping information..."
                (FootlockerCheckout.api_base ++ "/checkout/shipping")
                shipping_info
                "Successfully submitted shipping information"
                "Failed to submit shipping info: "
                "Error submitting shipping info: ")
             Ht4 Hs4 Hn4 Hc4 Hg4.
  kept_stage (submit_payment_info_posts payment_info)
             (post_info_summary "Submitting payment information..."
                (FootlockerCheckout.api_base ++ "/checkout/payment")
                payment_info
                "Successfully submitted payment information"
                "Failed to submit payment info: "
                "Error submitting payment info: ")
             (keeps_post_info "Submitting payment information..."
                (FootlockerCheckout.api_base ++ "/checkout/payment")
                payment_info
                "Successfully submitted payment information"
                "Failed to submit payment info: "
                "Error submitting payment info: ")
             Ht5 Hs5 Hn5 Hc5 Hg5.
  match goal with
  | |- context [FootlockerCheckout.place_order ?st] =>
      destruct (place_order_sends st) as (v & s6 & r8 & Hrun6 & Hs6 & _ & Hu8 & Hj8)
  end.
  rewrite Hrun6. clear Hrun6. cbv beta iota.
  destruct (truthy v); [|do 2 eexists; split; [reflexivity|discriminate]].
  do 2 eexists. split; [reflexivity|]. intros _.
  match goal with
  | Ha : sent ?a = (_ ++ ?n1)%list, Hb : sent ?b = (sent ?a ++ ?n2)%list,
    Hc : sent ?c = (sent ?b ++ [r4; r5])%list,
    Hd : sent ?d = (sent ?c ++ ?n4)%list, He : sent ?e = (sent ?d ++ ?n5)%list
    |- _ =>
      exists (n1 ++ n2)%list, r4, r5, (n4 ++ n5)%list, r8, resp4, d4, resp5, d5, u5
  end.
  cbn in *.
  assert (Hlen : List.length (sent x1) = List.length (sent s) + 3)
    by (rewrite Hs2, Hs1, !length_app, Hn1, Hn2; lia).
  split.
  { rewrite Hs6, Hs5, Hs4, Hs3, Hs2, Hs1, <- !app_assoc. reflexivity. }
  split; [rewrite length_app, Hn1, Hn2; reflexivity|].
  split; [rewrite length_app, Hn4, Hn5; reflexivity|].
  split; [rewrite <- Hr4, Ht2, Ht1, Hlen; reflexivity|].
  split; [exact Hb4|].
  split.
  { replace (List.length (sent s) + 4) with (S (List.length (sent s) + 3)) by lia.
    rewrite <- Hr5, Ht2, Ht1, Hlen. reflexivity. }
  split; [exact Hb5|]. split; [exact Hu5|]. split; [exact Hu8|].
  rewrite Hj8, Hc5, Hc4, Hc3, Hg5, Hg4, Hg3. reflexivity.
Qed.
